(** * coupongo: configuration store, key validation and batch creation

    A shallow embedding of the parts of the coupongo command-line client
    that carry logic of their own: the multi-environment configuration
    manager (internal/config), the request validation and the batch
    promotion-code loop of the Stripe services (internal/stripe), and the
    key masking and the batch command of the CLI (internal/cli).

    Go strings are byte sequences and are modelled by [string]; Go [int]
    and [int64] values are modelled by [Z]; Go maps by [gmap], with the
    nil map kept apart from the empty one. *)

From Stdlib Require Import ZArith Lia List String Ascii Bool DecimalString.
From Stdlib Require DecimalPos DecimalZ.
From stdpp Require Import base option gmap strings list fin_maps.

Local Open Scope string_scope.
Local Open Scope Z_scope.

(* ===================================================================== *)
(** ** Go error values *)
(* ===================================================================== *)

Module GoError.

(** The two package-level error values of internal/config. *)
Inductive sentinel : Type :=
| ErrEnvironmentNotFound
| ErrInvalidAPIKey.

(** An error value: one of the package-level values made by
    [errors.New], a fresh value made by [fmt.Errorf] without [%w] (or
    handed over by a library), or a value made by [fmt.Errorf] with one
    [%w] verb, which remembers the error it wraps next to its text. *)
Inductive error : Type :=
| ErrSentinel (s : sentinel)
| ErrText (msg : string)
| ErrWrap (msg : string) (inner : error).

Definition sentinel_text (s : sentinel) : string :=
  match s with
  | ErrEnvironmentNotFound => "environment not found"
  | ErrInvalidAPIKey => "invalid API key format"
  end.

(** The [Error()] method. *)
Definition Error (e : error) : string :=
  match e with
  | ErrSentinel s => sentinel_text s
  | ErrText msg => msg
  | ErrWrap msg _ => msg
  end.

Definition sentinel_eqb (a b : sentinel) : bool :=
  match a, b with
  | ErrEnvironmentNotFound, ErrEnvironmentNotFound => true
  | ErrInvalidAPIKey, ErrInvalidAPIKey => true
  | _, _ => false
  end.

(** [errors.Is err target] for a package-level target: walks the chain
    of wrapped errors and compares by identity. *)
Fixpoint errors_Is (e : error) (target : sentinel) : bool :=
  match e with
  | ErrSentinel s => sentinel_eqb s target
  | ErrText _ => false
  | ErrWrap _ inner => errors_Is inner target
  end.

(** [fmt.Errorf(pre + "%w" + post, e)]. *)
Definition Errorf_w (pre : string) (e : error) (post : string) : error :=
  ErrWrap (pre ++ Error e ++ post) e.

End GoError.
Export GoError.

(* ===================================================================== *)
(** ** The fmt verbs the program uses *)
(* ===================================================================== *)

Module Fmt.

(** [%d] on an integer. *)
Definition fmt_d (z : Z) : string := NilZero.string_of_int (Z.to_int z).

Fixpoint zeros (n : nat) : string :=
  match n with
  | O => ""
  | S n' => String "0" (zeros n')
  end.

(** [%05d]: padded with zeros to five columns, the sign first. *)
Definition fmt_05d (z : Z) : string :=
  if z <? 0 then
    let digits := fmt_d (- z) in
    "-" ++ zeros (4 - String.length digits) ++ digits
  else
    let digits := fmt_d z in
    zeros (5 - String.length digits) ++ digits.

End Fmt.
Export Fmt.

(* ===================================================================== *)
(** ** pkg/types *)
(* ===================================================================== *)

Module Types.

Record Environment : Type := {
  StripeAPIKey : string;
  DefaultCurrency : string;
  OutputFormat : string
}.

(** A Go map value: [None] is the nil map, [Some m] an allocated one. *)
Definition gomap (V : Type) : Type := option (gmap string V).

Record Config : Type := {
  CurrentEnvironment : string;
  Environments : gomap Environment
}.

Definition OutputFormatTable : string := "table".
Definition OutputFormatJSON : string := "json".

Definition DefaultConfig : Config :=
  {| CurrentEnvironment := "test";
     Environments :=
       Some {[ "test" := {| StripeAPIKey := "";
                            DefaultCurrency := "usd";
                            OutputFormat := OutputFormatTable |} ]} |}.

(** Reading a map: a nil map reads like an empty one. *)
Definition entries {V} (m : gomap V) : gmap string V :=
  match m with
  | Some g => g
  | None => ∅
  end.

(** [v, exists := m[k]]. *)
Definition map_index {V} (m : gomap V) (k : string) : option V :=
  entries m !! k.

(** [len(m)]. *)
Definition map_len {V} (m : gomap V) : nat := size (entries m).

End Types.
Export Types.

(* ===================================================================== *)
(** ** internal/config: the configuration manager *)
(* ===================================================================== *)

(** What the manager needs from the operating system and from
    encoding/json.  The file system is a state [FS] threaded through the
    calls; reading does not change it. *)
Class Host : Type := {
  FS : Type;
  os_UserHomeDir : FS -> string;
  os_ReadFile : string -> FS -> string + error;
  os_IsNotExist : error -> bool;
  os_MkdirAll : string -> Z -> FS -> option error * FS;
  os_WriteFile : string -> string -> Z -> FS -> option error * FS;
  filepath_Join : string -> string -> string;
  filepath_Dir : string -> string;
  (** [json.MarshalIndent(v, "", "  ")] on a [*types.Config]. *)
  json_MarshalIndent : option Config -> string + error;
  (** [json.Unmarshal(data, &config)] into a zero [types.Config]. *)
  json_Unmarshal : string -> Config + error
}.

(** A call either returns or panics. *)
Inductive outcome (A : Type) : Type :=
| Returns (a : A)
| Panics (msg : string).
Arguments Returns {A} a.
Arguments Panics {A} msg.

Module ConfigStore.

Definition ConfigFileName : string := ".coupongo.json".
Definition ConfigFileMode : Z := 384. (* 0600 *)

Record Manager : Type := {
  config : option Config;
  filePath : string
}.

Definition set_config (m : Manager) (c : Config) : Manager :=
  {| config := Some c; filePath := filePath m |}.

(** [validateAPIKey]. *)
Definition validateAPIKey (apiKey : string) : option error :=
  if String.eqb apiKey "" then
    Some (ErrText "API key cannot be empty")
  else if negb (String.prefix "sk_" apiKey) && negb (String.prefix "rk_" apiKey) then
    Some (Errorf_w "" (ErrSentinel ErrInvalidAPIKey) ": key must start with 'sk_' or 'rk_'")
  else if (String.length apiKey <? 20)%nat then
    Some (Errorf_w "" (ErrSentinel ErrInvalidAPIKey) ": key too short")
  else None.

(** The key the statement [for k := range m { ...; break }] binds: Go
    starts a map iteration at an entry of its choosing, [pick] says which
    one this run takes.  [None] when the map has no entry and the body
    does not run. *)
Definition range_first {V} (pick : nat) (m : gmap string V) : option string :=
  let keys := (map_to_list m).*1 in
  keys !! (pick mod length keys)%nat.

Section WithHost.
Context `{Host}.

Definition NewManager (fs : FS) : Manager :=
  {| config := None;
     filePath := filepath_Join (os_UserHomeDir fs) ConfigFileName |}.

Definition Save (m : Manager) (fs : FS) : option error * FS :=
  match json_MarshalIndent (config m) with
  | inr err => (Some (Errorf_w "failed to marshal config: " err ""), fs)
  | inl data =>
      match os_MkdirAll (filepath_Dir (filePath m)) 493 fs with
      | (Some err, fs1) =>
          (Some (Errorf_w "failed to create config directory: " err ""), fs1)
      | (None, fs1) =>
          match os_WriteFile (filePath m) data ConfigFileMode fs1 with
          | (Some err, fs2) =>
              (Some (Errorf_w "failed to write config file: " err ""), fs2)
          | (None, fs2) => (None, fs2)
          end
      end
  end.

Definition Load (m : Manager) (fs : FS) : option error * Manager * FS :=
  match os_ReadFile (filePath m) fs with
  | inr err =>
      if os_IsNotExist err then
        let m1 := set_config m DefaultConfig in
        let '(r, fs1) := Save m1 fs in (r, m1, fs1)
      else (Some (Errorf_w "failed to read config file: " err ""), m, fs)
  | inl data =>
      match json_Unmarshal data with
      | inr err => (Some (Errorf_w "failed to parse config file: " err ""), m, fs)
      | inl cfg =>
          let envs :=
            match Environments cfg with
            | None => Some ∅
            | Some g => Some g
            end in
          let cur :=
            if String.eqb (CurrentEnvironment cfg) "" then "test"
            else CurrentEnvironment cfg in
          (None, set_config m {| CurrentEnvironment := cur; Environments := envs |}, fs)
      end
  end.

Definition GetCurrentEnvironment (m : Manager) : string :=
  match config m with
  | None => "test"
  | Some c => CurrentEnvironment c
  end.

Definition GetEnvironment (m : Manager) (name : string) : Environment + error :=
  match config m with
  | None => inr (ErrText "config not loaded")
  | Some c =>
      match map_index (Environments c) name with
      | None => inr (Errorf_w "" (ErrSentinel ErrEnvironmentNotFound) (": " ++ name))
      | Some env => inl env
      end
  end.

Definition GetCurrentEnvironmentConfig (m : Manager) : Environment + error :=
  GetEnvironment m (GetCurrentEnvironment m).

Definition SetCurrentEnvironment (name : string) (m : Manager) (fs : FS)
  : option error * Manager * FS :=
  match config m with
  | None => (Some (ErrText "config not loaded"), m, fs)
  | Some c =>
      match map_index (Environments c) name with
      | None =>
          (Some (Errorf_w "" (ErrSentinel ErrEnvironmentNotFound) (": " ++ name)), m, fs)
      | Some _ =>
          let m1 := set_config m {| CurrentEnvironment := name;
                                    Environments := Environments c |} in
          let '(r, fs1) := Save m1 fs in (r, m1, fs1)
      end
  end.

(** [m.config.Environments[name] = env]; storing into a nil map
    panics. *)
Definition store_env (c : Config) (name : string) (env : Environment)
  : outcome Config :=
  match Environments c with
  | None => Panics "assignment to entry in nil map"
  | Some g =>
      Returns {| CurrentEnvironment := CurrentEnvironment c;
                 Environments := Some (<[name := env]> g) |}
  end.

Definition AddEnvironment (name : string) (env : Environment) (m : Manager) (fs : FS)
  : outcome (option error * Manager * FS) :=
  match config m with
  | None => Returns (Some (ErrText "config not loaded"), m, fs)
  | Some c =>
      if String.eqb name "" then
        Returns (Some (ErrText "environment name cannot be empty"), m, fs)
      else
        match (if String.eqb (StripeAPIKey env) "" then None
               else validateAPIKey (StripeAPIKey env)) with
        | Some err => Returns (Some err, m, fs)
        | None =>
            let currency :=
              if String.eqb (DefaultCurrency env) "" then "usd"
              else DefaultCurrency env in
            let format :=
              if String.eqb (OutputFormat env) "" then OutputFormatTable
              else OutputFormat env in
            let env1 := {| StripeAPIKey := StripeAPIKey env;
                           DefaultCurrency := currency;
                           OutputFormat := format |} in
            match store_env c name env1 with
            | Panics msg => Panics msg
            | Returns c1 =>
                let m1 := set_config m c1 in
                let '(r, fs1) := Save m1 fs in Returns (r, m1, fs1)
            end
        end
  end.

(** [pick] resolves the choice the range loop makes, see
    [range_first]. *)
Definition RemoveEnvironment (pick : nat) (name : string) (m : Manager) (fs : FS)
  : option error * Manager * FS :=
  match config m with
  | None => (Some (ErrText "config not loaded"), m, fs)
  | Some c =>
      match map_index (Environments c) name with
      | None =>
          (Some (Errorf_w "" (ErrSentinel ErrEnvironmentNotFound) (": " ++ name)), m, fs)
      | Some _ =>
          if (map_len (Environments c) =? 1)%nat then
            (Some (ErrText "cannot remove the last environment"), m, fs)
          else
            let envs : gomap Environment :=
              match Environments c with
              | None => None
              | Some g => Some (delete name g)
              end in
            let cur :=
              if String.eqb (CurrentEnvironment c) name then
                match range_first pick (entries envs) with
                | Some envName => envName
                | None => CurrentEnvironment c
                end
              else CurrentEnvironment c in
            let m1 := set_config m {| CurrentEnvironment := cur;
                                      Environments := envs |} in
            let '(r, fs1) := Save m1 fs in (r, m1, fs1)
      end
  end.

Definition UpdateEnvironmentAPIKey (envName apiKey : string) (m : Manager) (fs : FS)
  : option error * Manager * FS :=
  match config m with
  | None => (Some (ErrText "config not loaded"), m, fs)
  | Some c =>
      match Environments c, map_index (Environments c) envName with
      | Some g, Some env =>
          match validateAPIKey apiKey with
          | Some err => (Some err, m, fs)
          | None =>
              let env1 := {| StripeAPIKey := apiKey;
                             DefaultCurrency := DefaultCurrency env;
                             OutputFormat := OutputFormat env |} in
              let m1 := set_config m {| CurrentEnvironment := CurrentEnvironment c;
                                        Environments := Some (<[envName := env1]> g) |} in
              let '(r, fs1) := Save m1 fs in (r, m1, fs1)
          end
      | _, _ =>
          (Some (Errorf_w "" (ErrSentinel ErrEnvironmentNotFound) (": " ++ envName)), m, fs)
      end
  end.

Definition GetConfig (m : Manager) : option Config := config m.

Definition Reset (m : Manager) (fs : FS) : option error * Manager * FS :=
  let m1 := set_config m DefaultConfig in
  let '(r, fs1) := Save m1 fs in (r, m1, fs1).

End WithHost.

End ConfigStore.
Export ConfigStore.

(* ===================================================================== *)
(** ** internal/stripe: coupon and promotion-code services *)
(* ===================================================================== *)

(** A [float64], kept as its IEEE 754 bit pattern; the program only
    passes it on. *)
Definition float64 : Type := Z.

Definition newline : string := String "010"%char EmptyString.

(** [int64(x)]: two's complement wrap-around. *)
Definition wrap64 (x : Z) : Z := (x + 2 ^ 63) mod 2 ^ 64 - 2 ^ 63.

Module Params.

(** [stripe.PromotionCodeRestrictionsParams]. *)
Record PromotionCodeRestrictionsParams : Type := {
  rp_FirstTimeTransaction : option bool;
  rp_MinimumAmount : option Z;
  rp_MinimumAmountCurrency : option string
}.

(** [stripe.PromotionCodeParams], the fields the program sets. *)
Record PromotionCodeParams : Type := {
  pp_Coupon : option string;
  pp_Code : option string;
  pp_Active : option bool;
  pp_Customer : option string;
  pp_MaxRedemptions : option Z;
  pp_ExpiresAt : option Z;
  pp_Metadata : gomap string;
  pp_Restrictions : option PromotionCodeRestrictionsParams
}.

(** [stripe.CouponParams], the fields the program sets. *)
Record CouponParams : Type := {
  cp_Duration : option string;
  cp_ID : option string;
  cp_Name : option string;
  cp_PercentOff : option float64;
  cp_AmountOff : option Z;
  cp_Currency : option string;
  cp_DurationInMonths : option Z;
  cp_MaxRedemptions : option Z;
  cp_RedeemBy : option Z;
  cp_Metadata : gomap string;
  cp_AppliesTo : option (list string);
  cp_CurrencyOptions : gomap Z
}.

(** List parameters: the filters added with [Filters.AddFilter]. *)
Definition ListParams : Type := list (string * string * string).

(** A [promptui.Prompt]. *)
Record Prompt : Type := {
  Label : string;
  Default : string;
  Validate : option (string -> option error)
}.

End Params.
Export Params.

(** One call sent to Stripe. *)
Inductive Call : Type :=
| CallPromotionCodeList (p : ListParams)
| CallPromotionCodeGet (id : string)
| CallPromotionCodeNew (p : PromotionCodeParams)
| CallPromotionCodeUpdate (id : string) (p : PromotionCodeParams)
| CallCouponList (p : ListParams)
| CallCouponGet (id : string)
| CallCouponNew (p : CouponParams)
| CallCouponUpdate (id : string) (p : CouponParams)
| CallCouponDel (id : string).

(** A call together with the error it came back with, if any. *)
Record Exchange : Type := {
  sent : Call;
  failure : option error
}.

(** What the services need from outside the repository: the Stripe SDK
    (stripe-go's package-level functions hand back an allocated object
    together with the error), the clock, math/rand, strings and strconv,
    and the terminal prompt.  Everything outside the process is the state
    [World]. *)
Class Outside : Type := {
  World : Type;
  PromotionCode : Type;
  Coupon : Type;
  (** The objects the iterator of [List] yields, and its [Err()]. *)
  promotioncode_List : ListParams -> World -> (list PromotionCode * option error) * World;
  promotioncode_Get : string -> World -> (PromotionCode * option error) * World;
  promotioncode_New : PromotionCodeParams -> World -> (PromotionCode * option error) * World;
  promotioncode_Update :
    string -> PromotionCodeParams -> World -> (PromotionCode * option error) * World;
  coupon_List : ListParams -> World -> (list Coupon * option error) * World;
  coupon_Get : string -> World -> (Coupon * option error) * World;
  coupon_New : CouponParams -> World -> (Coupon * option error) * World;
  coupon_Update : string -> CouponParams -> World -> (Coupon * option error) * World;
  coupon_Del : string -> World -> (Coupon * option error) * World;
  (** [time.Now().UnixNano()]. *)
  time_Now_UnixNano : World -> Z * World;
  (** [rand.New(rand.NewSource(seed)).Intn(n)]. *)
  rand_Intn : Z -> Z -> Z;
  strings_ToUpper : string -> string;
  strconv_Atoi : string -> Z * option error;
  strconv_ParseInt : string -> Z * option error;
  (** [prompt.Run()]. *)
  promptui_Run : Prompt -> World -> (string * option error) * World
}.

(** Computations that act on the world and leave a trace of the Stripe
    calls they made. *)
Module Eff.

Section WithOutside.
Context `{Outside}.

Definition M (A : Type) : Type := World -> A * World * list Exchange.

Definition ret {A} (a : A) : M A := fun w => (a, w, []).

Definition bind {A B} (m : M A) (f : A -> M B) : M B :=
  fun w =>
    let '(a, w1, t1) := m w in
    let '(b, w2, t2) := f a w1 in
    (b, w2, (t1 ++ t2)%list).

(** An action on the world that is no Stripe call. *)
Definition lift {A} (f : World -> A * World) : M A :=
  fun w => let '(a, w1) := f w in (a, w1, []).

(** A Stripe call: performed and recorded. *)
Definition stripe_call {A} (c : Call) (f : World -> (A * option error) * World)
  : M (A * option error) :=
  fun w =>
    let '(r, w1) := f w in
    (r, w1, [ {| sent := c; failure := snd r |} ]).

End WithOutside.

End Eff.
Export Eff.

Notation "'call' x <- m ; k" := (bind m (fun x => k))
  (at level 10, x name, m at level 100, k at level 200).
Notation "'call' ' p <- m ; k" := (bind m (fun x => let 'p := x in k))
  (at level 10, p pattern, m at level 100, k at level 200).

Module StripeSvc.

(** [Client]: [sc] is the SDK client bound by [Initialize], with the key
    it was bound to. *)
Record Client : Type := {
  sc : option string
}.

Definition IsInitialized (c : Client) : bool :=
  match sc c with
  | Some _ => true
  | None => false
  end.

Record PromotionCodeRestrictions : Type := {
  r_FirstTimeTransaction : option bool;
  r_MinimumAmount : option Z;
  r_Currency : string
}.

Record PromotionCodeCreateOptions : Type := {
  pc_CouponID : string;
  pc_Code : string;
  pc_Active : option bool;
  pc_Customer : string;
  pc_MaxRedemptions : option Z;
  pc_MinimumAmount : option Z;
  pc_Currency : string;
  pc_ExpiresAt : option Z;
  pc_FirstTimeTransaction : option bool;
  pc_Metadata : gomap string;
  pc_Restrictions : option PromotionCodeRestrictions
}.

Record BatchCreateOptions : Type := {
  b_CouponID : string;
  b_Count : Z;
  b_Prefix : string;
  b_Customer : string;
  b_MaxRedemptions : option Z;
  b_MinimumAmount : option Z;
  b_Currency : string;
  b_ExpiresAt : option Z;
  b_FirstTimeTransaction : option bool;
  b_Metadata : gomap string
}.

(** [CouponCurrencyOptions]. *)
Record CouponCurrencyOptions : Type := {
  co_AmountOff : option Z
}.

Record CouponCreateOptions : Type := {
  c_ID : string;
  c_Name : string;
  c_PercentOff : option float64;
  c_AmountOff : option Z;
  c_Currency : string;
  c_Duration : string;
  c_DurationInMonths : option Z;
  c_MaxRedemptions : option Z;
  c_RedeemBy : option Z;
  c_AppliesTo : option (list string);
  c_CurrencyOptions : gomap (option CouponCurrencyOptions);
  c_Metadata : gomap string
}.

Record CouponUpdateOptions : Type := {
  u_Name : string;
  u_Metadata : gomap string
}.

(** [stripe.String(s)] when [s] is not empty. *)
Definition nonempty (s : string) : option string :=
  if String.eqb s "" then None else Some s.

(** The local [min]. *)
Definition min (a b : Z) : Z := if a <? b then a else b.

Definition validDurations : gmap string bool :=
  {[ "forever" := true; "once" := true; "repeating" := true ]}.

(** The restrictions block of [CreatePromotionCode]. *)
Definition restrictions_of (opts : PromotionCodeCreateOptions)
  : option PromotionCodeRestrictionsParams :=
  match pc_Restrictions opts, pc_MinimumAmount opts, pc_FirstTimeTransaction opts with
  | None, None, None => None
  | _, _, _ =>
      Some {| rp_FirstTimeTransaction := pc_FirstTimeTransaction opts;
              rp_MinimumAmount := pc_MinimumAmount opts;
              rp_MinimumAmountCurrency :=
                match pc_MinimumAmount opts with
                | Some _ => nonempty (pc_Currency opts)
                | None => None
                end |}
  end.

(** The request [CreatePromotionCode] builds from its options. *)
Definition promotion_params (opts : PromotionCodeCreateOptions) : PromotionCodeParams :=
  {| pp_Coupon := Some (pc_CouponID opts);
     pp_Code := nonempty (pc_Code opts);
     pp_Active := pc_Active opts;
     pp_Customer := nonempty (pc_Customer opts);
     pp_MaxRedemptions := pc_MaxRedemptions opts;
     pp_ExpiresAt := pc_ExpiresAt opts;
     pp_Metadata := pc_Metadata opts;
     pp_Restrictions := restrictions_of opts |}.

(** The [createOpts] of one round of the batch loop. *)
Definition batch_item_options (opts : BatchCreateOptions) (code : string)
  : PromotionCodeCreateOptions :=
  {| pc_CouponID := b_CouponID opts;
     pc_Code := code;
     pc_Active := None;
     pc_Customer := b_Customer opts;
     pc_MaxRedemptions := b_MaxRedemptions opts;
     pc_MinimumAmount := b_MinimumAmount opts;
     pc_Currency := b_Currency opts;
     pc_ExpiresAt := b_ExpiresAt opts;
     pc_FirstTimeTransaction := b_FirstTimeTransaction opts;
     pc_Metadata := b_Metadata opts;
     pc_Restrictions := None |}.

(** The text [generatePromotionCode] formats. *)
Definition code_text (upper : string) (index suffix : Z) : string :=
  upper ++ fmt_d index ++ "_" ++ fmt_05d suffix.

(** The summary [BatchCreatePromotionCodes] builds when some call
    failed. *)
Definition batch_summary (created : nat) (count : Z) (errors : list error) : string :=
  let head :=
    "created " ++ fmt_d (Z.of_nat created) ++ "/" ++ fmt_d count ++ " codes successfully" in
  let shown :=
    fold_left (fun msg err => msg ++ newline ++ "  " ++ Error err)
      (take (Z.to_nat (min (Z.of_nat (length errors)) 5)) errors) head in
  if 5 <? Z.of_nat (length errors) then
    shown ++ newline ++ "  ... and " ++ fmt_d (Z.of_nat (length errors) - 5) ++ " more errors"
  else shown.

Section WithOutside.
Context `{Outside}.

Definition ListPromotionCodes (client : Client) (couponID : string)
  : M (list PromotionCode * option error) :=
  if negb (IsInitialized client) then
    ret ([], Some (ErrText "client not initialized"))
  else
    let params : ListParams :=
      ([("limit", "", "100")]
       ++ (if String.eqb couponID "" then [] else [("coupon", "", couponID)]))%list in
    call '(codes, err) <-
      stripe_call (CallPromotionCodeList params) (promotioncode_List params);
    match err with
    | Some e => ret ([], Some (Errorf_w "failed to list promotion codes: " e ""))
    | None => ret (codes, None)
    end.

Definition GetPromotionCode (client : Client) (id : string)
  : M (option PromotionCode * option error) :=
  if negb (IsInitialized client) then
    ret (None, Some (ErrText "client not initialized"))
  else
    call '(pc, err) <- stripe_call (CallPromotionCodeGet id) (promotioncode_Get id);
    match err with
    | Some e =>
        ret (None, Some (Errorf_w ("failed to get promotion code " ++ id ++ ": ") e ""))
    | None => ret (Some pc, None)
    end.

Definition CreatePromotionCode (client : Client) (opts : PromotionCodeCreateOptions)
  : M (option PromotionCode * option error) :=
  if negb (IsInitialized client) then
    ret (None, Some (ErrText "client not initialized"))
  else if String.eqb (pc_CouponID opts) "" then
    ret (None, Some (ErrText "coupon ID is required"))
  else
    let params := promotion_params opts in
    call '(pc, err) <- stripe_call (CallPromotionCodeNew params) (promotioncode_New params);
    match err with
    | Some e => ret (None, Some (Errorf_w "failed to create promotion code: " e ""))
    | None => ret (Some pc, None)
    end.

Definition UpdatePromotionCode (client : Client) (id : string) (active : bool)
    (metadata : gomap string) : M (option PromotionCode * option error) :=
  if negb (IsInitialized client) then
    ret (None, Some (ErrText "client not initialized"))
  else
    let params :=
      {| pp_Coupon := None; pp_Code := None; pp_Active := Some active;
         pp_Customer := None; pp_MaxRedemptions := None; pp_ExpiresAt := None;
         pp_Metadata := metadata; pp_Restrictions := None |} in
    call '(pc, err) <-
      stripe_call (CallPromotionCodeUpdate id params) (promotioncode_Update id params);
    match err with
    | Some e =>
        ret (None, Some (Errorf_w ("failed to update promotion code " ++ id ++ ": ") e ""))
    | None => ret (Some pc, None)
    end.

(** [generatePromotionCode]. *)
Definition generatePromotionCode (prefix : string) (index : Z) : M string :=
  let prefix := if String.eqb prefix "" then "PROMO" else prefix in
  call now <- lift time_Now_UnixNano;
  let suffix := rand_Intn (wrap64 (now + index)) 100000 in
  ret (code_text (strings_ToUpper prefix) index suffix).

(** The loop of [BatchCreatePromotionCodes]: [n] iterations are left,
    [i] is the loop variable.  The slice [codes] holds pointers. *)
Fixpoint batch_loop (client : Client) (opts : BatchCreateOptions) (n : nat) (i : Z)
    (codes : list (option PromotionCode)) (errors : list error)
  : M (list (option PromotionCode) * list error) :=
  match n with
  | O => ret (codes, errors)
  | S n' =>
      call code <- generatePromotionCode (b_Prefix opts) (i + 1);
      let createOpts := batch_item_options opts code in
      call '(pc, err) <- CreatePromotionCode client createOpts;
      match err with
      | Some e =>
          batch_loop client opts n' (i + 1) codes
            (errors ++ [Errorf_w ("failed to create code " ++ code ++ ": ") e ""])%list
      | None => batch_loop client opts n' (i + 1) (codes ++ [pc])%list errors
      end
  end.

Definition BatchCreatePromotionCodes (client : Client) (opts : BatchCreateOptions)
  : M (list (option PromotionCode) * option error) :=
  if negb (IsInitialized client) then
    ret ([], Some (ErrText "client not initialized"))
  else if String.eqb (b_CouponID opts) "" then
    ret ([], Some (ErrText "coupon ID is required"))
  else if b_Count opts <=? 0 then
    ret ([], Some (ErrText "count must be greater than 0"))
  else if 1000 <? b_Count opts then
    ret ([], Some (ErrText "count cannot exceed 1000"))
  else
    call '(codes, errors) <- batch_loop client opts (Z.to_nat (b_Count opts)) 0 [] [];
    if (0 <? length errors)%nat then
      ret (codes, Some (ErrText (batch_summary (length codes) (b_Count opts) errors)))
    else ret (codes, None).

Definition ListCoupons (client : Client) : M (list Coupon * option error) :=
  if negb (IsInitialized client) then
    ret ([], Some (ErrText "client not initialized"))
  else
    let params : ListParams := [("limit", "", "100")] in
    call '(coupons, err) <- stripe_call (CallCouponList params) (coupon_List params);
    match err with
    | Some e => ret ([], Some (Errorf_w "failed to list coupons: " e ""))
    | None => ret (coupons, None)
    end.

Definition GetCoupon (client : Client) (id : string)
  : M (option Coupon * option error) :=
  if negb (IsInitialized client) then
    ret (None, Some (ErrText "client not initialized"))
  else
    call '(c, err) <- stripe_call (CallCouponGet id) (coupon_Get id);
    match err with
    | Some e => ret (None, Some (Errorf_w ("failed to get coupon " ++ id ++ ": ") e ""))
    | None => ret (Some c, None)
    end.

(** The request [CreateCoupon] sends once the options passed
    validation; [duration] is the duration after defaulting. *)
Definition coupon_params (opts : CouponCreateOptions) (duration : string) : CouponParams :=
  {| cp_Duration := Some duration;
     cp_ID := nonempty (c_ID opts);
     cp_Name := nonempty (c_Name opts);
     cp_PercentOff := c_PercentOff opts;
     cp_AmountOff := c_AmountOff opts;
     cp_Currency :=
       match c_AmountOff opts with
       | Some _ => Some (c_Currency opts)
       | None => None
       end;
     cp_DurationInMonths := c_DurationInMonths opts;
     cp_MaxRedemptions := c_MaxRedemptions opts;
     cp_RedeemBy := c_RedeemBy opts;
     cp_Metadata := c_Metadata opts;
     cp_AppliesTo :=
       match c_AppliesTo opts with
       | Some (p :: ps) => Some (p :: ps)
       | _ => None
       end;
     cp_CurrencyOptions :=
       match c_CurrencyOptions opts with
       | None => None
       | Some g => Some (omap (fun o => o ≫= co_AmountOff) g)
       end |}.

Definition CreateCoupon (client : Client) (opts : CouponCreateOptions)
  : M (option Coupon * option error) :=
  if negb (IsInitialized client) then
    ret (None, Some (ErrText "client not initialized"))
  else
    match c_PercentOff opts, c_AmountOff opts with
    | None, None =>
        ret (None, Some (ErrText "either percent_off or amount_off must be specified"))
    | Some _, Some _ =>
        ret (None, Some (ErrText "cannot specify both percent_off and amount_off"))
    | _, _ =>
        if bool_decide (is_Some (c_AmountOff opts)) && String.eqb (c_Currency opts) "" then
          ret (None, Some (ErrText "currency is required when amount_off is specified"))
        else
          let duration :=
            if String.eqb (c_Duration opts) "" then "once" else c_Duration opts in
          if negb (default false (validDurations !! duration)) then
            ret (None, Some (ErrText ("invalid duration: " ++ duration ++
                                      " (must be forever, once, or repeating)")))
          else if String.eqb duration "repeating"
                  && negb (bool_decide (is_Some (c_DurationInMonths opts))) then
            ret (None,
                 Some (ErrText "duration_in_months is required when duration is repeating"))
          else
            let params := coupon_params opts duration in
            call '(c, err) <- stripe_call (CallCouponNew params) (coupon_New params);
            match err with
            | Some e => ret (None, Some (Errorf_w "failed to create coupon: " e ""))
            | None => ret (Some c, None)
            end
    end.

Definition UpdateCoupon (client : Client) (id : string) (opts : CouponUpdateOptions)
  : M (option Coupon * option error) :=
  if negb (IsInitialized client) then
    ret (None, Some (ErrText "client not initialized"))
  else
    let params :=
      {| cp_Duration := None; cp_ID := None; cp_Name := nonempty (u_Name opts);
         cp_PercentOff := None; cp_AmountOff := None; cp_Currency := None;
         cp_DurationInMonths := None; cp_MaxRedemptions := None; cp_RedeemBy := None;
         cp_Metadata := u_Metadata opts; cp_AppliesTo := None;
         cp_CurrencyOptions := None |} in
    call '(c, err) <- stripe_call (CallCouponUpdate id params) (coupon_Update id params);
    match err with
    | Some e => ret (None, Some (Errorf_w ("failed to update coupon " ++ id ++ ": ") e ""))
    | None => ret (Some c, None)
    end.

Definition DeleteCoupon (client : Client) (id : string) : M (option error) :=
  if negb (IsInitialized client) then
    ret (Some (ErrText "client not initialized"))
  else
    call '(_, err) <- stripe_call (CallCouponDel id) (coupon_Del id);
    match err with
    | Some e => ret (Some (Errorf_w ("failed to delete coupon " ++ id ++ ": ") e ""))
    | None => ret None
    end.

End WithOutside.

End StripeSvc.
Export StripeSvc.

(* ===================================================================== *)
(** ** internal/cli *)
(* ===================================================================== *)

Module Cli.

(** [maskAPIKey]. *)
Definition maskAPIKey (apiKey : string) : string :=
  if String.eqb apiKey "" then "Not set"
  else if (String.length apiKey <=? 10)%nat then "****"
  else
    let prefix := substring 0 3 apiKey in
    let suffix := substring (String.length apiKey - 4) 4 apiKey in
    prefix ++ "****" ++ suffix.

Section WithOutside.
Context `{Outside}.

Definition countPrompt : Prompt :=
  {| Label := "Number of promotion codes to create (1-1000)";
     Default := "";
     Validate := Some (fun input =>
       let '(val, err) := strconv_Atoi input in
       match err with
       | Some _ => Some (ErrText "invalid number")
       | None =>
           if (val <=? 0) || (1000 <? val) then
             Some (ErrText "count must be between 1 and 1000")
           else None
       end) |}.

Definition prefixPrompt : Prompt :=
  {| Label := "Code prefix"; Default := "PROMO"; Validate := None |}.

Definition maxRedemptionsPrompt : Prompt :=
  {| Label := "Max redemptions per code (leave empty for unlimited)";
     Default := "";
     Validate := Some (fun input =>
       if String.eqb input "" then None
       else
         let '(val, err) := strconv_ParseInt input in
         match err with
         | Some _ => Some (ErrText "invalid number")
         | None =>
             if val <=? 0 then Some (ErrText "max redemptions must be greater than 0")
             else None
         end) |}.

Definition empty_batch_options (couponID : string) : BatchCreateOptions :=
  {| b_CouponID := couponID; b_Count := 0; b_Prefix := ""; b_Customer := "";
     b_MaxRedemptions := None; b_MinimumAmount := None; b_Currency := "";
     b_ExpiresAt := None; b_FirstTimeTransaction := None; b_Metadata := None |}.

(** [promptBatchCreateOptions]. *)
Definition promptBatchCreateOptions (couponID : string)
  : M (BatchCreateOptions * option error) :=
  let opts := empty_batch_options couponID in
  call '(countStr, err) <- lift (promptui_Run countPrompt);
  match err with
  | Some e => ret (opts, Some e)
  | None =>
      call '(prefix, _) <- lift (promptui_Run prefixPrompt);
      call '(maxRedemptionsStr, _) <- lift (promptui_Run maxRedemptionsPrompt);
      ret ({| b_CouponID := couponID;
              b_Count := fst (strconv_Atoi countStr);
              b_Prefix := prefix;
              b_Customer := "";
              b_MaxRedemptions :=
                if String.eqb maxRedemptionsStr "" then None
                else Some (fst (strconv_ParseInt maxRedemptionsStr));
              b_MinimumAmount := None; b_Currency := "";
              b_ExpiresAt := None; b_FirstTimeTransaction := None;
              b_Metadata := None |}, None)
  end.

(** The [RunE] of [promoBatchCmd]: [couponID] is the argument, [count],
    [prefix] and [maxRedemptions] are the flags.  What the command
    prints is left out; the value is the error the command ends
    with. *)
Definition promoBatchCmd (stripeClient : Client) (couponID : string)
    (count : Z) (prefix : string) (maxRedemptions : Z) : M (option error) :=
  call '(coupon, err) <- GetCoupon stripeClient couponID;
  match err with
  | Some e => ret (Some (Errorf_w "failed to verify coupon: " e ""))
  | None =>
      call '(opts, err) <-
        (if count =? 0 then promptBatchCreateOptions couponID
         else ret ({| b_CouponID := couponID; b_Count := count; b_Prefix := prefix;
                      b_Customer := ""; b_MaxRedemptions := Some maxRedemptions;
                      b_MinimumAmount := None; b_Currency := "";
                      b_ExpiresAt := None; b_FirstTimeTransaction := None;
                      b_Metadata := None |}, None));
      match err with
      | Some e => ret (Some (Errorf_w "failed to get batch options: " e ""))
      | None =>
          call '(codes, err) <- BatchCreatePromotionCodes stripeClient opts;
          match err with
          | Some e =>
              if (length codes =? 0)%nat then
                ret (Some (Errorf_w "failed to create promotion codes: " e ""))
              else ret None
          | None => ret None
          end
      end
  end.

End WithOutside.

End Cli.
Export Cli.

(* ===================================================================== *)
(** ** A reference host *)
(* ===================================================================== *)

(** UTF-8 as the package unicode/utf8 has it, for the strings
    encoding/json writes. *)
Module Utf8.

Definition between (lo hi : nat) (c : ascii) : bool :=
  (lo <=? nat_of_ascii c)%nat && (nat_of_ascii c <=? hi)%nat.

(** A continuation byte. *)
Definition cont (c : ascii) : bool := between 128 191 c.

(** The first two bytes of a sequence of three, and of four. *)
Definition lead3 (c c1 : ascii) : bool :=
  (between 224 224 c && between 160 191 c1)
  || ((between 225 236 c || between 238 239 c) && cont c1)
  || (between 237 237 c && between 128 159 c1).

Definition lead4 (c c1 : ascii) : bool :=
  (between 240 240 c && between 144 191 c1)
  || (between 241 243 c && cont c1)
  || (between 244 244 c && between 128 143 c1).

(** The byte number [k] of [r]; a byte that is no continuation byte
    when the string is shorter. *)
Definition byte_at (k : nat) (r : string) : ascii :=
  match String.get k r with
  | Some c => c
  | None => "000"%char
  end.

(** The size [utf8.DecodeRuneInString] finds for the sequence that
    starts with the byte [c], which is 128 or more, and goes on with
    [r]; 0 stands for its answer to a sequence that is not valid,
    [RuneError] with the size 1. *)
Definition rune_size (c : ascii) (r : string) : nat :=
  if between 194 223 c && cont (byte_at 0 r) then 2%nat
  else if lead3 c (byte_at 0 r) && cont (byte_at 1 r) then 3%nat
  else if lead4 c (byte_at 0 r) && cont (byte_at 1 r) && cont (byte_at 2 r) then 4%nat
  else 0%nat.

(** [utf8.ValidString]. *)
Fixpoint valid_utf8 (s : string) : bool :=
  match s with
  | EmptyString => true
  | String c r =>
      if (nat_of_ascii c <? 128)%nat then valid_utf8 r
      else
        match rune_size c r, r with
        | 2%nat, String _ r1 => valid_utf8 r1
        | 3%nat, String _ (String _ r2) => valid_utf8 r2
        | 4%nat, String _ (String _ (String _ r3)) => valid_utf8 r3
        | _, _ => false
        end
  end.

End Utf8.
Export Utf8.

(** An in-memory file system and a JSON codec for [types.Config], to run
    the manager on concrete inputs.  The codec writes what
    [json.MarshalIndent] writes (bytes that are no valid UTF-8 become
    U+FFFD), and reads JSON documents whose member names are spelled as
    in the struct tags. *)
Module RefJSON.

Definition dq : ascii := "034"%char.
Definition quoted (s : string) : string := String dq (s ++ String dq "").

Definition hex_digit (n : nat) : ascii :=
  nth n (list_ascii_of_string "0123456789abcdef") "0"%char.

Definition escape_char (c : ascii) : string :=
  let n := nat_of_ascii c in
  if (n =? 34)%nat then String "\" (String dq "")
  else if (n =? 92)%nat then "\\"
  else if (n =? 8)%nat then "\b"
  else if (n =? 12)%nat then "\f"
  else if (n =? 10)%nat then "\n"
  else if (n =? 13)%nat then "\r"
  else if (n =? 9)%nat then "\t"
  else if (n <? 32)%nat || (n =? 60)%nat || (n =? 62)%nat || (n =? 38)%nat then
    "\u00" ++ String (hex_digit (n / 16)) (String (hex_digit (n mod 16)) "")
  else String c "".

(** U+2028 and U+2029, which are written escaped. *)
Definition line_separator (c c1 c2 : ascii) : bool :=
  between 226 226 c && between 128 128 c1 && between 168 169 c2.

Fixpoint escape (s : string) : string :=
  match s with
  | EmptyString => ""
  | String c r =>
      if (nat_of_ascii c <? 128)%nat then escape_char c ++ escape r
      else
        match rune_size c r, r with
        | 2%nat, String c1 r1 => String c (String c1 (escape r1))
        | 3%nat, String c1 (String c2 r2) =>
            if line_separator c c1 c2 then
              (if between 168 168 c2 then "\u2028" else "\u2029") ++ escape r2
            else String c (String c1 (String c2 (escape r2)))
        | 4%nat, String c1 (String c2 (String c3 r3)) =>
            String c (String c1 (String c2 (String c3 (escape r3))))
        | _, _ => "\ufffd" ++ escape r
        end
  end.

Definition marshal_string (s : string) : string := quoted (escape s).

Definition marshal_env (pad : string) (e : Environment) : string :=
  "{" ++ newline
  ++ pad ++ "  " ++ quoted "stripe_api_key" ++ ": " ++ marshal_string (StripeAPIKey e)
  ++ "," ++ newline
  ++ pad ++ "  " ++ quoted "default_currency" ++ ": " ++ marshal_string (DefaultCurrency e)
  ++ "," ++ newline
  ++ pad ++ "  " ++ quoted "output_format" ++ ": " ++ marshal_string (OutputFormat e)
  ++ newline ++ pad ++ "}".

Fixpoint insert_sorted (kv : string * Environment) (l : list (string * Environment))
  : list (string * Environment) :=
  match l with
  | [] => [kv]
  | kv' :: l' =>
      if String.leb (fst kv) (fst kv') then kv :: l else kv' :: insert_sorted kv l'
  end.

Definition sorted_entries (g : gmap string Environment) : list (string * Environment) :=
  foldr insert_sorted [] (map_to_list g).

Fixpoint marshal_members (l : list (string * Environment)) : string :=
  match l with
  | [] => ""
  | (k, e) :: l' =>
      "    " ++ marshal_string k ++ ": " ++ marshal_env "    " e
      ++ (match l' with [] => "" | _ => "," end) ++ newline ++ marshal_members l'
  end.

Definition marshal_envs (m : gomap Environment) : string :=
  match m with
  | None => "null"
  | Some g =>
      match sorted_entries g with
      | [] => "{}"
      | l => "{" ++ newline ++ marshal_members l ++ "  }"
      end
  end.

Definition MarshalIndent (c : option Config) : string + error :=
  match c with
  | None => inl "null"
  | Some c =>
      inl ("{" ++ newline
           ++ "  " ++ quoted "current_environment" ++ ": "
           ++ marshal_string (CurrentEnvironment c) ++ "," ++ newline
           ++ "  " ++ quoted "environments" ++ ": " ++ marshal_envs (Environments c)
           ++ newline ++ "}")
  end.

(** *** Reading *)

#[local] Unset Elimination Schemes.
Inductive json : Type :=
| JNull
| JBool (b : bool)
| JNum (raw : string)
| JStr (s : string)
| JArr (l : list json)
| JObj (l : list (string * json)).
#[local] Set Elimination Schemes.

Definition is_ws (c : ascii) : bool :=
  let n := nat_of_ascii c in
  (n =? 32)%nat || (n =? 9)%nat || (n =? 10)%nat || (n =? 13)%nat.

Fixpoint skip_ws (s : string) : string :=
  match s with
  | String c r => if is_ws c then skip_ws r else s
  | EmptyString => s
  end.

Definition hex_value (c : ascii) : option nat :=
  let n := nat_of_ascii c in
  if (48 <=? n)%nat && (n <=? 57)%nat then Some (n - 48)%nat
  else if (97 <=? n)%nat && (n <=? 102)%nat then Some (n - 87)%nat
  else if (65 <=? n)%nat && (n <=? 70)%nat then Some (n - 55)%nat
  else None.

(** UTF-8 for a code point of the basic plane; a surrogate half reads
    as U+FFFD. *)
Definition utf8 (cp : nat) : string :=
  let b (n : nat) := String (ascii_of_nat n) "" in
  let cp :=
    if (216 * 256 <=? cp)%nat && (cp <? 224 * 256)%nat then (256 * 256 - 3)%nat else cp in
  if (cp <? 128)%nat then b cp
  else if (cp <? 2048)%nat then b (192 + cp / 64)%nat ++ b (128 + cp mod 64)%nat
  else b (224 + cp / 4096)%nat ++ b (128 + (cp / 64) mod 64)%nat ++ b (128 + cp mod 64)%nat.

Definition unescape (c : ascii) : option string :=
  let n := nat_of_ascii c in
  if (n =? 34)%nat then Some (String dq "")
  else if (n =? 92)%nat then Some "\"
  else if (n =? 47)%nat then Some "/"
  else if (n =? 98)%nat then Some (String (ascii_of_nat 8) "")
  else if (n =? 102)%nat then Some (String (ascii_of_nat 12) "")
  else if (n =? 110)%nat then Some newline
  else if (n =? 114)%nat then Some (String (ascii_of_nat 13) "")
  else if (n =? 116)%nat then Some (String (ascii_of_nat 9) "")
  else None.

(** The rest of a string literal, after its opening quote. *)
Fixpoint parse_string (s : string) : option (string * string) :=
  match s with
  | EmptyString => None
  | String c r =>
      if (nat_of_ascii c =? 34)%nat then Some ("", r)
      else if (nat_of_ascii c <? 32)%nat then None
      else if (nat_of_ascii c =? 92)%nat then
        match r with
        | String "u" (String h1 (String h2 (String h3 (String h4 r')))) =>
            match hex_value h1, hex_value h2, hex_value h3, hex_value h4 with
            | Some a, Some b, Some c', Some d =>
                '(body, rest) ← parse_string r';
                Some (utf8 (((a * 16 + b) * 16 + c') * 16 + d)%nat ++ body, rest)
            | _, _, _, _ => None
            end
        | String e r' =>
            match unescape e with
            | Some t => '(body, rest) ← parse_string r'; Some (t ++ body, rest)
            | None => None
            end
        | EmptyString => None
        end
      else '(body, rest) ← parse_string r; Some (String c body, rest)
  end.

Definition is_num_char (c : ascii) : bool :=
  let n := nat_of_ascii c in
  ((48 <=? n)%nat && (n <=? 57)%nat) || (n =? 45)%nat || (n =? 43)%nat
  || (n =? 46)%nat || (n =? 101)%nat || (n =? 69)%nat.

Fixpoint parse_number (s : string) : string * string :=
  match s with
  | String c r =>
      if is_num_char c then let '(d, rest) := parse_number r in (String c d, rest)
      else ("", s)
  | EmptyString => ("", s)
  end.

Definition expect (c : ascii) (s : string) : option string :=
  match skip_ws s with
  | String c' r => if Ascii.eqb c c' then Some r else None
  | EmptyString => None
  end.

(** A value, then what follows it. *)
Fixpoint parse_value (fuel : nat) (s : string) : option (json * string) :=
  match fuel with
  | O => None
  | S fuel' =>
      let fix members (n : nat) (s : string) : option (list (string * json) * string) :=
        match n with
        | O => None
        | S n' =>
            s1 ← expect dq s;
            '(k, s2) ← parse_string s1;
            s3 ← expect ":" s2;
            '(v, s4) ← parse_value fuel' s3;
            match skip_ws s4 with
            | String "," s5 => '(l, s6) ← members n' s5; Some ((k, v) :: l, s6)
            | String "}" s5 => Some ([(k, v)], s5)
            | _ => None
            end
        end in
      let fix elements (n : nat) (s : string) : option (list json * string) :=
        match n with
        | O => None
        | S n' =>
            '(v, s1) ← parse_value fuel' s;
            match skip_ws s1 with
            | String "," s2 => '(l, s3) ← elements n' s2; Some (v :: l, s3)
            | String "]" s2 => Some ([v], s2)
            | _ => None
            end
        end in
      match skip_ws s with
      | String "n" (String "u" (String "l" (String "l" r))) => Some (JNull, r)
      | String "t" (String "r" (String "u" (String "e" r))) => Some (JBool true, r)
      | String "f" (String "a" (String "l" (String "s" (String "e" r)))) =>
          Some (JBool false, r)
      | String "{" r =>
          match skip_ws r with
          | String "}" r' => Some (JObj [], r')
          | _ => '(l, r') ← members fuel' r; Some (JObj l, r')
          end
      | String "[" r =>
          match skip_ws r with
          | String "]" r' => Some (JArr [], r')
          | _ => '(l, r') ← elements fuel' r; Some (JArr l, r')
          end
      | String c r =>
          if (nat_of_ascii c =? 34)%nat then
            '(t, r') ← parse_string r; Some (JStr t, r')
          else if is_num_char c then
            let '(d, r') := parse_number (String c r) in Some (JNum d, r')
          else None
      | EmptyString => None
      end
  end.

Definition parse (data : string) : option json :=
  '(v, rest) ← parse_value (S (String.length data)) data;
  match skip_ws rest with
  | EmptyString => Some v
  | _ => None
  end.

Definition type_error (field : string) : error :=
  ErrText ("json: cannot unmarshal value into Go struct field " ++ field ++ " of type string").

(** A member of a struct with string fields: [null] leaves the field
    as it is. *)
Definition string_field (field : string) (old : string) (v : json) : string + error :=
  match v with
  | JStr s => inl s
  | JNull => inl old
  | _ => inr (type_error field)
  end.

Definition env_member (acc : Environment + error) (kv : string * json)
  : Environment + error :=
  match acc with
  | inr e => inr e
  | inl env =>
      if String.eqb (fst kv) "stripe_api_key" then
        match string_field "Environment.stripe_api_key" (StripeAPIKey env) (snd kv) with
        | inl s => inl {| StripeAPIKey := s; DefaultCurrency := DefaultCurrency env;
                          OutputFormat := OutputFormat env |}
        | inr e => inr e
        end
      else if String.eqb (fst kv) "default_currency" then
        match string_field "Environment.default_currency" (DefaultCurrency env) (snd kv) with
        | inl s => inl {| StripeAPIKey := StripeAPIKey env; DefaultCurrency := s;
                          OutputFormat := OutputFormat env |}
        | inr e => inr e
        end
      else if String.eqb (fst kv) "output_format" then
        match string_field "Environment.output_format" (OutputFormat env) (snd kv) with
        | inl s => inl {| StripeAPIKey := StripeAPIKey env; DefaultCurrency := DefaultCurrency env;
                          OutputFormat := s |}
        | inr e => inr e
        end
      else inl env
  end.

Definition zero_env : Environment :=
  {| StripeAPIKey := ""; DefaultCurrency := ""; OutputFormat := "" |}.

Definition env_of_json (v : json) : Environment + error :=
  match v with
  | JObj l => fold_left env_member l (inl zero_env)
  | JNull => inl zero_env
  | _ => inr (ErrText "json: cannot unmarshal value into Go value of type types.Environment")
  end.

Definition envs_member (acc : gmap string Environment + error) (kv : string * json)
  : gmap string Environment + error :=
  match acc with
  | inr e => inr e
  | inl g =>
      match env_of_json (snd kv) with
      | inl env => inl (<[fst kv := env]> g)
      | inr e => inr e
      end
  end.

Definition config_member (acc : Config + error) (kv : string * json) : Config + error :=
  match acc with
  | inr e => inr e
  | inl c =>
      if String.eqb (fst kv) "current_environment" then
        match string_field "Config.current_environment" (CurrentEnvironment c) (snd kv) with
        | inl s => inl {| CurrentEnvironment := s; Environments := Environments c |}
        | inr e => inr e
        end
      else if String.eqb (fst kv) "environments" then
        match snd kv with
        | JNull => inl c
        | JObj l =>
            match fold_left envs_member l (inl (entries (Environments c))) with
            | inl g => inl {| CurrentEnvironment := CurrentEnvironment c;
                             Environments := Some g |}
            | inr e => inr e
            end
        | _ => inr (ErrText "json: cannot unmarshal value into Go struct field Config.environments")
        end
      else inl c
  end.

Definition zero_config : Config := {| CurrentEnvironment := ""; Environments := None |}.

Definition Unmarshal (data : string) : Config + error :=
  match parse data with
  | None => inr (ErrText "invalid JSON input")
  | Some JNull => inl zero_config
  | Some (JObj l) => fold_left config_member l (inl zero_config)
  | Some _ => inr (ErrText "json: cannot unmarshal value into Go value of type types.Config")
  end.

(** *** The documents the codec writes, as values *)

(** The members of an object, as [parse_value] reads them with the
    parser [pv] for the values. *)
Definition members_of (pv : string -> option (json * string))
  : nat -> string -> option (list (string * json) * string) :=
  fix members (n : nat) (s : string) :=
    match n with
    | O => None
    | S n' =>
        s1 ← expect dq s;
        '(k, s2) ← parse_string s1;
        s3 ← expect ":" s2;
        '(v, s4) ← pv s3;
        match skip_ws s4 with
        | String "," s5 => '(l, s6) ← members n' s5; Some ((k, v) :: l, s6)
        | String "}" s5 => Some ([(k, v)], s5)
        | _ => None
        end
    end.

Definition env_json (e : Environment) : json :=
  JObj [("stripe_api_key", JStr (StripeAPIKey e));
        ("default_currency", JStr (DefaultCurrency e));
        ("output_format", JStr (OutputFormat e))].

Definition envs_json (m : gomap Environment) : json :=
  match m with
  | None => JNull
  | Some g => JObj (map (fun kv => (fst kv, env_json (snd kv))) (sorted_entries g))
  end.

End RefJSON.

Module RefHost.

Record Disk : Type := {
  home : string;
  files : gmap string string;
  read_only : bool
}.

Definition no_such_file : error := ErrText "no such file or directory".

Definition ReadFile (path : string) (d : Disk) : string + error :=
  match files d !! path with
  | Some data => inl data
  | None => inr no_such_file
  end.

Definition IsNotExist (e : error) : bool :=
  String.eqb (Error e) (Error no_such_file).

Definition MkdirAll (path : string) (perm : Z) (d : Disk) : option error * Disk :=
  (None, d).

Definition WriteFile (path data : string) (perm : Z) (d : Disk) : option error * Disk :=
  if read_only d then (Some (ErrText "read-only file system"), d)
  else (None, {| home := home d; files := <[path := data]> (files d);
                 read_only := read_only d |}).

Definition Join (a b : string) : string := a ++ "/" ++ b.

(** What stands before the last separator, if there is one. *)
Fixpoint before_last_slash (s : string) : option string :=
  match s with
  | EmptyString => None
  | String c r =>
      match before_last_slash r with
      | Some d => Some (String c d)
      | None => if Ascii.eqb c "/" then Some "" else None
      end
  end.

Definition Dir (path : string) : string :=
  match before_last_slash path with
  | Some "" => "/"
  | Some d => d
  | None => "."
  end.

Definition ref_host : Host :=
  {| FS := Disk;
     os_UserHomeDir := home;
     os_ReadFile := ReadFile;
     os_IsNotExist := IsNotExist;
     os_MkdirAll := MkdirAll;
     os_WriteFile := WriteFile;
     filepath_Join := Join;
     filepath_Dir := Dir;
     json_MarshalIndent := RefJSON.MarshalIndent;
     json_Unmarshal := RefJSON.Unmarshal |}.

Definition empty_disk : @FS ref_host :=
  {| home := "/home/dev"; files := ∅; read_only := false |}.

(** A disk whose only file is the configuration file, with the given
    content. *)
Definition disk_with (data : string) : @FS ref_host :=
  {| home := "/home/dev";
     files := {[ Join "/home/dev" ConfigFileName := data ]};
     read_only := false |}.

Definition config_path : string := Join "/home/dev" ConfigFileName.

Definition test_env : Environment :=
  {| StripeAPIKey := ""; DefaultCurrency := "usd"; OutputFormat := "table" |}.

(** A key given, currency and output format left unset. *)
Definition prod_env : Environment :=
  {| StripeAPIKey := "sk_live_0123456789abcdef"; DefaultCurrency := ""; OutputFormat := "" |}.

(** A manager that holds the default configuration. *)
Definition fresh_manager : Manager :=
  {| config := Some DefaultConfig; filePath := config_path |}.

(** A manager that holds two environments, the current one is "test". *)
Definition two_envs : Config :=
  {| CurrentEnvironment := "test";
     Environments :=
       Some {[ "test" := test_env;
               "prod" := {| StripeAPIKey := "sk_live_0123456789abcdef";
                            DefaultCurrency := "usd"; OutputFormat := "table" |} ]} |}.

Definition two_manager : Manager :=
  {| config := Some two_envs; filePath := config_path |}.

(** A manager whose current environment is the one with the empty
    name. *)
Definition unnamed_current : Config :=
  {| CurrentEnvironment := "";
     Environments := Some {[ "" := test_env; "a" := test_env ]} |}.

Definition unnamed_manager : Manager :=
  {| config := Some unnamed_current; filePath := config_path |}.

(** A name that is no valid UTF-8: the byte 255. *)
Definition byte_255 : string := String "255" "".

(** U+FFFD in UTF-8. *)
Definition replacement_char : string := String "239" (String "191" (String "189" "")).

(** A configuration file without any environment. *)
Definition bare_file : string := "{}".

(** A configuration file whose current environment, "prod", is none of
    its environments "a" and "b". *)
Definition stray_current_file : string :=
  "{" ++ RefJSON.quoted "current_environment" ++ ": " ++ RefJSON.quoted "prod" ++ ", "
  ++ RefJSON.quoted "environments" ++ ": {"
  ++ RefJSON.quoted "a" ++ ": {}, " ++ RefJSON.quoted "b" ++ ": {}}}".

(** A configuration file with an environment whose name is empty, next
    to the current environment "a". *)
Definition empty_name_file : string :=
  "{" ++ RefJSON.quoted "current_environment" ++ ": " ++ RefJSON.quoted "a" ++ ", "
  ++ RefJSON.quoted "environments" ++ ": {"
  ++ RefJSON.quoted "" ++ ": {}, " ++ RefJSON.quoted "a" ++ ": {}}}".

End RefHost.

(* ===================================================================== *)
(** ** A scripted outside world *)
(* ===================================================================== *)

(** A stand-in for Stripe, the clock and the terminal, to run the services
    on concrete inputs: the plan says, call after call, whether Stripe
    answers with an error, and [typed] holds what the user will type. *)
Module Scripted.

Record Remote : Type := {
  clock : Z;
  plan : list bool;
  typed : list string
}.

Record Promo : Type := {
  promo_ID : string;
  promo_Code : string
}.

Record Coup : Type := {
  coup_ID : string
}.

Definition tick (w : Remote) : Z * Remote :=
  (clock w, {| clock := clock w + 1; plan := plan w; typed := typed w |}).

(** The next answer of the plan: [true] is a refusal; when the plan is
    used up every call goes through. *)
Definition answer {A} (a : A) (w : Remote) : (A * option error) * Remote :=
  match plan w with
  | true :: rest =>
      ((a, Some (ErrText "stripe: request refused")),
       {| clock := clock w; plan := rest; typed := typed w |})
  | false :: rest => ((a, None), {| clock := clock w; plan := rest; typed := typed w |})
  | [] => ((a, None), w)
  end.

Definition new_promo (p : PromotionCodeParams) : Promo :=
  {| promo_ID := "promo_" ++ default "" (pp_Code p);
     promo_Code := default "" (pp_Code p) |}.

Definition upper_char (c : ascii) : ascii :=
  let n := nat_of_ascii c in
  if (97 <=? n)%nat && (n <=? 122)%nat then ascii_of_nat (n - 32) else c.

Fixpoint ToUpper (s : string) : string :=
  match s with
  | EmptyString => ""
  | String c r => String (upper_char c) (ToUpper r)
  end.

Fixpoint digits_value (s : string) (acc : Z) : option Z :=
  match s with
  | EmptyString => Some acc
  | String c r =>
      let n := nat_of_ascii c in
      if (48 <=? n)%nat && (n <=? 57)%nat then
        digits_value r (acc * 10 + Z.of_nat (n - 48))
      else None
  end.

Definition ParseInt (s : string) : Z * option error :=
  let syntax := (0, Some (ErrText "strconv.ParseInt: invalid syntax")) in
  match s with
  | EmptyString => syntax
  | String "-" (String c r) =>
      match digits_value (String c r) 0 with
      | Some v => (- v, None)
      | None => syntax
      end
  | String "+" (String c r) =>
      match digits_value (String c r) 0 with
      | Some v => (v, None)
      | None => syntax
      end
  | _ =>
      match digits_value s 0 with
      | Some v => (v, None)
      | None => syntax
      end
  end.

Definition Run (p : Prompt) (w : Remote) : (string * option error) * Remote :=
  match typed w with
  | a :: rest => ((a, None), {| clock := clock w; plan := plan w; typed := rest |})
  | [] => (("", Some (ErrText "^C")), w)
  end.

Definition scripted : Outside :=
  {| World := Remote;
     PromotionCode := Promo;
     Coupon := Coup;
     promotioncode_List := fun _ => answer [];
     promotioncode_Get := fun id => answer {| promo_ID := id; promo_Code := "" |};
     promotioncode_New := fun p => answer (new_promo p);
     promotioncode_Update := fun id _ => answer {| promo_ID := id; promo_Code := "" |};
     coupon_List := fun _ => answer [];
     coupon_Get := fun id => answer {| coup_ID := id |};
     coupon_New := fun p => answer {| coup_ID := default "generated" (cp_ID p) |};
     coupon_Update := fun id _ => answer {| coup_ID := id |};
     coupon_Del := fun id => answer {| coup_ID := id |};
     time_Now_UnixNano := tick;
     rand_Intn := fun seed n => seed mod n;
     strings_ToUpper := ToUpper;
     strconv_Atoi := ParseInt;
     strconv_ParseInt := ParseInt;
     promptui_Run := Run |}.

Definition world (failing : list bool) : @World scripted :=
  {| clock := 1700000000000000000; plan := failing; typed := [] |}.

Definition ready : Client := {| sc := Some "sk_test_0123456789abcdef" |}.

Definition batch_of (couponID : string) (count : Z) (prefix : string) : BatchCreateOptions :=
  {| b_CouponID := couponID; b_Count := count; b_Prefix := prefix; b_Customer := "";
     b_MaxRedemptions := None; b_MinimumAmount := None; b_Currency := "";
     b_ExpiresAt := None; b_FirstTimeTransaction := None; b_Metadata := None |}.

(** 10.0 as a [float64]. *)
Definition ten : float64 := 4621819117588971520.

Definition percent_coupon (percent : float64) (duration : string) : CouponCreateOptions :=
  {| c_ID := ""; c_Name := ""; c_PercentOff := Some percent; c_AmountOff := None;
     c_Currency := ""; c_Duration := duration; c_DurationInMonths := None;
     c_MaxRedemptions := None; c_RedeemBy := None; c_AppliesTo := None;
     c_CurrencyOptions := None; c_Metadata := None |}.

(** Both discounts given. *)
Definition double_coupon : CouponCreateOptions :=
  {| c_ID := ""; c_Name := ""; c_PercentOff := Some ten; c_AmountOff := Some 500;
     c_Currency := "usd"; c_Duration := "once"; c_DurationInMonths := None;
     c_MaxRedemptions := None; c_RedeemBy := None; c_AppliesTo := None;
     c_CurrencyOptions := None; c_Metadata := None |}.

(** An amount without its currency. *)
Definition amount_coupon : CouponCreateOptions :=
  {| c_ID := ""; c_Name := ""; c_PercentOff := None; c_AmountOff := Some 500;
     c_Currency := ""; c_Duration := "once"; c_DurationInMonths := None;
     c_MaxRedemptions := None; c_RedeemBy := None; c_AppliesTo := None;
     c_CurrencyOptions := None; c_Metadata := None |}.

(** An amount of 500 in the given currency. *)
Definition amount_in (currency duration : string) : CouponCreateOptions :=
  {| c_ID := ""; c_Name := ""; c_PercentOff := None; c_AmountOff := Some 500;
     c_Currency := currency; c_Duration := duration; c_DurationInMonths := None;
     c_MaxRedemptions := None; c_RedeemBy := None; c_AppliesTo := None;
     c_CurrencyOptions := None; c_Metadata := None |}.

(** Ten requests of which the second, the fifth and the ninth are
    refused. *)
Definition three_of_ten : list bool :=
  [false; true; false; false; true; false; false; false; true; false].

(** Eight requests of which all but the first and the last are
    refused. *)
Definition six_of_eight : list bool :=
  [false; true; true; true; true; true; true; false].

End Scripted.

(* ===================================================================== *)
(** ** What the properties speak about *)
(* ===================================================================== *)

Module Observe.

(** The format the key validator accepts. *)
Definition well_formed (apiKey : string) : bool :=
  (String.prefix "sk_" apiKey || String.prefix "rk_" apiKey)
  && (20 <=? String.length apiKey)%nat.

(** The number of environments a manager holds. *)
Definition env_count (m : Manager) : nat :=
  match config m with
  | Some c => map_len (Environments c)
  | None => 0
  end.

(** The current environment of the manager's configuration names one of
    its environments. *)
Definition current_exists (c : Config) : Prop :=
  is_Some (map_index (Environments c) (CurrentEnvironment c)).

(** The environment [AddEnvironment] stores for [env]. *)
Definition with_defaults (env : Environment) : Environment :=
  {| StripeAPIKey := StripeAPIKey env;
     DefaultCurrency :=
       if String.eqb (DefaultCurrency env) "" then "usd" else DefaultCurrency env;
     OutputFormat :=
       if String.eqb (OutputFormat env) "" then "table" else OutputFormat env |}.

(** The JSON codec hands back the content of [c] after writing it. *)
Definition json_restores `{Host} (c : Config) : Prop :=
  exists data c0,
    json_MarshalIndent (Some c) = inl data
    /\ json_Unmarshal data = inl c0
    /\ CurrentEnvironment c0 = CurrentEnvironment c
    /\ entries (Environments c0) = entries (Environments c).

(** The strings of an environment, and of a configuration (the names of
    its environments among them), are valid UTF-8. *)
Definition utf8_env (e : Environment) : bool :=
  valid_utf8 (StripeAPIKey e) && valid_utf8 (DefaultCurrency e)
  && valid_utf8 (OutputFormat e).

Definition utf8_config (c : Config) : Prop :=
  valid_utf8 (CurrentEnvironment c) = true
  /\ forall name env,
       map_index (Environments c) name = Some env ->
       valid_utf8 name = true /\ utf8_env env = true.

(** An entry of the environments map is made of valid UTF-8. *)
Definition valid_entry (kv : string * Environment) : Prop :=
  valid_utf8 (fst kv) = true /\ utf8_env (snd kv) = true.

(** The JSON codec hands back every configuration made of valid UTF-8,
    as encoding/json does. *)
Definition codec_restores_utf8 `{Host} : Prop :=
  forall c, utf8_config c -> json_restores c.

(** A write that succeeded is read back. *)
Definition reads_back_writes `{Host} : Prop :=
  forall path data perm fs fs',
    os_WriteFile path data perm fs = (None, fs') -> os_ReadFile path fs' = inl data.

(** The exchange is a request to create a promotion code. *)
Definition is_create (x : Exchange) : bool :=
  match sent x with
  | CallPromotionCodeNew _ => true
  | _ => false
  end.

(** Stripe answered the exchange with an error. *)
Definition refused (x : Exchange) : bool :=
  match failure x with
  | Some _ => true
  | None => false
  end.

(** The exchange created a promotion code. *)
Definition created (x : Exchange) : bool := is_create x && negb (refused x).

(** The error a refused creation adds to the list of the batch loop. *)
Definition batch_error (code : string) (e : error) : error :=
  Errorf_w ("failed to create code " ++ code ++ ": ")
    (Errorf_w "failed to create promotion code: " e "") "".

(** The error [e] of the batch loop reports the refused exchange [x]:
    it names the code that was sent and wraps Stripe's error. *)
Definition reports (x : Exchange) (e : error) : Prop :=
  exists p code inner,
    sent x = CallPromotionCodeNew p
    /\ pp_Code p = nonempty code
    /\ failure x = Some inner
    /\ e = batch_error code inner.

(** The line the batch summary shows for one error. *)
Definition summary_line (e : error) : string := newline ++ "  " ++ Error e.

Fixpoint concat_lines (l : list string) : string :=
  match l with
  | [] => ""
  | x :: l' => x ++ concat_lines l'
  end.

(** The promotion codes Stripe created for the requests of a trace that
    starts in the world [w]: before each request the clock is read, then
    the request is put to Stripe, and what Stripe hands back counts when
    it comes without an error. *)
Fixpoint answered `{Outside} (w : World) (t : list Exchange) : list (option PromotionCode) :=
  match t with
  | [] => []
  | x :: t' =>
      let w1 := snd (time_Now_UnixNano w) in
      match sent x with
      | CallPromotionCodeNew p =>
          let '(pc, err, w2) := promotioncode_New p w1 in
          match err with
          | None => Some pc :: answered w2 t'
          | Some _ => answered w2 t'
          end
      | _ => answered w1 t'
      end
  end.

(** The world after the requests of a trace that starts in [w]. *)
Fixpoint world_after `{Outside} (w : World) (t : list Exchange) : World :=
  match t with
  | [] => w
  | x :: t' =>
      let w1 := snd (time_Now_UnixNano w) in
      match sent x with
      | CallPromotionCodeNew p => world_after (snd (promotioncode_New p w1)) t'
      | _ => world_after w1 t'
      end
  end.

End Observe.
Export Observe.

(* ===================================================================== *)
(** ** internal/stripe: binding the client, single codes, status texts *)
(* ===================================================================== *)

Module ClientBind.

(** [NewClient]. *)
Definition NewClient : Client := {| sc := None |}.

(** [Client.Initialize]: [mgr] is the manager the client was made with,
    [key] the package variable [stripe.Key]; the value holds the error,
    the client and [stripe.Key] after the call. *)
Definition Initialize (mgr : Manager) (envName : string) (c : Client) (key : string)
  : option error * Client * string :=
  match (if String.eqb envName "" then GetCurrentEnvironmentConfig mgr
         else GetEnvironment mgr envName) with
  | inr err => (Some (Errorf_w "failed to get environment config: " err ""), c, key)
  | inl env =>
      if String.eqb (StripeAPIKey env) "" then
        let currentEnv :=
          if String.eqb envName "" then GetCurrentEnvironment mgr else envName in
        (Some (ErrText ("no API key found for environment '" ++ currentEnv ++ "'")), c, key)
      else (None, {| sc := Some (StripeAPIKey env) |}, StripeAPIKey env)
  end.

(** [Client.GetCurrentEnvironment]. *)
Definition ClientCurrentEnvironment (mgr : Manager) : Environment + error :=
  GetCurrentEnvironmentConfig mgr.

End ClientBind.
Export ClientBind.

(** The successive draws of one generator: [rand_Intn_nth seed k n] is
    what the call number [k] (from 0) of [Intn(n)] returns on
    [rand.New(rand.NewSource(seed))] when every call has the bound [n]. *)
Class RandStream : Type := {
  rand_Intn_nth : Z -> nat -> Z -> Z
}.

Module SingleCode.

Definition charset : string := "ABCDEFGHIJKLMNOPQRSTUVWXYZ0123456789".

(** [charset[i]]: an index out of range panics. *)
Definition charset_at (i : Z) : outcome ascii :=
  if i <? 0 then Panics "index out of range"
  else
    match String.get (Z.to_nat i) charset with
    | Some c => Returns c
    | None => Panics "index out of range"
    end.

Section WithOutside.
Context `{Outside} `{RandStream}.

(** The loop over [suffix]: [n] bytes are left to fill, [k] is the
    number of the next draw. *)
Fixpoint fill_suffix (seed : Z) (n k : nat) : outcome string :=
  match n with
  | O => Returns ""
  | S n' =>
      match charset_at (rand_Intn_nth seed k (Z.of_nat (String.length charset))) with
      | Panics msg => Panics msg
      | Returns c =>
          match fill_suffix seed n' (S k) with
          | Panics msg => Panics msg
          | Returns rest => Returns (String c rest)
          end
      end
  end.

(** [GenerateSinglePromotionCode]. *)
Definition GenerateSinglePromotionCode (prefix : string) (w : World)
  : outcome string * World :=
  let prefix := if String.eqb prefix "" then "PROMO" else prefix in
  let '(now, w1) := time_Now_UnixNano w in
  match fill_suffix now 8 0 with
  | Panics msg => (Panics msg, w1)
  | Returns suffix => (Returns (strings_ToUpper prefix ++ "_" ++ suffix), w1)
  end.

End WithOutside.

End SingleCode.
Export SingleCode.

Module StatusText.

(** The fields of a [stripe.PromotionCode] the status texts read. *)
Record PromotionCodeFields : Type := {
  f_Active : bool;
  f_ExpiresAt : Z;
  f_MaxRedemptions : Z;
  f_TimesRedeemed : Z
}.

(** [FormatPromotionCodeStatus]; [now] is [time.Now().Unix()]. *)
Definition FormatPromotionCodeStatus (pc : PromotionCodeFields) (now : Z) : string :=
  if negb (f_Active pc) then "Inactive"
  else if (0 <? f_ExpiresAt pc) && (f_ExpiresAt pc <? now) then "Expired"
  else if (0 <? f_MaxRedemptions pc) && (f_MaxRedemptions pc <=? f_TimesRedeemed pc) then
    "Max redemptions reached"
  else "Active".

(** [FormatPromotionCodeRedemptions]. *)
Definition FormatPromotionCodeRedemptions (pc : PromotionCodeFields) : string :=
  if 0 <? f_MaxRedemptions pc then
    fmt_d (f_TimesRedeemed pc) ++ "/" ++ fmt_d (f_MaxRedemptions pc)
  else fmt_d (f_TimesRedeemed pc) ++ "/unlimited".

End StatusText.
Export StatusText.

(* ===================================================================== *)
(** ** internal/config/auth.go and the commands of the CLI *)
(* ===================================================================== *)

(** A [promptui.Select]. *)
Record Select : Type := {
  s_Label : string;
  s_Items : list string
}.

(** The terminal: standard input read through [bufio], the selection
    prompt, and [strings.TrimSpace]. *)
Class Console : Type := {
  TTY : Type;
  (** [bufio.NewReader(os.Stdin).ReadString('\n')]. *)
  stdin_ReadString : TTY -> (string * option error) * TTY;
  strings_TrimSpace : string -> string;
  (** [prompt.Run()] on a [promptui.Select]. *)
  select_Run : Select -> TTY -> (Z * string * option error) * TTY
}.

Module Auth.

Section WithHost.
Context `{Host} `{Console}.

(** [Manager.PromptAPIKey]. *)
Definition PromptAPIKey (envName : string) (tty : TTY) : (string * option error) * TTY :=
  let '(apiKeyInput, err, tty1) := stdin_ReadString tty in
  match err with
  | Some e => (("", Some (Errorf_w "failed to read API key: " e "")), tty1)
  | None =>
      let apiKey := strings_TrimSpace apiKeyInput in
      match validateAPIKey apiKey with
      | Some e => (("", Some (Errorf_w "invalid API key: " e "")), tty1)
      | None => ((apiKey, None), tty1)
      end
  end.

(** [Manager.EnsureAPIKey]. *)
Definition EnsureAPIKey (envName : string) (m : Manager) (fs : FS) (tty : TTY)
  : option error * Manager * FS * TTY :=
  match GetEnvironment m envName with
  | inr err => (Some err, m, fs, tty)
  | inl env =>
      if String.eqb (StripeAPIKey env) "" then
        let '(apiKey, err, tty1) := PromptAPIKey envName tty in
        match err with
        | Some e => (Some (Errorf_w "failed to get API key: " e ""), m, fs, tty1)
        | None =>
            let '(r, m1, fs1) := UpdateEnvironmentAPIKey envName apiKey m fs in
            match r with
            | Some e => (Some (Errorf_w "failed to save API key: " e ""), m1, fs1, tty1)
            | None => (None, m1, fs1, tty1)
            end
        end
      else (None, m, fs, tty)
  end.

End WithHost.

End Auth.
Export Auth.

Module Root.

(** The package variables of internal/cli: the manager, the client, and
    next to them [stripe.Key]. *)
Record Session : Type := {
  configManager : Manager;
  stripeClient : Client;
  stripe_Key : string
}.

(** [err == target] on a package-level error value. *)
Definition same_error (e : error) (target : sentinel) : bool :=
  match e with
  | ErrSentinel s => sentinel_eqb s target
  | _ => false
  end.

(** The commands of the config group that do without the Stripe API. *)
Definition offline_config_command (name : string) : bool :=
  String.eqb name "init" || String.eqb name "show"
  || String.eqb name "list-env" || String.eqb name "reset".

Section WithHost.
Context `{Host} `{Console}.

(** The [PersistentPreRunE] of [rootCmd]: [name] is [cmd.Name()],
    [parent] the name of [cmd.Parent()] when there is one, [envFlag] the
    flag [--env].  What it prints is left out. *)
Definition PersistentPreRunE (name : string) (parent : option string) (envFlag : string)
    (s : Session) (fs : FS) (tty : TTY) : option error * Session * FS * TTY :=
  if String.eqb name "version" then (None, s, fs, tty)
  else if match parent with
          | Some p => String.eqb p "config" && offline_config_command name
          | None => false
          end then (None, s, fs, tty)
  else
    let '(r, m1, fs1) := Load (configManager s) fs in
    let s1 := {| configManager := m1; stripeClient := stripeClient s;
                 stripe_Key := stripe_Key s |} in
    match r with
    | Some err => (Some (Errorf_w "failed to load configuration: " err ""), s1, fs1, tty)
    | None =>
        let targetEnv := if String.eqb envFlag "" then GetCurrentEnvironment m1 else envFlag in
        match GetEnvironment m1 targetEnv with
        | inr err =>
            if same_error err ErrEnvironmentNotFound then
              (Some (ErrText "environment not found"), s1, fs1, tty)
            else (Some err, s1, fs1, tty)
        | inl _ =>
            let '(r, m2, fs2, tty2) := EnsureAPIKey targetEnv m1 fs1 tty in
            let s2 := {| configManager := m2; stripeClient := stripeClient s;
                         stripe_Key := stripe_Key s |} in
            match r with
            | Some err => (Some (Errorf_w "failed to ensure API key: " err ""), s2, fs2, tty2)
            | None =>
                let '(r, c, key) := Initialize m2 targetEnv (stripeClient s) (stripe_Key s) in
                let s3 := {| configManager := m2; stripeClient := c; stripe_Key := key |} in
                match r with
                | Some err =>
                    (Some (Errorf_w "failed to initialize Stripe client: " err ""),
                     s3, fs2, tty2)
                | None => (None, s3, fs2, tty2)
                end
            end
        end
    end.

End WithHost.

End Root.
Export Root.

Module ConfigCmd.

Definition confirm (label : string) : Select :=
  {| s_Label := label; s_Items := ["Yes"; "No"] |}.

Section WithHost.
Context `{Host} `{Console}.

(** The [RunE] of [configUseCmd]; [envName] is the argument. *)
Definition configUseCmd (envName : string) (m : Manager) (fs : FS)
  : option error * Manager * FS :=
  let '(r, m1, fs1) := Load m fs in
  match r with
  | Some err => (Some (Errorf_w "failed to load configuration: " err ""), m1, fs1)
  | None =>
      let '(r, m2, fs2) := SetCurrentEnvironment envName m1 fs1 in
      match r with
      | Some err => (Some (Errorf_w "failed to switch environment: " err ""), m2, fs2)
      | None => (None, m2, fs2)
      end
  end.

(** The [RunE] of [configAddEnvCmd]. *)
Definition configAddEnvCmd (envName : string) (m : Manager) (fs : FS) (tty : TTY)
  : outcome (option error * Manager * FS * TTY) :=
  let '(r, m1, fs1) := Load m fs in
  match r with
  | Some err => Returns (Some (Errorf_w "failed to load configuration: " err ""), m1, fs1, tty)
  | None =>
      match GetEnvironment m1 envName with
      | inl _ =>
          Returns (Some (ErrText ("environment '" ++ envName ++ "' already exists")),
                   m1, fs1, tty)
      | inr _ =>
          let '(apiKey, err, tty1) := PromptAPIKey envName tty in
          match err with
          | Some e => Returns (Some (Errorf_w "failed to get API key: " e ""), m1, fs1, tty1)
          | None =>
              let env := {| StripeAPIKey := apiKey; DefaultCurrency := "usd";
                            OutputFormat := "table" |} in
              match AddEnvironment envName env m1 fs1 with
              | Panics msg => Panics msg
              | Returns (r, m2, fs2) =>
                  match r with
                  | Some e =>
                      Returns (Some (Errorf_w "failed to add environment: " e ""),
                               m2, fs2, tty1)
                  | None => Returns (None, m2, fs2, tty1)
                  end
              end
          end
      end
  end.

(** The [RunE] of [configRemoveEnvCmd]; [pick] resolves the choice of
    the range loop in [RemoveEnvironment]. *)
Definition configRemoveEnvCmd (pick : nat) (envName : string) (m : Manager) (fs : FS)
    (tty : TTY) : option error * Manager * FS * TTY :=
  let '(r, m1, fs1) := Load m fs in
  match r with
  | Some err => (Some (Errorf_w "failed to load configuration: " err ""), m1, fs1, tty)
  | None =>
      let prompt :=
        confirm ("Are you sure you want to remove environment '" ++ envName ++ "'?") in
      let '(_, choice, err, tty1) := select_Run prompt tty in
      if bool_decide (is_Some err) || String.eqb choice "No" then (None, m1, fs1, tty1)
      else
        let '(r, m2, fs2) := RemoveEnvironment pick envName m1 fs1 in
        match r with
        | Some e => (Some (Errorf_w "failed to remove environment: " e ""), m2, fs2, tty1)
        | None => (None, m2, fs2, tty1)
        end
  end.

(** The [RunE] of [configSetKeyCmd]. *)
Definition configSetKeyCmd (envName : string) (m : Manager) (fs : FS) (tty : TTY)
  : option error * Manager * FS * TTY :=
  let '(r, m1, fs1) := Load m fs in
  match r with
  | Some err => (Some (Errorf_w "failed to load configuration: " err ""), m1, fs1, tty)
  | None =>
      let '(apiKey, err, tty1) := PromptAPIKey envName tty in
      match err with
      | Some e => (Some (Errorf_w "failed to get API key: " e ""), m1, fs1, tty1)
      | None =>
          let '(r, m2, fs2) := UpdateEnvironmentAPIKey envName apiKey m1 fs1 in
          match r with
          | Some e => (Some (Errorf_w "failed to update API key: " e ""), m2, fs2, tty1)
          | None => (None, m2, fs2, tty1)
          end
      end
  end.

(** The [RunE] of [configResetCmd]. *)
Definition configResetCmd (m : Manager) (fs : FS) (tty : TTY)
  : option error * Manager * FS * TTY :=
  let prompt :=
    confirm ("Are you sure you want to reset all configuration? "
             ++ "This will remove all environments and API keys.") in
  let '(_, choice, err, tty1) := select_Run prompt tty in
  if bool_decide (is_Some err) || String.eqb choice "No" then (None, m, fs, tty1)
  else
    let '(r, m1, fs1) := Reset m fs in
    match r with
    | Some e => (Some (Errorf_w "failed to reset configuration: " e ""), m1, fs1, tty1)
    | None => (None, m1, fs1, tty1)
    end.

End WithHost.

End ConfigCmd.
Export ConfigCmd.

(* ===================================================================== *)
(** ** More of what the properties speak about *)
(* ===================================================================== *)

Module ObserveMore.

(** The manager holds no nil map: what [Load] and [Reset] install, and
    what the mutations keep. *)
Definition allocated (m : Manager) : Prop :=
  match config m with
  | Some c => is_Some (Environments c)
  | None => True
  end.

(** The manager is loaded and its current environment is one of its
    environments. *)
Definition current_ok (m : Manager) : Prop :=
  exists c, config m = Some c /\ current_exists c.

(** The configuration file holds what the manager has in memory. *)
Definition on_disk `{Host} (m : Manager) (fs : FS) : Prop :=
  exists data,
    json_MarshalIndent (config m) = inl data
    /\ os_ReadFile (filePath m) fs = inl data.

(** The environments of a manager, by name. *)
Definition env_of (m : Manager) (name : string) : option Environment :=
  match config m with
  | Some c => map_index (Environments c) name
  | None => None
  end.

(** Every key the manager holds is empty or of the accepted format. *)
Definition keys_ok (m : Manager) : Prop :=
  forall name env,
    env_of m name = Some env ->
    StripeAPIKey env = "" \/ well_formed (StripeAPIKey env) = true.

End ObserveMore.
Export ObserveMore.

(* ===================================================================== *)
(** ** What the properties of the requests speak about *)
(* ===================================================================== *)

Module ObserveRequests.

Definition is_digit (c : ascii) : bool :=
  let n := nat_of_ascii c in (48 <=? n)%nat && (n <=? 57)%nat.

Definition is_upper (c : ascii) : bool :=
  let n := nat_of_ascii c in (65 <=? n)%nat && (n <=? 90)%nat.

(** A capital letter or a digit: what [charset] is made of. *)
Definition in_charset (c : ascii) : bool := is_upper c || is_digit c.

Fixpoint all_chars (p : ascii -> bool) (s : string) : bool :=
  match s with
  | EmptyString => true
  | String c r => p c && all_chars p r
  end.

(** Exactly five decimal digits. *)
Definition five_digits (s : string) : bool :=
  (String.length s =? 5)%nat && all_chars is_digit s.

(** The code a creation request carries. *)
Definition sent_code (x : Exchange) : option string :=
  match sent x with
  | CallPromotionCodeNew p => pp_Code p
  | _ => None
  end.

(** The prefix the codes of a batch start with. *)
Definition batch_prefix `{Outside} (opts : BatchCreateOptions) : string :=
  strings_ToUpper (if String.eqb (b_Prefix opts) "" then "PROMO" else b_Prefix opts).

(** The request is one a batch call with the options [opts] makes. *)
Definition batch_request (opts : BatchCreateOptions) (x : Exchange) : Prop :=
  exists code,
    sent x = CallPromotionCodeNew (promotion_params (batch_item_options opts code)).

(** What Stripe asks of the parameters of a new coupon: one of the two
    discounts, a currency exactly with an amount, one of the three
    durations, and the months of a repeating one. *)
Definition coupon_request_ok (p : CouponParams) : Prop :=
  (is_Some (cp_PercentOff p) <-> cp_AmountOff p = None)
  /\ (is_Some (cp_AmountOff p) <-> is_Some (cp_Currency p))
  /\ cp_Currency p <> Some ""
  /\ (cp_Duration p = Some "forever" \/ cp_Duration p = Some "once"
      \/ cp_Duration p = Some "repeating")
  /\ (cp_Duration p = Some "repeating" -> is_Some (cp_DurationInMonths p)).

(** The options with another [Restrictions]. *)
Definition with_restrictions (opts : PromotionCodeCreateOptions)
    (r : option PromotionCodeRestrictions) : PromotionCodeCreateOptions :=
  {| pc_CouponID := pc_CouponID opts;
     pc_Code := pc_Code opts;
     pc_Active := pc_Active opts;
     pc_Customer := pc_Customer opts;
     pc_MaxRedemptions := pc_MaxRedemptions opts;
     pc_MinimumAmount := pc_MinimumAmount opts;
     pc_Currency := pc_Currency opts;
     pc_ExpiresAt := pc_ExpiresAt opts;
     pc_FirstTimeTransaction := pc_FirstTimeTransaction opts;
     pc_Metadata := pc_Metadata opts;
     pc_Restrictions := r |}.

(** One step of a check of [P] on 0, 1, 2, ...: the next number and
    whether [P] held so far. *)
Definition scan_step (P : Z -> bool) (acc : Z * bool) : Z * bool :=
  (fst acc + 1, snd acc && P (fst acc)).

(** [charset_at] yields a character of the alphabet. *)
Definition charset_ok (i : Z) : bool :=
  match charset_at i with
  | Returns c => in_charset c
  | Panics _ => false
  end.

(** [Intn(n)] is in the range [0, n). *)
Definition draws_in_range `{RandStream} : Prop :=
  forall seed k n, 0 < n -> 0 <= rand_Intn_nth seed k n < n.

Definition suffix_in_range `{Outside} : Prop :=
  forall seed, 0 <= rand_Intn seed 100000 < 100000.

End ObserveRequests.
Export ObserveRequests.

(* ===================================================================== *)
(** ** A scripted terminal and a generator *)
(* ===================================================================== *)

Module Terminal.

(** The lines that will be typed and the answers that will be selected. *)
Record Keys : Type := {
  lines : list string;
  answers : list string
}.

Definition ReadString (t : Keys) : (string * option error) * Keys :=
  match lines t with
  | l :: rest => ((l ++ newline, None), {| lines := rest; answers := answers t |})
  | [] => (("", Some (ErrText "EOF")), t)
  end.

Definition is_space (c : ascii) : bool :=
  let n := nat_of_ascii c in ((9 <=? n)%nat && (n <=? 13)%nat) || (n =? 32)%nat.

Fixpoint trim_left (s : string) : string :=
  match s with
  | EmptyString => ""
  | String c r => if is_space c then trim_left r else s
  end.

Fixpoint trim_right (s : string) : string :=
  match s with
  | EmptyString => ""
  | String c r =>
      match trim_right r with
      | EmptyString => if is_space c then "" else String c ""
      | r' => String c r'
      end
  end.

Definition TrimSpace (s : string) : string := trim_right (trim_left s).

Fixpoint index_of (a : string) (items : list string) (i : Z) : Z :=
  match items with
  | [] => 0
  | x :: rest => if String.eqb x a then i else index_of a rest (i + 1)
  end.

Definition Choose (s : Select) (t : Keys) : (Z * string * option error) * Keys :=
  match answers t with
  | a :: rest =>
      ((index_of a (s_Items s) 0, a, None), {| lines := lines t; answers := rest |})
  | [] => ((0, "", Some (ErrText "^C")), t)
  end.

Definition terminal : Console :=
  {| TTY := Keys;
     stdin_ReadString := ReadString;
     strings_TrimSpace := TrimSpace;
     select_Run := Choose |}.

Definition typing (ls : list string) (choices : list string) : @TTY terminal :=
  {| lines := ls; answers := choices |}.

(** A generator whose draw number [k] is [seed + k], reduced. *)
Definition counting : RandStream :=
  {| rand_Intn_nth := fun seed k n => (seed + Z.of_nat k) mod n |}.

Definition test_key : string := "sk_test_0123456789abcdef".

(** A session on a manager that was not loaded. *)
Definition session (m : Manager) : Session :=
  {| configManager := m; stripeClient := NewClient; stripe_Key := "" |}.

(** The manager after [Load] of a file that is the empty JSON object. *)
Definition bare_manager : Manager :=
  {| config := Some {| CurrentEnvironment := "test"; Environments := Some ∅ |};
     filePath := RefHost.config_path |}.

(** The environment "test" with a key. *)
Definition keyed_env : Environment :=
  {| StripeAPIKey := test_key; DefaultCurrency := "usd"; OutputFormat := "table" |}.

(** A manager whose only environment, "test", has a key. *)
Definition keyed_manager : Manager :=
  {| config := Some {| CurrentEnvironment := "test";
                       Environments := Some {[ "test" := keyed_env ]} |};
     filePath := RefHost.config_path |}.

End Terminal.

(* ===================================================================== *)
(** * Properties *)
(* ===================================================================== *)

(** ** Strings *)

Module StringFacts.

Lemma eqb_empty_false (s : string) : s <> "" -> String.eqb s "" = false.
Proof. intros Hs. now apply String.eqb_neq. Qed.

Lemma length_app (s t : string) :
  String.length (s ++ t) = (String.length s + String.length t)%nat.
Proof. induction s as [|c s IH]; simpl; [reflexivity | now rewrite IH]. Qed.

Lemma substring_all (s : string) : substring 0 (String.length s) s = s.
Proof. induction s as [|c s IH]; simpl; [reflexivity | now rewrite IH]. Qed.

Lemma substring_none (s : string) : substring 0 0 s = "".
Proof. destruct s; reflexivity. Qed.

(** A string is its first [n] bytes followed by the rest. *)
Lemma split_at (n : nat) (s : string) :
  (n <= String.length s)%nat ->
  s = substring 0 n s ++ substring n (String.length s - n) s
  /\ String.length (substring 0 n s) = n.
Proof.
  revert s. induction n as [|n IH]; intros s Hn.
  - split.
    + now rewrite Nat.sub_0_r, substring_all, substring_none.
    + now rewrite substring_none.
  - destruct s as [|c s]; simpl in Hn; [lia|].
    destruct (IH s ltac:(lia)) as [Heq Hlen]. split.
    + change (String c s
              = String c (substring 0 n s ++ substring n (String.length s - n) s)).
      now rewrite <- Heq.
    + simpl. now rewrite Hlen.
Qed.

Lemma string_app_empty (s : string) : s ++ "" = s.
Proof.
  induction s as [|c s IH]; [reflexivity|].
  change (String c (s ++ "") = String c s). now rewrite IH.
Qed.

Lemma string_app_assoc (s t u : string) : (s ++ t) ++ u = s ++ t ++ u.
Proof.
  induction s as [|c s IH]; [reflexivity|].
  change (String c ((s ++ t) ++ u) = String c (s ++ t ++ u)). now rewrite IH.
Qed.

(** A prefix of a prefix is a prefix. *)
Lemma substring_prefix_prefix (n m : nat) (s : string) :
  (n <= m)%nat -> substring 0 n (substring 0 m s) = substring 0 n s.
Proof.
  revert m s. induction n as [|n IH]; intros m s Hnm.
  - now rewrite !substring_none.
  - destruct m as [|m]; [lia|]. destruct s as [|c s]; [reflexivity|].
    simpl. f_equal. apply IH. lia.
Qed.

(** The last [m] bytes of a string have length [m]. *)
Lemma length_tail (m : nat) (s : string) :
  (m <= String.length s)%nat ->
  String.length (substring (String.length s - m) m s) = m.
Proof.
  intros Hm.
  destruct (split_at (String.length s - m) s ltac:(lia)) as [Heq Hlen].
  replace (String.length s - (String.length s - m))%nat with m in Heq by lia.
  apply (f_equal String.length) in Heq. rewrite length_app, Hlen in Heq. lia.
Qed.

End StringFacts.

(** ** The API key validator *)

Module KeyFacts.

Import StringFacts.

(** C4, as the code has it: [validateAPIKey] accepts exactly the keys
    that start with "sk_" or "rk_" and are at least 20 bytes long; the
    empty key is refused with the plain error "API key cannot be empty",
    which is not the invalid-format error; every other refused key is
    refused with an error that wraps [ErrInvalidAPIKey]. *)
Theorem validateAPIKey_spec (apiKey : string) :
  (validateAPIKey apiKey = None <-> well_formed apiKey = true)
  /\ (apiKey = "" ->
      validateAPIKey apiKey = Some (ErrText "API key cannot be empty"))
  /\ (apiKey <> "" -> well_formed apiKey = false ->
      exists e, validateAPIKey apiKey = Some e
                /\ errors_Is e ErrInvalidAPIKey = true).
Proof.
  unfold validateAPIKey, well_formed.
  destruct (String.eqb_spec apiKey "") as [->|Hne].
  - split; [|split].
    + simpl. split; discriminate.
    + reflexivity.
    + intros Habs. now destruct Habs.
  - rewrite Nat.ltb_antisym.
    destruct (String.prefix "sk_" apiKey), (String.prefix "rk_" apiKey),
      (20 <=? String.length apiKey)%nat; simpl;
      (split; [split; intros; congruence | split; [intros; congruence|]]);
      intros _ Hwf; try discriminate; eexists; (split; [reflexivity|reflexivity]).
Qed.

Lemma validateAPIKey_spec_witness :
  validateAPIKey "sk_test_0123456789abcdef" = None
  /\ (exists e, validateAPIKey "abc" = Some e /\ errors_Is e ErrInvalidAPIKey = true).
Proof.
  split.
  - apply (proj1 (validateAPIKey_spec "sk_test_0123456789abcdef")). reflexivity.
  - apply (proj2 (proj2 (validateAPIKey_spec "abc"))); [discriminate | reflexivity].
Defined.

(** C4, counterexample: the empty string is not of the accepted format,
    and the error it is refused with is not the invalid-format error. *)
Lemma validateAPIKey_empty_not_invalid_format :
  well_formed "" = false
  /\ ~ (exists e, validateAPIKey "" = Some e /\ errors_Is e ErrInvalidAPIKey = true).
Proof.
  split; [reflexivity|].
  intros [e [He Hin]]. vm_compute in He. inversion He; subst. discriminate.
Qed.

End KeyFacts.

(** ** Key masking *)

Module MaskFacts.

Import StringFacts.

(** C10: [maskAPIKey] maps the empty key to "Not set", any other key of
    at most 10 bytes to "****", and a longer key to its first 3 bytes,
    "****" and its last 4 bytes; the bytes in between (at least 4) do
    not reach the output, which is 11 bytes long. *)
Theorem maskAPIKey_spec (apiKey : string) :
  (apiKey = "" -> maskAPIKey apiKey = "Not set")
  /\ (apiKey <> "" -> (String.length apiKey <= 10)%nat -> maskAPIKey apiKey = "****")
  /\ ((10 < String.length apiKey)%nat ->
      maskAPIKey apiKey
      = substring 0 3 apiKey ++ "****" ++ substring (String.length apiKey - 4) 4 apiKey
      /\ exists first middle last,
           apiKey = first ++ middle ++ last
           /\ String.length first = 3%nat
           /\ String.length last = 4%nat
           /\ (4 <= String.length middle)%nat
           /\ maskAPIKey apiKey = first ++ "****" ++ last
           /\ String.length (maskAPIKey apiKey) = 11%nat).
Proof.
  unfold maskAPIKey. split; [|split].
  - intros ->. reflexivity.
  - intros Hne Hlen. rewrite (eqb_empty_false _ Hne).
    destruct (Nat.leb_spec (String.length apiKey) 10); [reflexivity | lia].
  - intros Hlen.
    assert (Hne : apiKey <> "") by (intros ->; simpl in Hlen; lia).
    rewrite (eqb_empty_false _ Hne).
    destruct (Nat.leb_spec (String.length apiKey) 10) as [Hle|_]; [lia|].
    split; [reflexivity|].
    pose proof (length_tail 4 apiKey ltac:(lia)) as Hlast.
    destruct (split_at (String.length apiKey - 4) apiKey ltac:(lia)) as [Heq1 Hl1].
    replace (String.length apiKey - (String.length apiKey - 4))%nat with 4%nat in Heq1 by lia.
    set (front := substring 0 (String.length apiKey - 4) apiKey) in *.
    set (last := substring (String.length apiKey - 4) 4 apiKey) in *.
    destruct (split_at 3 front ltac:(lia)) as [Heq2 Hl2].
    assert (Hfirst : substring 0 3 front = substring 0 3 apiKey)
      by (apply substring_prefix_prefix; lia).
    rewrite Hfirst in Heq2, Hl2.
    exists (substring 0 3 apiKey), (substring 3 (String.length front - 3) front), last.
    split; [now rewrite <- string_app_assoc, <- Heq2|].
    split; [exact Hl2|].
    split; [exact Hlast|].
    split.
    { apply (f_equal String.length) in Heq2. rewrite length_app, Hl2 in Heq2. lia. }
    split; [reflexivity|].
    rewrite !length_app, Hl2, Hlast. reflexivity.
Qed.

(** The three cases on the keys of a test account. *)
Lemma maskAPIKey_spec_witness :
  maskAPIKey "" = "Not set"
  /\ maskAPIKey "sk_short" = "****"
  /\ maskAPIKey "sk_test_0123456789abcdef" = "sk_****cdef".
Proof.
  split; [|split].
  - apply (proj1 (maskAPIKey_spec "")). reflexivity.
  - apply (proj1 (proj2 (maskAPIKey_spec "sk_short"))); [discriminate | simpl; lia].
  - apply (proj1 (proj2 (proj2 (maskAPIKey_spec "sk_test_0123456789abcdef")) ltac:(simpl; lia))).
Defined.

End MaskFacts.

(** ** The configuration manager *)

Module ConfigFacts.

Import StringFacts.

Section WithHost.
Context `{Host}.

Lemma with_defaults_currency (env : Environment) :
  (DefaultCurrency env = "" -> DefaultCurrency (with_defaults env) = "usd")
  /\ (DefaultCurrency env <> "" ->
      DefaultCurrency (with_defaults env) = DefaultCurrency env).
Proof.
  unfold with_defaults; simpl. split.
  - intros ->. reflexivity.
  - intros Hne. now rewrite (eqb_empty_false _ Hne).
Qed.

Lemma with_defaults_format (env : Environment) :
  (OutputFormat env = "" -> OutputFormat (with_defaults env) = "table")
  /\ (OutputFormat env <> "" -> OutputFormat (with_defaults env) = OutputFormat env).
Proof.
  unfold with_defaults; simpl. split.
  - intros ->. reflexivity.
  - intros Hne. now rewrite (eqb_empty_false _ Hne).
Qed.

(** What [AddEnvironment] does once the name and the key passed. *)
Lemma AddEnvironment_stores (name : string) (env : Environment) (m : Manager) (fs : FS)
    (c : Config) (g : gmap string Environment) :
  config m = Some c -> Environments c = Some g ->
  name <> "" ->
  StripeAPIKey env = "" \/ validateAPIKey (StripeAPIKey env) = None ->
  let m1 := set_config m {| CurrentEnvironment := CurrentEnvironment c;
                            Environments := Some (<[name := with_defaults env]> g) |} in
  AddEnvironment name env m fs = Returns (fst (Save m1 fs), m1, snd (Save m1 fs)).
Proof.
  intros Hc Hg Hname Hkey m1. unfold AddEnvironment.
  rewrite Hc, (eqb_empty_false _ Hname).
  assert (Hcheck : (if String.eqb (StripeAPIKey env) "" then None
                    else validateAPIKey (StripeAPIKey env)) = None).
  { destruct (String.eqb (StripeAPIKey env) "") eqn:He; [reflexivity|].
    destruct Hkey as [Hk|Hk]; [|exact Hk].
    apply String.eqb_neq in He. contradiction. }
  rewrite Hcheck. unfold store_env. rewrite Hg.
  subst m1. unfold with_defaults. change OutputFormatTable with "table".
  now destruct (Save _ fs).
Qed.

(** C9: on a loaded configuration, [AddEnvironment] fails (and changes
    nothing) when the name is empty, fails (and changes nothing) when
    the environment carries a non-empty key the validator refuses, and
    in every other case (a name that is not empty, a key that is empty
    or accepted) puts the environment into the map under the name, with
    "usd" for an unset currency and "table" for an unset output format,
    saves, and returns what [Save] returns.  So when it succeeds the
    configuration maps the name to the given environment with the
    defaults filled in, and maps every other name as before. *)
Theorem AddEnvironment_spec (name : string) (env : Environment) (m : Manager) (fs : FS)
    (c : Config) (g : gmap string Environment) :
  config m = Some c -> Environments c = Some g ->
  (name = "" -> exists e, AddEnvironment name env m fs = Returns (Some e, m, fs))
  /\ (StripeAPIKey env <> "" -> validateAPIKey (StripeAPIKey env) <> None ->
      exists e, AddEnvironment name env m fs = Returns (Some e, m, fs))
  /\ (name <> "" ->
      StripeAPIKey env = "" \/ validateAPIKey (StripeAPIKey env) = None ->
      let stored :=
        {| StripeAPIKey := StripeAPIKey env;
           DefaultCurrency :=
             if String.eqb (DefaultCurrency env) "" then "usd" else DefaultCurrency env;
           OutputFormat :=
             if String.eqb (OutputFormat env) "" then "table" else OutputFormat env |} in
      let m1 := set_config m {| CurrentEnvironment := CurrentEnvironment c;
                                Environments := Some (<[name := stored]> g) |} in
      AddEnvironment name env m fs = Returns (fst (Save m1 fs), m1, snd (Save m1 fs)))
  /\ (forall m' fs', AddEnvironment name env m fs = Returns (None, m', fs') ->
      exists c' stored,
        config m' = Some c'
        /\ map_index (Environments c') name = Some stored
        /\ StripeAPIKey stored = StripeAPIKey env
        /\ (DefaultCurrency env = "" -> DefaultCurrency stored = "usd")
        /\ (DefaultCurrency env <> "" -> DefaultCurrency stored = DefaultCurrency env)
        /\ (OutputFormat env = "" -> OutputFormat stored = "table")
        /\ (OutputFormat env <> "" -> OutputFormat stored = OutputFormat env)
        /\ (forall other, other <> name ->
            map_index (Environments c') other = map_index (Environments c) other)).
Proof.
  intros Hc Hg. split; [|split; [|split]].
  - intros ->. unfold AddEnvironment. rewrite Hc. simpl. eauto.
  - intros Hkey Hbad. unfold AddEnvironment. rewrite Hc.
    destruct (String.eqb name ""); [eauto|].
    rewrite (eqb_empty_false _ Hkey).
    destruct (validateAPIKey (StripeAPIKey env)) as [e|]; [eauto | contradiction].
  - intros Hname Hkey.
    exact (AddEnvironment_stores name env m fs c g Hc Hg Hname Hkey).
  - intros m' fs' Hret.
    destruct (String.eqb_spec name "") as [->|Hname].
    { unfold AddEnvironment in Hret. rewrite Hc in Hret. simpl in Hret. discriminate. }
    assert (Hkey : StripeAPIKey env = "" \/ validateAPIKey (StripeAPIKey env) = None).
    { unfold AddEnvironment in Hret. rewrite Hc, (eqb_empty_false _ Hname) in Hret.
      destruct (String.eqb_spec (StripeAPIKey env) ""); [now left|].
      destruct (validateAPIKey (StripeAPIKey env)); [discriminate | now right]. }
    rewrite (AddEnvironment_stores name env m fs c g Hc Hg Hname Hkey) in Hret.
    injection Hret as _ <- _.
    eexists _, (with_defaults env). split; [reflexivity|].
    unfold map_index; simpl. rewrite Hg; simpl.
    split; [apply lookup_insert_eq|].
    split; [reflexivity|].
    split; [apply with_defaults_currency|].
    split; [apply with_defaults_currency|].
    split; [apply with_defaults_format|].
    split; [apply with_defaults_format|].
    intros other Hother. now apply lookup_insert_ne.
Qed.

(** The range loop over a map that has an entry binds one of its
    keys. *)
Lemma range_first_elem {V} (pick : nat) (g : gmap string V) :
  size g <> 0%nat -> exists k, range_first pick g = Some k /\ is_Some (g !! k).
Proof.
  intros Hsize. unfold range_first.
  assert (Hlen : length ((map_to_list g).*1) = size g)
    by now rewrite length_fmap, length_map_to_list.
  destruct (lookup_lt_is_Some_2 ((map_to_list g).*1)
              (pick mod length ((map_to_list g).*1))%nat) as [k Hk].
  { apply Nat.mod_upper_bound. now rewrite Hlen. }
  exists k. split; [exact Hk|].
  apply list_elem_of_lookup_2, list_elem_of_fmap_1 in Hk.
  destruct Hk as [[k' v] [-> Hin]]. simpl.
  apply elem_of_map_to_list in Hin. eauto.
Qed.

Lemma Save_keeps_result (m1 : Manager) (fs : FS) :
  (let '(r, fs1) := Save m1 fs in (r, m1, fs1)) = (fst (Save m1 fs), m1, snd (Save m1 fs)).
Proof. now destruct (Save m1 fs). Qed.

Lemma RemoveEnvironment_absent (pick : nat) (name : string) (m : Manager) (fs : FS)
    (c : Config) :
  config m = Some c -> map_index (Environments c) name = None ->
  exists e, RemoveEnvironment pick name m fs = (Some e, m, fs)
            /\ errors_Is e ErrEnvironmentNotFound = true.
Proof.
  intros Hc Hname. unfold RemoveEnvironment. rewrite Hc, Hname.
  eexists. split; reflexivity.
Qed.

Lemma RemoveEnvironment_sole (pick : nat) (name : string) (m : Manager) (fs : FS)
    (c : Config) :
  config m = Some c ->
  is_Some (map_index (Environments c) name) -> map_len (Environments c) = 1%nat ->
  RemoveEnvironment pick name m fs
  = (Some (ErrText "cannot remove the last environment"), m, fs).
Proof.
  intros Hc [e Hname] Hlen. unfold RemoveEnvironment. now rewrite Hc, Hname, Hlen.
Qed.

Lemma RemoveEnvironment_removes (pick : nat) (name : string) (m : Manager) (fs : FS)
    (c : Config) :
  config m = Some c ->
  is_Some (map_index (Environments c) name) -> map_len (Environments c) <> 1%nat ->
  exists c1,
    RemoveEnvironment pick name m fs
    = (fst (Save (set_config m c1) fs), set_config m c1, snd (Save (set_config m c1) fs))
    /\ entries (Environments c1) = delete name (entries (Environments c))
    /\ (CurrentEnvironment c = name -> current_exists c1)
    /\ (CurrentEnvironment c <> name -> CurrentEnvironment c1 = CurrentEnvironment c)
    /\ (current_exists c -> current_exists c1).
Proof.
  intros Hc [e Hname] Hlen. unfold RemoveEnvironment. rewrite Hc, Hname.
  destruct (Nat.eqb_spec (map_len (Environments c)) 1) as [|_]; [contradiction|].
  rewrite Save_keeps_result. eexists. split; [reflexivity|].
  assert (Hdel : entries (match Environments c with
                          | Some g => Some (delete name g)
                          | None => None
                          end) = delete name (entries (Environments c))).
  { destruct (Environments c); simpl; [reflexivity | now rewrite delete_empty]. }
  simpl. rewrite Hdel. split; [reflexivity|].
  assert (Hsize : size (delete name (entries (Environments c))) <> 0%nat).
  { rewrite map_size_delete_Some by eauto.
    unfold map_len in Hlen.
    assert (size (entries (Environments c)) <> 0%nat).
    { apply map_size_non_empty_iff. intros Hempty.
      unfold map_index in Hname. rewrite Hempty, lookup_empty in Hname. discriminate. }
    lia. }
  destruct (range_first_elem pick _ Hsize) as [k [Hk Hin]].
  unfold current_exists, map_index. simpl. rewrite Hdel, Hk.
  destruct (String.eqb_spec (CurrentEnvironment c) name) as [Heq|Hne].
  - split; [intros _; exact Hin|]. split; [congruence|]. intros _; exact Hin.
  - split; [congruence|]. split; [reflexivity|].
    intros Hcur. now rewrite lookup_delete_ne by congruence.
Qed.

(** C6, as the code has it: on a loaded configuration,
    [RemoveEnvironment] of a name that is absent fails with
    [ErrEnvironmentNotFound]; of the sole environment it fails; both
    leave the manager as it was.  Otherwise the entry, and only it, is
    removed, the call returns what [Save] returns, and the current
    environment is reassigned to a remaining environment when it was
    the removed one and kept otherwise, so that it names an existing
    environment afterwards whenever it did before the call. *)
Theorem RemoveEnvironment_spec (pick : nat) (name : string) (m : Manager) (fs : FS)
    (c : Config) :
  config m = Some c ->
  (map_index (Environments c) name = None ->
   exists e, RemoveEnvironment pick name m fs = (Some e, m, fs)
             /\ errors_Is e ErrEnvironmentNotFound = true)
  /\ (is_Some (map_index (Environments c) name) -> map_len (Environments c) = 1%nat ->
      RemoveEnvironment pick name m fs
      = (Some (ErrText "cannot remove the last environment"), m, fs))
  /\ (is_Some (map_index (Environments c) name) -> map_len (Environments c) <> 1%nat ->
      exists c1,
        RemoveEnvironment pick name m fs
        = (fst (Save (set_config m c1) fs), set_config m c1, snd (Save (set_config m c1) fs))
        /\ entries (Environments c1) = delete name (entries (Environments c))
        /\ (CurrentEnvironment c = name -> current_exists c1)
        /\ (CurrentEnvironment c <> name -> CurrentEnvironment c1 = CurrentEnvironment c)
        /\ (current_exists c -> current_exists c1)).
Proof.
  intros Hc. split; [|split].
  - now apply RemoveEnvironment_absent.
  - now apply RemoveEnvironment_sole.
  - now apply RemoveEnvironment_removes.
Qed.

Lemma env_count_set_config (m : Manager) (c : Config) :
  env_count (set_config m c) = map_len (Environments c).
Proof. reflexivity. Qed.

(** C7, as the code has it: [Load] that finds no file installs the
    default configuration, which has exactly one environment, "test";
    [Load] of an existing file installs the environments the file
    holds, name by name, possibly none, in a map that is allocated
    (empty when the file has no environments member).  Every mutation
    keeps a configuration that has an environment in that state, and
    [Reset] always leaves exactly one. *)
Theorem env_count_invariant (m : Manager) (fs : FS) :
  (forall err, os_ReadFile (filePath m) fs = inr err -> os_IsNotExist err = true ->
     config (snd (fst (Load m fs))) = Some DefaultConfig
     /\ is_Some (env_of (snd (fst (Load m fs))) "test")
     /\ env_count (snd (fst (Load m fs))) = 1%nat)
  /\ (forall data cfg, os_ReadFile (filePath m) fs = inl data ->
       json_Unmarshal data = inl cfg ->
       fst (fst (Load m fs)) = None
       /\ (exists c',
             config (snd (fst (Load m fs))) = Some c'
             /\ entries (Environments c') = entries (Environments cfg)
             /\ (forall name,
                   env_of (snd (fst (Load m fs))) name
                   = map_index (Environments cfg) name)
             /\ is_Some (Environments c')
             /\ (Environments cfg = None -> Environments c' = Some ∅))
       /\ env_count (snd (fst (Load m fs))) = map_len (Environments cfg))
  /\ ((1 <= env_count m)%nat ->
      (forall name env, exists r,
         AddEnvironment name env m fs = Returns r /\ (1 <= env_count (snd (fst r)))%nat)
      /\ (forall pick name,
            (1 <= env_count (snd (fst (RemoveEnvironment pick name m fs))))%nat)
      /\ (forall name,
            (1 <= env_count (snd (fst (SetCurrentEnvironment name m fs))))%nat)
      /\ (forall envName apiKey,
            (1 <= env_count (snd (fst (UpdateEnvironmentAPIKey envName apiKey m fs))))%nat))
  /\ env_count (snd (fst (Reset m fs))) = 1%nat.
Proof.
  split; [|split; [|split]].
  - intros err Hread Hne. unfold Load. rewrite Hread, Hne, Save_keeps_result. simpl.
    split; [reflexivity|].
    split; [unfold env_of, map_index; simpl; rewrite lookup_singleton_eq; eauto|].
    unfold env_count, map_len; simpl. apply map_size_singleton.
  - intros data cfg Hread Hjson. unfold Load. rewrite Hread, Hjson. simpl.
    split; [reflexivity|]. split.
    + eexists. split; [reflexivity|]. unfold env_of, map_index. simpl.
      destruct (Environments cfg); simpl; repeat split; eauto; discriminate.
    + unfold env_count, map_len; simpl. now destruct (Environments cfg).
  - intros Hcount. unfold env_count in Hcount.
    destruct (config m) as [c|] eqn:Hc; [|lia].
    split; [|split; [|split]].
    + intros name env. unfold AddEnvironment. rewrite Hc.
      assert (Hm : (1 <= env_count m)%nat) by (unfold env_count; now rewrite Hc).
      destruct (String.eqb name ""); [eauto|].
      destruct (if String.eqb (StripeAPIKey env) "" then None
                else validateAPIKey (StripeAPIKey env)); [eauto|].
      unfold store_env. destruct (Environments c) as [g|] eqn:Hg.
      * destruct (Save _ fs) as [r fs1]. eexists. split; [reflexivity|].
        simpl. unfold env_count, map_len; simpl.
        rewrite map_size_insert. destruct (g !! name); simpl; [|lia].
        exact Hcount.
      * unfold map_len in Hcount. simpl in Hcount.
        rewrite map_size_empty in Hcount. lia.
    + intros pick name.
      assert (Hm : (1 <= env_count m)%nat) by (unfold env_count; now rewrite Hc).
      destruct (map_index (Environments c) name) as [e|] eqn:Hname.
      * destruct (Nat.eq_dec (map_len (Environments c)) 1%nat) as [Hone|Hmore].
        -- now rewrite (RemoveEnvironment_sole pick name m fs c Hc) by eauto.
        -- destruct (RemoveEnvironment_removes pick name m fs c Hc ltac:(eauto) Hmore)
             as (c1 & -> & Hdel & _). simpl.
           rewrite env_count_set_config. unfold map_len. rewrite Hdel.
           rewrite map_size_delete_Some by eauto. unfold map_len in *. lia.
      * destruct (RemoveEnvironment_absent pick name m fs c Hc Hname) as (e & -> & _).
        exact Hm.
    + intros name. unfold SetCurrentEnvironment. rewrite Hc.
      assert (Hm : (1 <= env_count m)%nat) by (unfold env_count; now rewrite Hc).
      destruct (map_index (Environments c) name); [|exact Hm].
      rewrite Save_keeps_result. exact Hcount.
    + intros envName apiKey. unfold UpdateEnvironmentAPIKey. rewrite Hc.
      assert (Hm : (1 <= env_count m)%nat) by (unfold env_count; now rewrite Hc).
      destruct (Environments c) as [g|] eqn:Hg; [|exact Hm].
      destruct (map_index (Some g) envName) as [env|] eqn:Henv; [|exact Hm].
      destruct (validateAPIKey apiKey); [exact Hm|].
      rewrite Save_keeps_result. simpl. unfold env_count, map_len; simpl.
      rewrite map_size_insert_Some by eauto. exact Hcount.
  - unfold Reset. rewrite Save_keeps_result. simpl.
    unfold env_count, map_len; simpl. apply map_size_singleton.
Qed.

(** C8, as the code has it: for a configuration whose strings (the
    names of its environments among them) are valid UTF-8, on a file
    system that reads back what was written and with a JSON codec that
    restores the valid UTF-8 it wrote, as encoding/json does, a [Save]
    that succeeds followed by [Load] (by this or any manager on the
    same path) succeeds, writes nothing, and ends with the same
    environments, name by name; the current environment is the same
    when it is not the empty string, and is "test" when it is. *)
Theorem Save_Load_roundtrip (m m2 : Manager) (fs fs1 : FS) (c : Config) :
  config m = Some c ->
  utf8_config c ->
  reads_back_writes ->
  codec_restores_utf8 ->
  filePath m2 = filePath m ->
  Save m fs = (None, fs1) ->
  exists c',
    Load m2 fs1 = (None, set_config m2 c', fs1)
    /\ entries (Environments c') = entries (Environments c)
    /\ (forall name, env_of (set_config m2 c') name = env_of m name)
    /\ (CurrentEnvironment c <> "" -> CurrentEnvironment c' = CurrentEnvironment c)
    /\ (CurrentEnvironment c = "" -> CurrentEnvironment c' = "test").
Proof.
  intros Hc Hvalid Hfs Hcodec Hpath Hsave.
  destruct (Hcodec c Hvalid) as (data & c0 & Hmarshal & Hunmarshal & Hcur0 & Henvs0).
  assert (Hread : os_ReadFile (filePath m) fs1 = inl data).
  { unfold Save in Hsave. rewrite Hc, Hmarshal in Hsave.
    destruct (os_MkdirAll _ _ fs) as [[e|] fs0]; [discriminate|].
    destruct (os_WriteFile _ data _ fs0) as [[e|] fs2] eqn:Hwrite; [discriminate|].
    injection Hsave as <-. exact (Hfs _ _ _ _ _ Hwrite). }
  unfold Load. rewrite Hpath, Hread, Hunmarshal, Hcur0.
  eexists. split; [reflexivity|].
  unfold env_of, map_index. cbn [config set_config Environments CurrentEnvironment].
  rewrite Hc.
  match goal with
  | |- ?loaded = _ /\ _ =>
      assert (Henvs : loaded = entries (Environments c))
        by (rewrite <- Henvs0; now destruct (Environments c0));
      rewrite Henvs
  end.
  split; [reflexivity|]. split; [reflexivity|]. split.
  - intros Hcur. now rewrite (eqb_empty_false _ Hcur).
  - intros ->. reflexivity.
Qed.

End WithHost.

End ConfigFacts.

(** ** The reference codec *)

(** The reference codec reads back what it wrote, for every
    configuration made of valid UTF-8: the law of encoding/json the
    round trip of the configuration rests on. *)
Module CodecFacts.

Import RefJSON StringFacts.

Lemma between_spec (lo hi : nat) (c : ascii) :
  between lo hi c = true <-> (lo <= nat_of_ascii c <= hi)%nat.
Proof.
  unfold between. rewrite andb_true_iff, !Nat.leb_le. tauto.
Qed.

Lemma parse_string_plain (c : ascii) (X : string) :
  (32 <= nat_of_ascii c)%nat -> nat_of_ascii c <> 34%nat -> nat_of_ascii c <> 92%nat ->
  parse_string (String c X) = '(b, r) ← parse_string X; Some (String c b, r).
Proof.
  intros H32 H34 H92. cbn [parse_string].
  destruct (Nat.eqb_spec (nat_of_ascii c) 34); [contradiction|].
  destruct (Nat.ltb_spec (nat_of_ascii c) 32); [lia|].
  destruct (Nat.eqb_spec (nat_of_ascii c) 92); [contradiction|]. reflexivity.
Qed.

Lemma parse_string_high (c : ascii) (X : string) :
  (128 <= nat_of_ascii c)%nat ->
  parse_string (String c X) = '(b, r) ← parse_string X; Some (String c b, r).
Proof. intros Hc. apply parse_string_plain; lia. Qed.

Lemma escape_char_parse (c : ascii) (X : string) :
  (nat_of_ascii c <? 128)%nat = true ->
  parse_string (escape_char c ++ X) = '(b, r) ← parse_string X; Some (String c b, r).
Proof.
  destruct c as [[] [] [] [] [] [] [] []]; intros Hc; try discriminate Hc; reflexivity.
Qed.

Lemma cont_high (c : ascii) : cont c = true -> (128 <= nat_of_ascii c)%nat.
Proof. unfold cont. rewrite between_spec. lia. Qed.

Lemma lead3_high (c c1 : ascii) : lead3 c c1 = true -> (128 <= nat_of_ascii c1)%nat.
Proof.
  unfold lead3, cont. rewrite !orb_true_iff, !andb_true_iff, !between_spec. lia.
Qed.

Lemma lead4_high (c c1 : ascii) : lead4 c c1 = true -> (128 <= nat_of_ascii c1)%nat.
Proof.
  unfold lead4, cont. rewrite !orb_true_iff, !andb_true_iff, !between_spec. lia.
Qed.

Lemma rune_size_cases (c : ascii) (r : string) :
  match rune_size c r with
  | 0%nat => True
  | 2%nat => exists c1 r1, r = String c1 r1 /\ (128 <= nat_of_ascii c1)%nat
  | 3%nat => exists c1 c2 r2,
           r = String c1 (String c2 r2)
           /\ (128 <= nat_of_ascii c1)%nat /\ (128 <= nat_of_ascii c2)%nat
  | 4%nat => exists c1 c2 c3 r3,
           r = String c1 (String c2 (String c3 r3))
           /\ (128 <= nat_of_ascii c1)%nat /\ (128 <= nat_of_ascii c2)%nat
           /\ (128 <= nat_of_ascii c3)%nat
  | _ => False
  end.
Proof.
  assert (Hget : forall k s, cont (byte_at k s) = true ->
            exists c, String.get k s = Some c /\ (128 <= nat_of_ascii c)%nat).
  { intros k s. unfold byte_at. destruct (String.get k s) as [b|]; [|discriminate].
    intros Hb. exists b. split; [reflexivity | now apply cont_high]. }
  unfold rune_size.
  destruct (between 194 223 c && cont (byte_at 0 r)) eqn:H2.
  { apply andb_prop in H2 as [_ H2]. destruct (Hget _ _ H2) as (b1 & Hb1 & Hhigh).
    destruct r as [|c1 r1]; [discriminate|]. simpl in Hb1. injection Hb1 as ->. eauto. }
  destruct (lead3 c (byte_at 0 r) && cont (byte_at 1 r)) eqn:H3.
  { apply andb_prop in H3 as [H31 H32]. destruct (Hget _ _ H32) as (b2 & Hb2 & Hhigh2).
    destruct r as [|c1 [|c2 r2]]; try discriminate. simpl in Hb2. injection Hb2 as ->.
    apply lead3_high in H31. eauto 10. }
  destruct (lead4 c (byte_at 0 r) && cont (byte_at 1 r) && cont (byte_at 2 r)) eqn:H4;
    [|exact I].
  apply andb_prop in H4 as [H4 H43]. apply andb_prop in H4 as [H41 H42].
  destruct (Hget _ _ H43) as (b3 & Hb3 & Hhigh3).
  destruct r as [|c1 [|c2 [|c3 r3]]]; try discriminate. simpl in Hb3. injection Hb3 as ->.
  apply lead4_high in H41. apply cont_high in H42. eauto 10.
Qed.

Lemma line_separator_parse (c c1 c2 : ascii) (X : string) :
  line_separator c c1 c2 = true ->
  parse_string ((if between 168 168 c2 then "\u2028" else "\u2029") ++ X)
  = '(b, r) ← parse_string X; Some (String c (String c1 (String c2 b)), r).
Proof.
  unfold line_separator. rewrite !andb_true_iff, !between_spec. intros [[Hc Hc1] Hc2].
  assert (c = ascii_of_nat 226) as -> by (rewrite <- (ascii_nat_embedding c); f_equal; lia).
  assert (c1 = ascii_of_nat 128) as -> by (rewrite <- (ascii_nat_embedding c1); f_equal; lia).
  assert (Hc2' : c2 = ascii_of_nat 168 \/ c2 = ascii_of_nat 169).
  { rewrite <- (ascii_nat_embedding c2).
    assert (nat_of_ascii c2 = 168 \/ nat_of_ascii c2 = 169)%nat as [->| ->] by lia; auto. }
  destruct Hc2' as [-> | ->]; reflexivity.
Qed.

(** What [escape] wrote for a string of valid UTF-8 reads back as the
    string. *)
Lemma escape_parse (s : string) :
  valid_utf8 s = true ->
  forall rest, parse_string (escape s ++ String dq rest) = Some (s, rest).
Proof.
  remember (String.length s) as n eqn:Hn. revert s Hn.
  induction n as [n IH] using lt_wf_ind. intros s Hn Hvalid rest.
  destruct s as [|c r]; [reflexivity|].
  cbn [valid_utf8] in Hvalid. cbn [escape].
  destruct (nat_of_ascii c <? 128)%nat eqn:Hascii.
  - rewrite string_app_assoc, (escape_char_parse c _ Hascii).
    rewrite (IH (String.length r)); [reflexivity| simpl in Hn; lia | reflexivity | exact Hvalid].
  - apply Nat.ltb_ge in Hascii.
    pose proof (rune_size_cases c r) as Hsize.
    destruct (rune_size c r) as [|[|[|[|[|k]]]]]; try discriminate; try contradiction.
    + destruct Hsize as (c1 & r1 & -> & H1).
      change (parse_string (String c (String c1 (escape r1 ++ String dq rest)))
              = Some (String c (String c1 r1), rest)).
      rewrite (parse_string_high c _ Hascii), (parse_string_high c1 _ H1).
      rewrite (IH (String.length r1)); [reflexivity| simpl in Hn; lia | reflexivity | exact Hvalid].
    + destruct Hsize as (c1 & c2 & r2 & -> & H1 & H2).
      destruct (line_separator c c1 c2) eqn:Hsep.
      * rewrite string_app_assoc, (line_separator_parse c c1 c2 _ Hsep).
        rewrite (IH (String.length r2)); [reflexivity| simpl in Hn; lia | reflexivity | exact Hvalid].
      * change (parse_string (String c (String c1 (String c2 (escape r2 ++ String dq rest))))
                = Some (String c (String c1 (String c2 r2)), rest)).
        rewrite (parse_string_high c _ Hascii), (parse_string_high c1 _ H1),
          (parse_string_high c2 _ H2).
        rewrite (IH (String.length r2)); [reflexivity| simpl in Hn; lia | reflexivity | exact Hvalid].
    + destruct Hsize as (c1 & c2 & c3 & r3 & -> & H1 & H2 & H3).
      change (parse_string
                (String c (String c1 (String c2 (String c3 (escape r3 ++ String dq rest)))))
              = Some (String c (String c1 (String c2 (String c3 r3))), rest)).
      rewrite (parse_string_high c _ Hascii), (parse_string_high c1 _ H1),
        (parse_string_high c2 _ H2), (parse_string_high c3 _ H3).
      rewrite (IH (String.length r3)); [reflexivity| simpl in Hn; lia | reflexivity | exact Hvalid].
Qed.

Lemma parse_object_eq (f : nat) (r : string) :
  parse_value (S f) (String "{" r)
  = match skip_ws r with
    | String "}" r' => Some (JObj [], r')
    | _ => '(l, r') ← members_of (parse_value f) f r; Some (JObj l, r')
    end.
Proof. reflexivity. Qed.

Lemma parse_object (f : nat) (r r0 : string) :
  skip_ws r = String dq r0 ->
  parse_value (S f) ("{" ++ r)
  = '(l, r') ← members_of (parse_value f) f r; Some (JObj l, r').
Proof.
  intros Hr. change ("{" ++ r) with (String "{" r).
  rewrite parse_object_eq, Hr. reflexivity.
Qed.

Lemma parse_value_space (f : nat) (X : string) :
  parse_value (S f) (String " " X) = parse_value (S f) X.
Proof. reflexivity. Qed.

Lemma marshal_string_app (s Y : string) :
  marshal_string s ++ Y = String dq (escape s ++ String dq Y).
Proof.
  unfold marshal_string, quoted.
  change (String dq ((escape s ++ String dq "") ++ Y) = String dq (escape s ++ String dq Y)).
  now rewrite string_app_assoc.
Qed.

Lemma parse_string_value (f : nat) (v Y : string) :
  valid_utf8 v = true ->
  parse_value (S f) (" " ++ marshal_string v ++ Y) = Some (JStr v, Y).
Proof.
  intros Hv. change (" " ++ marshal_string v ++ Y) with (String " " (marshal_string v ++ Y)).
  rewrite parse_value_space, marshal_string_app.
  change (parse_value (S f) (String dq (escape v ++ String dq Y)))
    with ('(t, r') ← parse_string (escape v ++ String dq Y); Some (JStr t, r')).
  now rewrite escape_parse.
Qed.

Lemma members_more (pv : string -> option (json * string)) (n : nat)
    (X k Y Z W : string) (v : json) :
  expect dq X = Some (escape k ++ String dq Y) -> valid_utf8 k = true ->
  expect ":" Y = Some Z -> pv Z = Some (v, "," ++ W) ->
  members_of pv (S n) X = '(l, s6) ← members_of pv n W; Some ((k, v) :: l, s6).
Proof.
  intros HX Hk HY HZ. cbn [members_of]. rewrite HX. cbn [mbind option_bind].
  rewrite (escape_parse k Hk). cbn [mbind option_bind]. rewrite HY. cbn [mbind option_bind].
  rewrite HZ. reflexivity.
Qed.

Lemma members_last (pv : string -> option (json * string)) (n : nat)
    (X k Y Z W rest : string) (v : json) :
  expect dq X = Some (escape k ++ String dq Y) -> valid_utf8 k = true ->
  expect ":" Y = Some Z -> pv Z = Some (v, W) -> skip_ws W = String "}" rest ->
  members_of pv (S n) X = Some ([(k, v)], rest).
Proof.
  intros HX Hk HY HZ HW. cbn [members_of]. rewrite HX. cbn [mbind option_bind].
  rewrite (escape_parse k Hk). cbn [mbind option_bind]. rewrite HY. cbn [mbind option_bind].
  rewrite HZ. cbn [mbind option_bind]. rewrite HW. reflexivity.
Qed.

Lemma parse_env (f : nat) (e : Environment) (rest : string) :
  utf8_env e = true ->
  parse_value (S (S (S (S f)))) (" " ++ marshal_env "    " e ++ rest)
  = Some (env_json e, rest).
Proof.
  unfold utf8_env. rewrite !andb_true_iff. intros [[Hkey Hcur] Hfmt].
  change (" " ++ marshal_env "    " e ++ rest)
    with (String " " (marshal_env "    " e ++ rest)).
  rewrite parse_value_space.
  unfold marshal_env. rewrite !string_app_assoc.
  erewrite parse_object by reflexivity.
  erewrite members_more with (k := "stripe_api_key");
    [|reflexivity|reflexivity|reflexivity|apply parse_string_value, Hkey].
  erewrite members_more with (k := "default_currency");
    [|reflexivity|reflexivity|reflexivity|apply parse_string_value, Hcur].
  erewrite members_last with (k := "output_format");
    [|reflexivity|reflexivity|reflexivity|apply parse_string_value, Hfmt|reflexivity].
  reflexivity.
Qed.

Lemma marshal_members_last (k : string) (e : Environment) :
  marshal_members [(k, e)]
  = "    " ++ marshal_string k ++ ": " ++ marshal_env "    " e ++ "" ++ newline ++ "".
Proof. reflexivity. Qed.

Lemma marshal_members_more (k : string) (e : Environment) (kv : string * Environment)
    (l : list (string * Environment)) :
  marshal_members ((k, e) :: kv :: l)
  = "    " ++ marshal_string k ++ ": " ++ marshal_env "    " e ++ "," ++ newline
    ++ marshal_members (kv :: l).
Proof. reflexivity. Qed.

Lemma parse_members (f : nat) (rest : string) (l : list (string * Environment)) :
  forall (kv : string * Environment) (n : nat),
    Forall valid_entry (kv :: l) -> (length l < n)%nat ->
    members_of (parse_value (S (S (S (S f))))) n
      (newline ++ marshal_members (kv :: l) ++ "  }" ++ rest)
    = Some (map (fun kv => (fst kv, env_json (snd kv))) (kv :: l), rest).
Proof.
  induction l as [|kv' l IH]; intros [k e] n Hvalid Hlen;
    (destruct n as [|n]; [simpl in Hlen; lia|]);
    apply Forall_cons in Hvalid as [[Hk He] Hvalid]; simpl in Hk, He.
  - rewrite marshal_members_last, !string_app_assoc, marshal_string_app.
    erewrite members_last with (k := k);
      [reflexivity|reflexivity|exact Hk|reflexivity|apply parse_env, He|reflexivity].
  - rewrite marshal_members_more, !string_app_assoc, marshal_string_app.
    erewrite members_more with (k := k);
      [|reflexivity|exact Hk|reflexivity|apply parse_env, He].
    rewrite IH; [reflexivity | exact Hvalid | simpl in Hlen; lia].
Qed.

Lemma env_of_json_env_json (e : Environment) : env_of_json (env_json e) = inl e.
Proof. now destruct e. Qed.

Lemma fold_envs_member (l : list (string * Environment)) :
  forall acc,
    fold_left envs_member (map (fun kv => (fst kv, env_json (snd kv))) l) (inl acc)
    = inl (fold_left (fun g kv => <[fst kv := snd kv]> g) l acc).
Proof.
  induction l as [|[k e] l IH]; intros acc; [reflexivity|].
  cbn [map fold_left fst snd]. unfold envs_member at 2. cbn [fst snd].
  rewrite env_of_json_env_json. apply IH.
Qed.

Lemma insert_sorted_perm (kv : string * Environment) (l : list (string * Environment)) :
  insert_sorted kv l ≡ₚ kv :: l.
Proof.
  induction l as [|kv' l IH]; [reflexivity|]. simpl.
  destruct (String.leb (fst kv) (fst kv')); [reflexivity|].
  rewrite IH. apply Permutation_swap.
Qed.

Lemma sorted_entries_perm (g : gmap string Environment) :
  sorted_entries g ≡ₚ map_to_list g.
Proof.
  unfold sorted_entries. induction (map_to_list g) as [|kv l IH]; [reflexivity|].
  simpl. now rewrite insert_sorted_perm, IH.
Qed.

Lemma fold_insert_sorted (g : gmap string Environment) :
  fold_left (fun acc kv => <[fst kv := snd kv]> acc) (sorted_entries g) ∅ = g.
Proof.
  rewrite <- fold_left_rev_right.
  change (foldr _ ∅ (rev (sorted_entries g)))
    with (list_to_map (M := gmap string Environment) (rev (sorted_entries g))).
  rewrite <- (list_to_map_to_list g) at 2.
  apply list_to_map_proper.
  - rewrite <- Permutation_rev, sorted_entries_perm. apply NoDup_fst_map_to_list.
  - now rewrite <- Permutation_rev, sorted_entries_perm.
Qed.

Lemma length_members (l : list (string * Environment)) :
  (length l <= String.length (marshal_members l))%nat.
Proof.
  induction l as [|[k e] l IH]; [simpl; lia|].
  cbn [marshal_members]. rewrite !length_app. simpl. lia.
Qed.

Lemma members_start (kv : string * Environment) (l : list (string * Environment))
    (X : string) :
  exists r0, skip_ws (newline ++ marshal_members (kv :: l) ++ X) = String dq r0.
Proof. destruct kv, l; eexists; reflexivity. Qed.

Lemma parse_envs (f : nat) (m : gomap Environment) (W : string) :
  Forall valid_entry (match m with Some g => sorted_entries g | None => [] end) ->
  (length (match m with Some g => sorted_entries g | None => [] end) <= 4 + f)%nat ->
  parse_value (S (S (S (S (S f))))) (" " ++ marshal_envs m ++ W) = Some (envs_json m, W).
Proof.
  intros Hvalid Hlen. destruct m as [g|]; [|reflexivity].
  unfold marshal_envs, envs_json.
  destruct (sorted_entries g) as [|kv l]; [reflexivity|].
  change (" " ++ ("{" ++ newline ++ marshal_members (kv :: l) ++ "  }") ++ W)
    with (String " " (("{" ++ newline ++ marshal_members (kv :: l) ++ "  }") ++ W)).
  rewrite parse_value_space, !string_app_assoc.
  destruct (members_start kv l ("  }" ++ W)) as [r0 Hr0].
  rewrite (parse_object _ _ r0 Hr0).
  rewrite parse_members; [reflexivity | exact Hvalid | simpl in Hlen; lia].
Qed.

Lemma parse_config (f : nat) (c : Config) (data : string) :
  MarshalIndent (Some c) = inl data ->
  valid_utf8 (CurrentEnvironment c) = true ->
  Forall valid_entry
    (match Environments c with Some g => sorted_entries g | None => [] end) ->
  (length (match Environments c with Some g => sorted_entries g | None => [] end)
   <= 4 + f)%nat ->
  parse_value (S (S (S (S (S (S f)))))) data
  = Some (JObj [("current_environment", JStr (CurrentEnvironment c));
                ("environments", envs_json (Environments c))], "").
Proof.
  intros [= <-] Hcur Hvalid Hlen.
  erewrite parse_object by reflexivity.
  erewrite members_more with (k := "current_environment");
    [|reflexivity|reflexivity|reflexivity|apply parse_string_value, Hcur].
  erewrite members_last with (k := "environments");
    [reflexivity|reflexivity|reflexivity|reflexivity
    |apply (parse_envs f _ _ Hvalid Hlen)|reflexivity].
Qed.

Lemma length_document (c : Config) (data : string) :
  MarshalIndent (Some c) = inl data ->
  (5 + length (match Environments c with Some g => sorted_entries g | None => [] end)
   <= String.length data)%nat.
Proof.
  intros [= <-]. rewrite !length_app.
  assert (Henvs : (length (match Environments c with
                           | Some g => sorted_entries g
                           | None => []
                           end)
                   <= String.length (marshal_envs (Environments c)))%nat).
  { unfold marshal_envs. destruct (Environments c) as [g|]; [|simpl; lia].
    pose proof (length_members (sorted_entries g)) as Hlen.
    destruct (sorted_entries g) as [|kv l]; [simpl; lia|].
    rewrite !length_app. lia. }
  simpl. lia.
Qed.

Lemma valid_sorted_entries (c : Config) :
  utf8_config c ->
  Forall valid_entry (match Environments c with Some g => sorted_entries g | None => [] end).
Proof.
  intros [_ Hvalid]. destruct (Environments c) as [g|]; [|constructor].
  rewrite sorted_entries_perm. apply Forall_forall. intros [k e] Hin.
  apply elem_of_map_to_list in Hin. exact (Hvalid k e Hin).
Qed.

Lemma decode_document (c : Config) :
  fold_left config_member
    [("current_environment", JStr (CurrentEnvironment c));
     ("environments", envs_json (Environments c))] (inl zero_config)
  = inl c.
Proof.
  destruct c as [cur [g|]]; [|reflexivity].
  cbn [fold_left]. unfold config_member at 2. cbn.
  unfold config_member. cbn.
  rewrite fold_envs_member, fold_insert_sorted. reflexivity.
Qed.

(** The reference codec reads back every configuration made of valid
    UTF-8 as it was. *)
Lemma Unmarshal_MarshalIndent (c : Config) :
  utf8_config c ->
  exists data, MarshalIndent (Some c) = inl data /\ Unmarshal data = inl c.
Proof.
  intros Hvalid. eexists. split; [reflexivity|].
  set (data := "{" ++ _).
  assert (Hdata : MarshalIndent (Some c) = inl data) by reflexivity.
  pose proof (length_document c data Hdata) as Hlen.
  unfold Unmarshal, parse.
  replace (S (String.length data))
    with (S (S (S (S (S (S (String.length data - 5))))))) by lia.
  rewrite (parse_config _ c data Hdata (proj1 Hvalid) (valid_sorted_entries c Hvalid))
    by lia.
  cbn [mbind option_bind skip_ws]. apply decode_document.
Qed.

Lemma ref_codec_restores : codec_restores_utf8 (H := RefHost.ref_host).
Proof.
  intros c Hvalid. destruct (Unmarshal_MarshalIndent c Hvalid) as (data & Hwrite & Hread).
  exists data, c. repeat split; assumption.
Qed.

End CodecFacts.

(** ** The configuration manager on the reference host *)

Module ConfigExamples.

Import RefHost.

#[local] Existing Instance ref_host.

Lemma ref_host_reads_back : reads_back_writes (H := ref_host).
Proof.
  intros path data perm fs fs' Hwrite. simpl in *.
  unfold WriteFile in Hwrite. destruct (read_only fs); [discriminate|].
  injection Hwrite as <-. unfold ReadFile; simpl. now rewrite lookup_insert_eq.
Qed.

(** An empty name is refused; "prod" is stored with the defaults filled
    in. *)
Lemma AddEnvironment_spec_witness :
  (exists e, AddEnvironment "" prod_env fresh_manager empty_disk
             = Returns (Some e, fresh_manager, empty_disk))
  /\ (exists m' fs' c' stored,
        AddEnvironment "prod" prod_env fresh_manager empty_disk = Returns (None, m', fs')
        /\ config m' = Some c'
        /\ map_index (Environments c') "prod" = Some stored
        /\ StripeAPIKey stored = "sk_live_0123456789abcdef"
        /\ DefaultCurrency stored = "usd"
        /\ OutputFormat stored = "table"
        /\ map_index (Environments c') "test" = Some test_env).
Proof.
  pose proof (ConfigFacts.AddEnvironment_spec (H := ref_host) "" prod_env fresh_manager
                empty_disk DefaultConfig _ eq_refl eq_refl) as (Hempty & _ & _).
  pose proof (ConfigFacts.AddEnvironment_spec (H := ref_host) "prod" prod_env fresh_manager
                empty_disk DefaultConfig _ eq_refl eq_refl) as (_ & _ & Hadd & Hstored).
  split; [exact (Hempty eq_refl)|].
  specialize (Hadd ltac:(discriminate) ltac:(right; reflexivity)). cbv zeta in Hadd.
  match type of Hadd with
  | _ = Returns (fst (Save ?m1 _), _, _) =>
      assert (Hsaved : fst (Save (H := ref_host) m1 empty_disk) = None)
        by (vm_compute; reflexivity)
  end.
  rewrite Hsaved in Hadd.
  destruct (Hstored _ _ Hadd) as (c' & stored & Hc' & Hprod & Hkey & Hcur & _ & Hfmt & _ & Hkept).
  eexists _, _, c', stored. split; [exact Hadd|]. split; [exact Hc'|].
  split; [exact Hprod|]. split; [exact Hkey|].
  split; [exact (Hcur eq_refl)|]. split; [exact (Hfmt eq_refl)|].
  rewrite Hkept by discriminate. reflexivity.
Defined.

(** Removing "test" from the two environments leaves "prod", which
    becomes current. *)
Lemma RemoveEnvironment_spec_witness :
  RemoveEnvironment 0 "test" fresh_manager empty_disk
  = (Some (ErrText "cannot remove the last environment"), fresh_manager, empty_disk)
  /\ (exists c1,
        fst (fst (RemoveEnvironment 0 "test" two_manager empty_disk)) = None
        /\ config (snd (fst (RemoveEnvironment 0 "test" two_manager empty_disk))) = Some c1
        /\ current_exists c1).
Proof.
  pose proof (ConfigFacts.RemoveEnvironment_spec (H := ref_host) 0 "test" fresh_manager empty_disk
                DefaultConfig eq_refl) as (_ & Hsole & _).
  pose proof (ConfigFacts.RemoveEnvironment_spec (H := ref_host) 0 "test" two_manager empty_disk
                two_envs eq_refl) as (_ & _ & Hremoves).
  split.
  - apply Hsole; [vm_compute; eauto | reflexivity].
  - destruct Hremoves as (c1 & Hcall & _ & Hcur & _).
    + vm_compute; eauto.
    + vm_compute; lia.
    + exists c1. rewrite Hcall. split; [|split].
      * vm_compute. reflexivity.
      * reflexivity.
      * apply Hcur. reflexivity.
Defined.

(** C6, counterexample: the file names "prod" as current, which is none
    of its environments "a" and "b"; removing "a" succeeds and the
    current environment still names no environment. *)
Lemma RemoveEnvironment_current_may_dangle :
  let d0 := disk_with stray_current_file in
  let loaded := Load (NewManager d0) d0 in
  let removed := RemoveEnvironment 0 "a" (snd (fst loaded)) (snd loaded) in
  fst (fst loaded) = None
  /\ (exists env, GetEnvironment (snd (fst loaded)) "a" = inl env)
  /\ fst (fst removed) = None
  /\ GetCurrentEnvironment (snd (fst removed)) = "prod"
  /\ (exists e, GetCurrentEnvironmentConfig (snd (fst removed)) = inr e
                /\ errors_Is e ErrEnvironmentNotFound = true).
Proof.
  vm_compute. repeat split; eauto.
Qed.

(** On the reference host: the default is created when there is no
    file, and the mutations keep an environment. *)
Lemma env_count_invariant_witness :
  env_count (snd (fst (Load (NewManager empty_disk) empty_disk))) = 1%nat
  /\ (let d0 := disk_with stray_current_file in
      exists a b,
        env_of (snd (fst (Load (NewManager d0) d0))) "a" = Some a
        /\ env_of (snd (fst (Load (NewManager d0) d0))) "b" = Some b
        /\ env_count (snd (fst (Load (NewManager d0) d0))) = 2%nat)
  /\ (1 <= env_count (snd (fst (RemoveEnvironment 0 "prod" two_manager empty_disk))))%nat
  /\ (1 <= env_count (snd (fst (SetCurrentEnvironment "prod" two_manager empty_disk))))%nat.
Proof.
  pose proof (ConfigFacts.env_count_invariant (H := ref_host) (NewManager empty_disk) empty_disk)
    as (Hdefault & _).
  pose proof (ConfigFacts.env_count_invariant (H := ref_host)
                (NewManager (disk_with stray_current_file)) (disk_with stray_current_file))
    as (_ & Hfile & _).
  pose proof (ConfigFacts.env_count_invariant (H := ref_host) two_manager empty_disk)
    as (_ & _ & Hkeeps & _).
  split; [|split].
  - apply (Hdefault no_such_file); reflexivity.
  - intros d0.
    destruct (json_Unmarshal (Host := ref_host) stray_current_file) as [cfg|e] eqn:Hjson;
      [|vm_compute in Hjson; discriminate].
    destruct (Hfile stray_current_file cfg eq_refl Hjson)
      as (_ & (c' & _ & _ & Hnames & _) & Hcount).
    assert (Hcfg : exists a b,
              map_index (Environments cfg) "a" = Some a
              /\ map_index (Environments cfg) "b" = Some b
              /\ map_len (Environments cfg) = 2%nat).
    { vm_compute in Hjson. injection Hjson as <-. vm_compute. eauto. }
    destruct Hcfg as (a & b & Ha & Hb & Hlen).
    exists a, b. subst d0. rewrite !Hnames, Hcount. auto.
  - destruct Hkeeps as (_ & Hremove & Hset & _); [vm_compute; lia|].
    split; [apply Hremove | apply Hset].
Defined.

(** C7, counterexample: a configuration file that is the empty JSON
    object loads without error and leaves the manager without any
    environment. *)
Lemma Load_file_without_environments :
  let d0 := disk_with bare_file in
  fst (fst (Load (NewManager d0) d0)) = None
  /\ env_count (snd (fst (Load (NewManager d0) d0))) = 0%nat.
Proof.
  vm_compute. split; reflexivity.
Qed.

Lemma two_envs_utf8 : utf8_config two_envs.
Proof.
  split; [reflexivity|]. intros name env Hname.
  unfold map_index in Hname. simpl in Hname.
  apply lookup_insert_Some in Hname as [[<- <-]|[_ Hname]]; [split; reflexivity|].
  apply lookup_singleton_Some in Hname as [<- <-]. split; reflexivity.
Qed.

Lemma unnamed_current_utf8 : utf8_config unnamed_current.
Proof.
  split; [reflexivity|]. intros name env Hname.
  unfold map_index in Hname. simpl in Hname.
  apply lookup_insert_Some in Hname as [[<- <-]|[_ Hname]]; [split; reflexivity|].
  apply lookup_singleton_Some in Hname as [<- <-]. split; reflexivity.
Qed.

(** The two environments and the current environment survive [Save]
    and [Load]; with the empty name current, the environments survive
    and "test" is current. *)
Lemma Save_Load_roundtrip_witness :
  (exists c',
     Load (NewManager empty_disk) (snd (Save two_manager empty_disk))
     = (None, set_config (NewManager empty_disk) c', snd (Save two_manager empty_disk))
     /\ CurrentEnvironment c' = "test"
     /\ entries (Environments c') = entries (Environments two_envs))
  /\ (exists c',
        Load (NewManager empty_disk) (snd (Save unnamed_manager empty_disk))
        = (None, set_config (NewManager empty_disk) c',
           snd (Save unnamed_manager empty_disk))
        /\ CurrentEnvironment c' = "test"
        /\ entries (Environments c') = entries (Environments unnamed_current)).
Proof.
  split.
  - destruct (ConfigFacts.Save_Load_roundtrip (H := ref_host) two_manager
                (NewManager empty_disk) empty_disk (snd (Save two_manager empty_disk))
                two_envs)
      as (c' & Hload & Henvs & _ & Hcur & _).
    + reflexivity.
    + exact two_envs_utf8.
    + exact ref_host_reads_back.
    + exact CodecFacts.ref_codec_restores.
    + reflexivity.
    + vm_compute. reflexivity.
    + exists c'. split; [exact Hload|]. split; [|exact Henvs].
      apply Hcur. discriminate.
  - destruct (ConfigFacts.Save_Load_roundtrip (H := ref_host) unnamed_manager
                (NewManager empty_disk) empty_disk (snd (Save unnamed_manager empty_disk))
                unnamed_current)
      as (c' & Hload & Henvs & _ & _ & Hcur).
    + reflexivity.
    + exact unnamed_current_utf8.
    + exact ref_host_reads_back.
    + exact CodecFacts.ref_codec_restores.
    + reflexivity.
    + vm_compute. reflexivity.
    + exists c'. split; [exact Hload|]. split; [|exact Henvs].
      apply Hcur. reflexivity.
Defined.

(** C8, counterexample, in two parts.  The loaded file has an
    environment with the empty name; once that one is made current,
    [Save] followed by [Load] ends with the current environment "test"
    instead.  And an environment added under a name that is not valid
    UTF-8 (the byte 255) is saved, but [Load] no longer finds it: the
    file holds U+FFFD in place of the byte. *)
Lemma Save_Load_not_reproduced :
  (let d0 := disk_with empty_name_file in
   let loaded := Load (NewManager d0) d0 in
   let switched := SetCurrentEnvironment "" (snd (fst loaded)) (snd loaded) in
   let saved := Save (snd (fst switched)) (snd switched) in
   let reloaded := Load (NewManager (snd saved)) (snd saved) in
   fst (fst loaded) = None
   /\ fst (fst switched) = None
   /\ fst saved = None
   /\ fst (fst reloaded) = None
   /\ GetCurrentEnvironment (snd (fst switched)) = ""
   /\ GetCurrentEnvironment (snd (fst reloaded)) = "test")
  /\ (exists m1 fs1,
        AddEnvironment byte_255 prod_env fresh_manager empty_disk = Returns (None, m1, fs1)
        /\ is_Some (env_of m1 byte_255)
        /\ env_count m1 = 2%nat
        /\ let saved := Save m1 fs1 in
           let reloaded := Load (NewManager (snd saved)) (snd saved) in
           fst saved = None
           /\ fst (fst reloaded) = None
           /\ env_of (snd (fst reloaded)) byte_255 = None
           /\ is_Some (env_of (snd (fst reloaded)) replacement_char)
           /\ env_count (snd (fst reloaded)) = 2%nat).
Proof.
  split; [vm_compute; repeat split; reflexivity|].
  eexists _, _. split; [vm_compute; reflexivity|].
  vm_compute. repeat split; eauto.
Qed.

End ConfigExamples.

(** ** Batch creation of promotion codes *)

Module BatchFacts.

Import StringFacts.

Lemma fold_summary_lines (l : list error) (head : string) :
  fold_left (fun msg err => msg ++ newline ++ "  " ++ Error err) l head
  = head ++ concat_lines (map summary_line l).
Proof.
  revert head. induction l as [|e l IH]; intros head; simpl.
  - now rewrite string_app_empty.
  - rewrite IH. unfold summary_line. now rewrite string_app_assoc.
Qed.

Lemma take_min_5 {A} (l : list A) :
  take (Z.to_nat (min (Z.of_nat (length l)) 5)) l = take 5 l.
Proof.
  unfold min. destruct (Z.ltb_spec (Z.of_nat (length l)) 5) as [Hlt|Hge].
  - rewrite Nat2Z.id. rewrite firstn_all. symmetry. apply take_ge. lia.
  - reflexivity.
Qed.

(** The summary: the head line, a line for each of the first five
    errors, and the count of the others when there are more. *)
Lemma batch_summary_shape (created : nat) (count : Z) (errors : list error) :
  batch_summary created count errors
  = ("created " ++ fmt_d (Z.of_nat created) ++ "/" ++ fmt_d count ++ " codes successfully")
    ++ concat_lines (map summary_line (take 5 errors))
    ++ (if (5 <? length errors)%nat then
          newline ++ "  ... and " ++ fmt_d (Z.of_nat (length errors - 5)) ++ " more errors"
        else "").
Proof.
  unfold batch_summary. rewrite take_min_5, fold_summary_lines.
  destruct (Z.ltb_spec 5 (Z.of_nat (length errors))) as [Hlt|Hge];
    destruct (Nat.ltb_spec 5 (length errors)) as [Hlt'|Hge']; try lia.
  - rewrite string_app_assoc. do 2 f_equal.
    replace (Z.of_nat (length errors) - 5) with (Z.of_nat (length errors - 5)) by lia.
    reflexivity.
  - now rewrite string_app_empty.
Qed.

Section WithOutside.
Context `{Outside}.

Variable client : Client.
Variable opts : BatchCreateOptions.
Hypothesis Hinit : IsInitialized client = true.
Hypothesis Hcoupon : b_CouponID opts <> "".

(** One round of the loop: read the clock, build the code, send the
    request, and go on with the code or the error added. *)
Lemma batch_loop_step (n : nat) (i : Z) (codes : list (option PromotionCode))
    (errors : list error) (w : World) :
  batch_loop client opts (S n) i codes errors w
  = let '(now, w1) := time_Now_UnixNano w in
    let prefix := if String.eqb (b_Prefix opts) "" then "PROMO" else b_Prefix opts in
    let code :=
      code_text (strings_ToUpper prefix) (i + 1) (rand_Intn (wrap64 (now + (i + 1))) 100000) in
    let params := promotion_params (batch_item_options opts code) in
    let '(pc, err, w2) := promotioncode_New params w1 in
    let x := {| sent := CallPromotionCodeNew params; failure := err |} in
    let '(r, w3, t) :=
      match err with
      | Some e =>
          batch_loop client opts n (i + 1) codes (errors ++ [batch_error code e])%list w2
      | None => batch_loop client opts n (i + 1) (codes ++ [Some pc])%list errors w2
      end in
    (r, w3, x :: t).
Proof.
  cbn [batch_loop]. unfold bind at 1. unfold generatePromotionCode, bind at 1, lift, ret.
  destruct (time_Now_UnixNano w) as [now w1]. cbn zeta. cbv beta iota.
  unfold bind at 1. unfold CreatePromotionCode.
  rewrite Hinit. cbn [negb]. cbn [batch_item_options pc_CouponID].
  rewrite (eqb_empty_false _ Hcoupon).
  unfold bind, stripe_call, ret. cbn zeta.
  destruct (promotioncode_New _ w1) as [[pc [e|]] w2]; cbn [snd].
  - destruct (batch_loop client opts n (i + 1) codes _ w2) as [[r w3] t]. reflexivity.
  - destruct (batch_loop client opts n (i + 1) _ errors w2) as [[r w3] t]. reflexivity.
Qed.

(** The loop runs all its rounds: it sends one creation request per
    round, adds a code for each request that went through and an
    error for each refused one, and never stops early. *)
Lemma batch_loop_run (n : nat) :
  forall (i : Z) (codes : list (option PromotionCode)) (errors : list error) (w : World),
  exists cs es w' t,
    batch_loop client opts n i codes errors w = ((codes ++ cs, errors ++ es)%list, w', t)
    /\ length t = n
    /\ forallb is_create t = true
    /\ length cs = length (List.filter created t)
    /\ Forall is_Some cs
    /\ Forall2 reports (List.filter refused t) es.
Proof.
  induction n as [|n IH]; intros i codes errors w.
  - exists [], [], w, []. simpl. unfold ret. rewrite !app_nil_r.
    repeat split; constructor.
  - rewrite batch_loop_step.
    destruct (time_Now_UnixNano w) as [now w1]. cbn zeta.
    set (code := code_text _ _ _).
    destruct (promotioncode_New _ w1) as [[pc [e|]] w2].
    + destruct (IH (i + 1) codes (errors ++ [batch_error code e])%list w2)
        as (cs & es & w' & t & Heq & Hlen & Hcreate & Hcs & Hsome & Hrep).
      rewrite Heq. exists cs, (batch_error code e :: es), w'. eexists.
      split; [now rewrite <- List.app_assoc|].
      split; [simpl; now rewrite Hlen|].
      split; [simpl; exact Hcreate|].
      split; [exact Hcs|].
      split; [exact Hsome|].
      simpl. constructor; [|exact Hrep].
      eexists _, code, e. repeat split.
    + destruct (IH (i + 1) (codes ++ [Some pc])%list errors w2)
        as (cs & es & w' & t & Heq & Hlen & Hcreate & Hcs & Hsome & Hrep).
      rewrite Heq. exists (Some pc :: cs), es, w'. eexists.
      split; [now rewrite <- List.app_assoc|].
      split; [simpl; now rewrite Hlen|].
      split; [simpl; exact Hcreate|].
      split; [simpl; now rewrite Hcs|].
      split; [constructor; [eauto | exact Hsome]|].
      exact Hrep.
Qed.

(** The codes the loop adds are what Stripe created for its requests,
    in the order of the requests, and the recorded failures are
    Stripe's. *)
Lemma batch_loop_answers (n : nat) :
  forall (i : Z) (codes : list (option PromotionCode)) (errors : list error) (w : World),
    let run := batch_loop client opts n i codes errors w in
    fst (fst (fst run)) = (codes ++ answered w (snd run))%list
    /\ snd (fst run) = world_after w (snd run).
Proof.
  induction n as [|n IH]; intros i codes errors w.
  - simpl. unfold ret. simpl. now rewrite app_nil_r.
  - cbv zeta. rewrite batch_loop_step.
    destruct (time_Now_UnixNano w) as [now w1] eqn:Hnow. cbn zeta.
    set (code := code_text _ _ _).
    destruct (promotioncode_New _ w1) as [[pc [e|]] w2] eqn:Hnew.
    + pose proof (IH (i + 1) codes (errors ++ [batch_error code e])%list w2) as Hrest.
      cbv zeta in Hrest.
      destruct (batch_loop client opts n (i + 1) codes _ w2) as [[r w3] t].
      cbn [fst snd] in *. cbn [answered world_after sent].
      rewrite Hnow. cbn [snd]. rewrite Hnew. cbn [snd]. exact Hrest.
    + pose proof (IH (i + 1) (codes ++ [Some pc])%list errors w2) as Hrest.
      cbv zeta in Hrest.
      destruct (batch_loop client opts n (i + 1) _ errors w2) as [[r w3] t].
      cbn [fst snd] in *. cbn [answered world_after sent].
      rewrite Hnow. cbn [snd]. rewrite Hnew. cbn [snd].
      destruct Hrest as [Hcodes Hworld]. split; [|exact Hworld].
      rewrite Hcodes. now rewrite <- List.app_assoc.
Qed.

(** The same for the batch call whose options pass the checks. *)
Lemma BatchCreate_answers (w : World) :
  1 <= b_Count opts <= 1000 ->
  let run := BatchCreatePromotionCodes client opts w in
  fst (fst (fst run)) = answered w (snd run)
  /\ snd (fst run) = world_after w (snd run).
Proof.
  intros Hcount. cbv zeta. unfold BatchCreatePromotionCodes.
  rewrite Hinit, (eqb_empty_false _ Hcoupon). cbn [negb].
  destruct (Z.leb_spec (b_Count opts) 0) as [|_]; [lia|].
  destruct (Z.ltb_spec 1000 (b_Count opts)) as [|_]; [lia|].
  pose proof (batch_loop_answers (Z.to_nat (b_Count opts)) 0 [] [] w) as Hloop.
  cbv zeta in Hloop. unfold bind.
  destruct (batch_loop client opts _ 0 [] [] w) as [[[codes errors] w1] t].
  cbn [fst snd app] in Hloop.
  destruct (0 <? length errors)%nat; unfold ret; cbn [fst snd]; now rewrite app_nil_r.
Qed.

Lemma created_refused_split (t : list Exchange) :
  forallb is_create t = true ->
  (length (List.filter created t) + length (List.filter refused t))%nat = length t.
Proof.
  induction t as [|x t IH]; [reflexivity|]. simpl.
  intros Hall. apply andb_prop in Hall as [Hx Ht]. specialize (IH Ht).
  assert (Hcr : created x = negb (refused x)) by (unfold created; now rewrite Hx).
  rewrite Hcr. destruct (refused x); simpl; lia.
Qed.

(** A batch call whose options pass the checks. *)
Lemma BatchCreate_valid_run (w : World) :
  1 <= b_Count opts <= 1000 ->
  exists codes errors w' t,
    BatchCreatePromotionCodes client opts w
    = ((codes,
        if (0 <? length errors)%nat
        then Some (ErrText (batch_summary (length codes) (b_Count opts) errors))
        else None), w', t)
    /\ length t = Z.to_nat (b_Count opts)
    /\ forallb is_create t = true
    /\ length codes = length (List.filter created t)
    /\ Forall is_Some codes
    /\ Forall2 reports (List.filter refused t) errors.
Proof.
  intros Hcount. unfold BatchCreatePromotionCodes.
  rewrite Hinit, (eqb_empty_false _ Hcoupon). cbn [negb].
  destruct (Z.leb_spec (b_Count opts) 0) as [|_]; [lia|].
  destruct (Z.ltb_spec 1000 (b_Count opts)) as [|_]; [lia|].
  destruct (batch_loop_run (Z.to_nat (b_Count opts)) 0 [] [] w)
    as (cs & es & w' & t & Heq & Hlen & Hcreate & Hcs & Hsome & Hrep).
  unfold bind. rewrite Heq. cbn [app].
  exists cs, es, w', t.
  split; [|now repeat split].
  destruct (0 <? length es)%nat; unfold ret; now rewrite app_nil_r.
Qed.

(** C1: a batch call with a coupon ID and a count from 1 to 1000 in
    which [k > 0] of the creation requests are refused sends all
    [count] requests all the same, returns the [count - k] codes that
    were created, and returns an error whose text is "created
    <count-k>/<count> codes successfully", then one line for each of
    the first five errors, then "... and <k-5> more errors" when
    [k > 5].  The codes returned are the ones Stripe created, in the
    order of the requests: what Stripe handed back for each request
    that was not refused.  Each error names the code that was sent and
    wraps what Stripe answered.  (The statement covers [k = count] as
    well.) *)
Theorem BatchCreate_partial_failure (w w' : World)
    (codes : list (option PromotionCode)) (err : option error) (trace : list Exchange) :
  1 <= b_Count opts <= 1000 ->
  BatchCreatePromotionCodes client opts w = ((codes, err), w', trace) ->
  let count := Z.to_nat (b_Count opts) in
  let k := length (List.filter refused trace) in
  (0 < k)%nat ->
  length trace = count
  /\ forallb is_create trace = true
  /\ (k <= count)%nat
  /\ length codes = (count - k)%nat
  /\ Forall is_Some codes
  /\ codes = answered w trace
  /\ w' = world_after w trace
  /\ exists errors,
       Forall2 reports (List.filter refused trace) errors
       /\ err = Some (ErrText (
             ("created " ++ fmt_d (Z.of_nat (count - k)) ++ "/" ++ fmt_d (b_Count opts)
              ++ " codes successfully")
             ++ concat_lines (map summary_line (take 5 errors))
             ++ (if (5 <? k)%nat then
                   newline ++ "  ... and " ++ fmt_d (Z.of_nat (k - 5)) ++ " more errors"
                 else ""))).
Proof.
  intros Hcount Hrun count k Hk.
  destruct (BatchCreate_valid_run w Hcount)
    as (cs & es & w1 & t & Heq & Hlen & Hcreate & Hcs & Hsome & Hrep).
  pose proof (BatchCreate_answers w Hcount) as Hanswers. cbv zeta in Hanswers.
  rewrite Hrun in Hanswers. cbn [fst snd] in Hanswers. destruct Hanswers as [Hcodes Hworld].
  rewrite Hrun in Heq. injection Heq as -> -> -> ->.
  pose proof (created_refused_split t Hcreate) as Hsplit.
  pose proof (Forall2_length _ _ _ Hrep) as Hes.
  fold k in Hsplit, Hes. fold count in Hlen. clearbody count k.
  split; [exact Hlen|]. split; [exact Hcreate|]. split; [lia|].
  split; [lia|]. split; [exact Hsome|].
  split; [exact Hcodes|]. split; [exact Hworld|].
  exists es. split; [exact Hrep|].
  destruct (Nat.ltb_spec 0 (length es)) as [_|]; [|lia].
  rewrite batch_summary_shape, <- Hes.
  replace (length cs) with (count - k)%nat by lia. reflexivity.
Qed.

(** A count out of range stops the batch call before its loop. *)
Lemma BatchCreate_count_stops (w : World) :
  b_Count opts <= 0 \/ 1000 < b_Count opts ->
  exists e, BatchCreatePromotionCodes client opts w = (([], Some e), w, []).
Proof.
  intros Hcount. unfold BatchCreatePromotionCodes.
  rewrite Hinit, (eqb_empty_false _ Hcoupon). cbn [negb].
  destruct (Z.leb_spec (b_Count opts) 0) as [Hle|Hgt]; [eauto|].
  destruct (Z.ltb_spec 1000 (b_Count opts)) as [Hlt|Hge]; [eauto | lia].
Qed.

(** C3: with a coupon ID and an initialized client, a count that is
    zero or less, or more than 1000, makes the batch call return no
    code and a validation error, without sending any request and
    without touching the world. *)
Theorem BatchCreate_count_out_of_range (w : World) :
  b_Count opts <= 0 \/ 1000 < b_Count opts ->
  exists e,
    BatchCreatePromotionCodes client opts w = (([], Some e), w, [])
    /\ (e = ErrText "count must be greater than 0"
        \/ e = ErrText "count cannot exceed 1000").
Proof.
  intros Hcount. unfold BatchCreatePromotionCodes.
  rewrite Hinit, (eqb_empty_false _ Hcoupon). cbn [negb].
  destruct (Z.leb_spec (b_Count opts) 0) as [Hle|Hgt].
  - eexists. split; [reflexivity | now left].
  - destruct (Z.ltb_spec 1000 (b_Count opts)) as [Hlt|Hge]; [|lia].
    eexists. split; [reflexivity | now right].
Qed.

End WithOutside.

End BatchFacts.

(** ** The services as a whole *)

Module ServiceFacts.

Import StringFacts.

Lemma same_length_nil {A B} (l : list A) (l' : list B) :
  length l = length l' -> (l <> [] <-> l' <> []).
Proof. destruct l, l'; simpl; intros Hlen; try discriminate; split; congruence. Qed.

Lemma valid_duration_once : validDurations !! "once" = Some true.
Proof. reflexivity. Qed.

Lemma valid_duration_repeating : validDurations !! "repeating" = Some true.
Proof. reflexivity. Qed.

Lemma invalid_duration (d : string) :
  d <> "forever" -> d <> "once" -> d <> "repeating" -> validDurations !! d = None.
Proof.
  intros H1 H2 H3. unfold validDurations.
  rewrite !lookup_insert_ne by congruence. apply lookup_singleton_ne. congruence.
Qed.

(** Unfolds one run of a service down to the answer of the SDK. *)
Ltac run_service :=
  unfold bind, stripe_call, ret, lift; cbn beta iota zeta;
  repeat match goal with
    | |- context [let '(_, _) := ?x in _] => destruct x as [[? [?|]] ?]
    end;
  cbn.

Section WithOutside.
Context `{Outside}.

Lemma GetCoupon_creates_nothing (client : Client) (id : string) (w : World) :
  List.filter created (snd (GetCoupon client id w)) = [].
Proof.
  unfold GetCoupon. destruct (IsInitialized client); cbn [negb]; [|reflexivity].
  unfold bind, stripe_call, ret.
  destruct (coupon_Get id w) as [[c [e|]] w1]; reflexivity.
Qed.

Lemma prompt_sends_nothing (couponID : string) (w : World) :
  snd (promptBatchCreateOptions couponID w) = [].
Proof.
  unfold promptBatchCreateOptions, bind, lift, ret.
  destruct (promptui_Run countPrompt w) as [[countStr [e|]] w1]; [reflexivity|].
  destruct (promptui_Run prefixPrompt w1) as [[prefix e1] w2].
  destruct (promptui_Run maxRedemptionsPrompt w2) as [[maxStr e2] w3]. reflexivity.
Qed.

(** Whatever the options, the codes a batch call returns are as many
    as the creations that went through, and it returns codes together
    with an error exactly when some creation went through and some
    was refused. *)
Lemma BatchCreate_shape (client : Client) (opts : BatchCreateOptions) (w : World) :
  exists codes err w' t,
    BatchCreatePromotionCodes client opts w = ((codes, err), w', t)
    /\ length codes = length (List.filter created t)
    /\ (codes <> [] /\ err <> None
        <-> List.filter created t <> [] /\ List.filter refused t <> []).
Proof.
  assert (Hstop : forall e,
            BatchCreatePromotionCodes client opts w = (([], Some e), w, []) ->
            exists codes err w' t,
              BatchCreatePromotionCodes client opts w = ((codes, err), w', t)
              /\ length codes = length (List.filter created t)
              /\ (codes <> [] /\ err <> None
                  <-> List.filter created t <> [] /\ List.filter refused t <> [])).
  { intros e He. eexists _, _, _, _. split; [exact He|]. split; [reflexivity|].
    simpl. split; intros [Hno _]; congruence. }
  destruct (IsInitialized client) eqn:Hinit.
  2: { eapply Hstop. unfold BatchCreatePromotionCodes. now rewrite Hinit. }
  destruct (String.eqb_spec (b_CouponID opts) "") as [Hid|Hid].
  { eapply Hstop. unfold BatchCreatePromotionCodes. now rewrite Hinit, Hid. }
  destruct (Z_le_gt_dec (b_Count opts) 0) as [Hlow|Hlow].
  { destruct (BatchFacts.BatchCreate_count_stops client opts Hinit Hid w) as [e He];
      [now left | eauto]. }
  destruct (Z_lt_le_dec 1000 (b_Count opts)) as [Hhigh|Hhigh].
  { destruct (BatchFacts.BatchCreate_count_stops client opts Hinit Hid w) as [e He];
      [now right | eauto]. }
  destruct (BatchFacts.BatchCreate_valid_run client opts Hinit Hid w ltac:(lia))
    as (codes & errors & w' & t & Hrun & _ & _ & Hcodes & _ & Hrep).
  eexists _, _, _, _. split; [exact Hrun|]. split; [exact Hcodes|].
  apply Forall2_length in Hrep.
  rewrite (same_length_nil _ _ Hcodes), (same_length_nil _ _ Hrep).
  destruct errors as [|e errors]; simpl; split; intros [Hc He]; split;
    try assumption; congruence.
Qed.

(** C2: the batch command ends without error whenever at least one
    promotion code was created during it, so that it fails only when
    none was; the batch call of the service returns as many codes as
    were created, and returns codes together with an error exactly on
    a partial failure (some creation went through, some was refused);
    the other calls of the two services (list, get, create, update)
    never return a result together with an error. *)
Theorem batch_fails_only_without_codes (client : Client) :
  (forall couponID count prefix maxRedemptions w,
     let '(result, _, t) := promoBatchCmd client couponID count prefix maxRedemptions w in
     List.filter created t <> [] -> result = None)
  /\ (forall opts w,
        let '(codes, err, _, t) := BatchCreatePromotionCodes client opts w in
        length codes = length (List.filter created t)
        /\ (codes <> [] /\ err <> None
            <-> List.filter created t <> [] /\ List.filter refused t <> []))
  /\ (forall couponID w,
        let '(codes, err, _, _) := ListPromotionCodes client couponID w in
        codes = [] \/ err = None)
  /\ (forall w,
        let '(coupons, err, _, _) := ListCoupons client w in coupons = [] \/ err = None)
  /\ (forall id w,
        let '(pc, err, _, _) := GetPromotionCode client id w in pc = None \/ err = None)
  /\ (forall opts w,
        let '(pc, err, _, _) := CreatePromotionCode client opts w in pc = None \/ err = None)
  /\ (forall id active metadata w,
        let '(pc, err, _, _) := UpdatePromotionCode client id active metadata w in
        pc = None \/ err = None)
  /\ (forall id w,
        let '(c, err, _, _) := GetCoupon client id w in c = None \/ err = None)
  /\ (forall opts w,
        let '(c, err, _, _) := CreateCoupon client opts w in c = None \/ err = None)
  /\ (forall id opts w,
        let '(c, err, _, _) := UpdateCoupon client id opts w in c = None \/ err = None).
Proof.
  split; [|split; [|repeat split]].
  - intros couponID count prefix maxRedemptions w.
    unfold promoBatchCmd. unfold bind at 1.
    pose proof (GetCoupon_creates_nothing client couponID w) as Hget.
    destruct (GetCoupon client couponID w) as [[[c [e|]] w1] t1]; simpl in Hget.
    { unfold ret. rewrite app_nil_r. intros Hcreated. contradiction. }
    unfold bind at 1.
    assert (Hopts : snd ((if count =? 0 then promptBatchCreateOptions couponID
                         else ret ({| b_CouponID := couponID; b_Count := count;
                                      b_Prefix := prefix; b_Customer := "";
                                      b_MaxRedemptions := Some maxRedemptions;
                                      b_MinimumAmount := None; b_Currency := "";
                                      b_ExpiresAt := None;
                                      b_FirstTimeTransaction := None;
                                      b_Metadata := None |}, None)) w1) = []).
    { destruct (count =? 0); [apply prompt_sends_nothing | reflexivity]. }
    match type of Hopts with
    | snd ?run = [] => set (step := run) in *; clearbody step
    end.
    destruct step as [[[opts [e|]] w2] t2]; simpl in Hopts; subst t2.
    { unfold ret. rewrite !app_nil_r. intros Hcreated. contradiction. }
    unfold bind.
    destruct (BatchCreate_shape client opts w2)
      as (codes & err & w3 & t3 & Hrun & Hlen & _).
    rewrite Hrun. unfold ret.
    destruct err as [e|]; [|intros _; reflexivity].
    destruct (Nat.eqb_spec (length codes) 0) as [Hzero|Hsome]; [|intros _; reflexivity].
    cbn [app]. rewrite app_nil_r, List.filter_app, Hget. cbn [app].
    intros Hcreated. exfalso. apply Hcreated.
    rewrite Hzero in Hlen. now destruct (List.filter created t3).
  - intros opts w.
    destruct (BatchCreate_shape client opts w)
      as (codes & err & w3 & t3 & -> & Hlen & Hboth). now split.
  - intros couponID w. unfold ListPromotionCodes.
    destruct (IsInitialized client); cbn [negb]; [|now left].
    run_service; auto.
  - intros w. unfold ListCoupons.
    destruct (IsInitialized client); cbn [negb]; [|now left].
    run_service; auto.
  - intros id w. unfold GetPromotionCode.
    destruct (IsInitialized client); cbn [negb]; [|now left].
    run_service; auto.
  - intros opts w. unfold CreatePromotionCode.
    destruct (IsInitialized client); cbn [negb]; [|now left].
    destruct (String.eqb (pc_CouponID opts) ""); [now left|].
    run_service; auto.
  - intros id active metadata w. unfold UpdatePromotionCode.
    destruct (IsInitialized client); cbn [negb]; [|now left].
    run_service; auto.
  - intros id w. unfold GetCoupon.
    destruct (IsInitialized client); cbn [negb]; [|now left].
    run_service; auto.
  - intros opts w. unfold CreateCoupon.
    destruct (IsInitialized client); cbn [negb]; [|now left].
    destruct (c_PercentOff opts), (c_AmountOff opts); try (now left);
      repeat match goal with
        | |- context [if ?b then _ else _] => destruct b; try (now left)
        end;
      run_service; auto.
  - intros id opts w. unfold UpdateCoupon.
    destruct (IsInitialized client); cbn [negb]; [|now left].
    run_service; auto.
Qed.

(** C5, as the code has it: on an initialized client [CreateCoupon]
    fails, before anything is sent to Stripe, when neither or both of
    percent_off and amount_off are given, when amount_off comes
    without a currency, when the duration is not empty and is none of
    forever, once and repeating, and when the duration is repeating
    without duration_in_months.  An empty duration is read as "once":
    with options that pass the other checks (a percentage and no
    amount, or an amount with its currency and no percentage) the one
    request is sent, with that duration, and the call returns the
    coupon, or Stripe's error wrapped. *)
Theorem CreateCoupon_validation (client : Client) (opts : CouponCreateOptions)
    (w : World) :
  IsInitialized client = true ->
  let stopped := exists e, CreateCoupon client opts w = ((None, Some e), w, []) in
  (c_PercentOff opts = None -> c_AmountOff opts = None -> stopped)
  /\ (is_Some (c_PercentOff opts) -> is_Some (c_AmountOff opts) -> stopped)
  /\ (is_Some (c_AmountOff opts) -> c_Currency opts = "" -> stopped)
  /\ (c_Duration opts <> "" -> c_Duration opts <> "forever" ->
      c_Duration opts <> "once" -> c_Duration opts <> "repeating" -> stopped)
  /\ (c_Duration opts = "repeating" -> c_DurationInMonths opts = None -> stopped)
  /\ (c_Duration opts = "" ->
      (is_Some (c_PercentOff opts) /\ c_AmountOff opts = None)
      \/ (c_PercentOff opts = None /\ is_Some (c_AmountOff opts) /\ c_Currency opts <> "") ->
      exists r w' answer,
        CreateCoupon client opts w
        = (r, w', [ {| sent := CallCouponNew (coupon_params opts "once");
                       failure := answer |} ])
        /\ cp_Duration (coupon_params opts "once") = Some "once"
        /\ (r, w') = (let '(c, err, w1) := coupon_New (coupon_params opts "once") w in
                      match err with
                      | Some e => ((None, Some (Errorf_w "failed to create coupon: " e "")), w1)
                      | None => ((Some c, None), w1)
                      end)
        /\ answer = snd (fst (coupon_New (coupon_params opts "once") w))).
Proof.
  intros Hinit stopped. subst stopped. unfold CreateCoupon. rewrite Hinit. cbn [negb].
  split; [|split; [|split; [|split; [|split]]]].
  - intros -> ->. eauto.
  - intros [p ->] [a ->]. eauto.
  - intros [a ->] ->. destruct (c_PercentOff opts); eauto.
  - intros Hne H1 H2 H3.
    destruct (c_PercentOff opts), (c_AmountOff opts); eauto;
      (destruct (_ && _); [eauto|]);
      rewrite (eqb_empty_false _ Hne), (invalid_duration _ H1 H2 H3); cbn; eauto.
  - intros Hrep ->.
    destruct (c_PercentOff opts), (c_AmountOff opts); eauto;
      (destruct (_ && _); [eauto|]);
      rewrite Hrep; cbn [String.eqb Ascii.eqb Bool.eqb];
      rewrite valid_duration_repeating; cbn; eauto.
  - intros Hempty Hone.
    assert (Hchecks :
              match c_PercentOff opts, c_AmountOff opts with
              | None, None | Some _, Some _ => False
              | _, _ =>
                  bool_decide (is_Some (c_AmountOff opts)) && String.eqb (c_Currency opts) ""
                  = false
              end).
    { destruct Hone as [[[p Hp] Ha]|[Hp [[a Ha] Hcur]]]; rewrite Hp, Ha.
      - reflexivity.
      - rewrite (eqb_empty_false _ Hcur). apply andb_false_r. }
    rewrite Hempty. cbn [String.eqb].
    destruct (c_PercentOff opts), (c_AmountOff opts); try contradiction;
      rewrite Hchecks, valid_duration_once;
      unfold bind, stripe_call, ret; cbn -[coupon_params];
      destruct (coupon_New (coupon_params opts "once") w) as [[c [e|]] w1]; cbn -[coupon_params];
      eexists _, _, _; repeat split.
Qed.

End WithOutside.

End ServiceFacts.

(** ** The services in the scripted world *)

Module ServiceExamples.

Import Scripted.

(** Three refusals out of ten: the seven codes Stripe created, and the
    summary. *)
Lemma BatchCreate_partial_failure_witness :
  let run := BatchCreatePromotionCodes ready (batch_of "co_1" 10 "sale") (world three_of_ten) in
  length (snd run) = 10%nat
  /\ length (fst (fst (fst run))) = 7%nat
  /\ map (fmap promo_Code) (fst (fst (fst run)))
     = [Some "SALE1_00001"; Some "SALE3_00005"; Some "SALE4_00007"; Some "SALE6_00011";
        Some "SALE7_00013"; Some "SALE8_00015"; Some "SALE10_00019"]
  /\ exists errors,
       length errors = 3%nat
       /\ snd (fst (fst run))
          = Some (ErrText ("created 7/10 codes successfully"
                           ++ concat_lines (map summary_line errors))).
Proof.
  intros run.
  destruct (BatchFacts.BatchCreate_partial_failure (H := scripted)
              ready (batch_of "co_1" 10 "sale") eq_refl ltac:(discriminate)
              (world three_of_ten) (snd (fst run))
              (fst (fst (fst run))) (snd (fst (fst run))) (snd run))
    as (Hlen & _ & _ & Hcodes & _ & Hanswered & _ & errors & Hrep & Herr).
  - simpl. lia.
  - vm_compute. reflexivity.
  - vm_compute. lia.
  - split; [exact Hlen|]. split; [exact Hcodes|].
    split; [rewrite Hanswered; vm_compute; reflexivity|].
    apply Forall2_length in Hrep.
    assert (Hk : length (List.filter refused (snd run)) = 3%nat) by (vm_compute; reflexivity).
    rewrite Hk in Hrep, Herr.
    exists errors. split; [now rewrite <- Hrep|].
    rewrite Herr, (take_ge errors 5) by lia.
    change (5 <? 3)%nat with false. cbv iota.
    rewrite StringFacts.string_app_empty. reflexivity.
Defined.

(** The summary of the run above, in full. *)
Example batch_three_of_ten :
  snd (fst (fst (BatchCreatePromotionCodes ready (batch_of "co_1" 10 "sale")
                   (world three_of_ten))))
  = Some (ErrText (
      "created 7/10 codes successfully" ++ newline
      ++ "  failed to create code SALE2_00003: failed to create promotion code: "
      ++ "stripe: request refused" ++ newline
      ++ "  failed to create code SALE5_00009: failed to create promotion code: "
      ++ "stripe: request refused" ++ newline
      ++ "  failed to create code SALE9_00017: failed to create promotion code: "
      ++ "stripe: request refused")).
Proof. vm_compute. reflexivity. Qed.

(** Six refusals out of eight: five lines and the count of the rest. *)
Example batch_six_of_eight :
  snd (fst (fst (BatchCreatePromotionCodes ready (batch_of "co_1" 8 "")
                   (world six_of_eight))))
  = Some (ErrText (
      "created 2/8 codes successfully" ++ newline
      ++ "  failed to create code PROMO2_00003: failed to create promotion code: "
      ++ "stripe: request refused" ++ newline
      ++ "  failed to create code PROMO3_00005: failed to create promotion code: "
      ++ "stripe: request refused" ++ newline
      ++ "  failed to create code PROMO4_00007: failed to create promotion code: "
      ++ "stripe: request refused" ++ newline
      ++ "  failed to create code PROMO5_00009: failed to create promotion code: "
      ++ "stripe: request refused" ++ newline
      ++ "  failed to create code PROMO6_00011: failed to create promotion code: "
      ++ "stripe: request refused" ++ newline
      ++ "  ... and 1 more errors")).
Proof. vm_compute. reflexivity. Qed.

(** Counts 0 and 1001 are refused and nothing is sent. *)
Lemma BatchCreate_count_out_of_range_witness :
  BatchCreatePromotionCodes ready (batch_of "co_1" 0 "") (world [])
  = (([], Some (ErrText "count must be greater than 0")), world [], [])
  /\ BatchCreatePromotionCodes ready (batch_of "co_1" 1001 "") (world [])
     = (([], Some (ErrText "count cannot exceed 1000")), world [], []).
Proof.
  split.
  - destruct (BatchFacts.BatchCreate_count_out_of_range (H := scripted)
                ready (batch_of "co_1" 0 "") eq_refl ltac:(discriminate) (world []))
      as (e & Hrun & _); [left; simpl; lia|].
    rewrite Hrun. vm_compute in Hrun. now injection Hrun as <-.
  - destruct (BatchFacts.BatchCreate_count_out_of_range (H := scripted)
                ready (batch_of "co_1" 1001 "") eq_refl ltac:(discriminate) (world []))
      as (e & Hrun & _); [right; simpl; lia|].
    rewrite Hrun. vm_compute in Hrun. now injection Hrun as <-.
Defined.

(** One code created, two refused: the command ends without error. *)
Lemma batch_fails_only_without_codes_witness :
  fst (fst (promoBatchCmd ready "co_1" 3 "sale" 1 (world [false; false; true; true])))
  = None.
Proof.
  pose proof (proj1 (ServiceFacts.batch_fails_only_without_codes (H := scripted) ready)
                "co_1" 3 "sale" 1 (world [false; false; true; true])) as Hcmd.
  destruct (promoBatchCmd ready "co_1" 3 "sale" 1 (world [false; false; true; true]))
    as [[result w'] t] eqn:Hrun.
  simpl. apply Hcmd.
  vm_compute in Hrun. injection Hrun as _ _ <-. discriminate.
Defined.

(** Both discounts, an amount without currency, and a repeating
    duration without months stop before anything is sent. *)
Lemma CreateCoupon_validation_witness :
  (exists e, CreateCoupon ready double_coupon (world []) = ((None, Some e), world [], []))
  /\ (exists e, CreateCoupon ready amount_coupon (world []) = ((None, Some e), world [], []))
  /\ (exists e, CreateCoupon ready (percent_coupon ten "repeating") (world [])
                = ((None, Some e), world [], []))
  /\ (exists r w' answer,
        CreateCoupon ready (amount_in "usd" "") (world [])
        = (r, w', [ {| sent := CallCouponNew (coupon_params (amount_in "usd" "") "once");
                       failure := answer |} ])).
Proof.
  split; [|split; [|split]].
  - destruct (ServiceFacts.CreateCoupon_validation (H := scripted)
                ready double_coupon (world []) eq_refl) as (_ & Hboth & _).
    apply Hboth; simpl; eauto.
  - destruct (ServiceFacts.CreateCoupon_validation (H := scripted)
                ready amount_coupon (world []) eq_refl) as (_ & _ & Hcurrency & _).
    apply Hcurrency; simpl; eauto.
  - destruct (ServiceFacts.CreateCoupon_validation (H := scripted)
                ready (percent_coupon ten "repeating") (world []) eq_refl)
      as (_ & _ & _ & _ & Hmonths & _).
    apply Hmonths; reflexivity.
  - destruct (ServiceFacts.CreateCoupon_validation (H := scripted)
                ready (amount_in "usd" "") (world []) eq_refl)
      as (_ & _ & _ & _ & _ & Hsent).
    destruct Hsent as (r & w' & answer & Hrun & _); [reflexivity | |eauto].
    right. split; [reflexivity|]. split; [simpl; eauto | discriminate].
Defined.

(** C5, counterexample: the empty duration is none of forever, once and
    repeating, and yet the call does not fail: the request goes out,
    with the duration "once", and the coupon comes back. *)
Lemma CreateCoupon_empty_duration_is_sent :
  let opts := percent_coupon ten "" in
  let run := CreateCoupon ready opts (world []) in
  c_Duration opts <> "forever" /\ c_Duration opts <> "once"
  /\ c_Duration opts <> "repeating"
  /\ snd (fst (fst run)) = None
  /\ (exists c, fst (fst (fst run)) = Some c)
  /\ (exists p, snd run = [ {| sent := CallCouponNew p; failure := None |} ]
                /\ cp_Duration p = Some "once").
Proof.
  vm_compute. repeat split; try discriminate; eauto.
Qed.

End ServiceExamples.

(* ===================================================================== *)
(** * Further properties *)
(* ===================================================================== *)

(** ** The configuration manager, operation by operation *)

Module ManagerFacts.

Import StringFacts.

Section WithHost.
Context `{Host}.

Lemma GetEnvironment_env_of (m : Manager) (c : Config) (name : string) :
  config m = Some c ->
  GetEnvironment m name
  = match env_of m name with
    | Some env => inl env
    | None => inr (Errorf_w "" (ErrSentinel ErrEnvironmentNotFound) (": " ++ name))
    end.
Proof. intros Hc. unfold GetEnvironment, env_of. rewrite Hc. reflexivity. Qed.

(** X1: on a loaded configuration [SetCurrentEnvironment] of an absent
    name fails with [ErrEnvironmentNotFound] and touches neither the
    manager nor the disk; of a present name it makes that name current,
    keeps every environment as it was, returns what [Save] returns, and
    leaves a current environment that resolves. *)
Theorem SetCurrentEnvironment_spec (name : string) (m : Manager) (fs : FS) (c : Config) :
  config m = Some c ->
  (env_of m name = None ->
   exists e, SetCurrentEnvironment name m fs = (Some e, m, fs)
             /\ errors_Is e ErrEnvironmentNotFound = true)
  /\ (is_Some (env_of m name) ->
      exists m1,
        SetCurrentEnvironment name m fs = (fst (Save m1 fs), m1, snd (Save m1 fs))
        /\ GetCurrentEnvironment m1 = name
        /\ (forall n, env_of m1 n = env_of m n)
        /\ filePath m1 = filePath m
        /\ current_ok m1).
Proof.
  intros Hc. unfold env_of. rewrite Hc. unfold SetCurrentEnvironment. rewrite Hc. split.
  - intros ->. eexists. split; reflexivity.
  - intros [env Henv]. rewrite Henv, ConfigFacts.Save_keeps_result.
    eexists. split; [reflexivity|]. split; [reflexivity|].
    split; [intros n; reflexivity|]. split; [reflexivity|].
    eexists. split; [reflexivity|]. unfold current_exists; simpl. eauto.
Qed.

(** What [UpdateEnvironmentAPIKey] does once the name and the key
    passed. *)
Lemma UpdateEnvironmentAPIKey_updates (envName apiKey : string) (m : Manager) (fs : FS)
    (c : Config) (g : gmap string Environment) (env : Environment) :
  config m = Some c -> Environments c = Some g -> g !! envName = Some env ->
  validateAPIKey apiKey = None ->
  let env1 := {| StripeAPIKey := apiKey; DefaultCurrency := DefaultCurrency env;
                 OutputFormat := OutputFormat env |} in
  let m1 := set_config m {| CurrentEnvironment := CurrentEnvironment c;
                            Environments := Some (<[envName := env1]> g) |} in
  UpdateEnvironmentAPIKey envName apiKey m fs = (fst (Save m1 fs), m1, snd (Save m1 fs)).
Proof.
  intros Hc Hg Henv Hkey env1 m1. unfold UpdateEnvironmentAPIKey.
  rewrite Hc, Hg. unfold map_index; simpl. rewrite Henv, Hkey.
  apply ConfigFacts.Save_keeps_result.
Qed.

Lemma UpdateEnvironmentAPIKey_absent (envName apiKey : string) (m : Manager) (fs : FS)
    (c : Config) :
  config m = Some c -> map_index (Environments c) envName = None ->
  UpdateEnvironmentAPIKey envName apiKey m fs
  = (Some (Errorf_w "" (ErrSentinel ErrEnvironmentNotFound) (": " ++ envName)), m, fs).
Proof.
  intros Hc Henv. unfold UpdateEnvironmentAPIKey. rewrite Hc, Henv.
  now destruct (Environments c).
Qed.

Lemma UpdateEnvironmentAPIKey_refused (envName apiKey : string) (m : Manager) (fs : FS)
    (c : Config) (e : error) :
  config m = Some c -> is_Some (map_index (Environments c) envName) ->
  validateAPIKey apiKey = Some e ->
  UpdateEnvironmentAPIKey envName apiKey m fs = (Some e, m, fs).
Proof.
  intros Hc [env Henv] Hkey. unfold UpdateEnvironmentAPIKey. rewrite Hc, Henv, Hkey.
  destruct (Environments c); [reflexivity|].
  unfold map_index in Henv; simpl in Henv. now rewrite lookup_empty in Henv.
Qed.

(** X2: on a loaded configuration [UpdateEnvironmentAPIKey] fails with
    [ErrEnvironmentNotFound] for an absent name and with the validator's
    error for a refused key (the empty key included, so a key cannot be
    cleared), touching nothing in both cases; otherwise it replaces the
    key of that environment, keeps its currency and output format, keeps
    the other environments and the current one, and returns what [Save]
    returns. *)
Theorem UpdateEnvironmentAPIKey_spec (envName apiKey : string) (m : Manager) (fs : FS)
    (c : Config) :
  config m = Some c ->
  (env_of m envName = None ->
   exists e, UpdateEnvironmentAPIKey envName apiKey m fs = (Some e, m, fs)
             /\ errors_Is e ErrEnvironmentNotFound = true)
  /\ (forall e, is_Some (env_of m envName) -> validateAPIKey apiKey = Some e ->
      UpdateEnvironmentAPIKey envName apiKey m fs = (Some e, m, fs))
  /\ (forall env, env_of m envName = Some env -> validateAPIKey apiKey = None ->
      exists m1,
        UpdateEnvironmentAPIKey envName apiKey m fs = (fst (Save m1 fs), m1, snd (Save m1 fs))
        /\ env_of m1 envName
           = Some {| StripeAPIKey := apiKey; DefaultCurrency := DefaultCurrency env;
                     OutputFormat := OutputFormat env |}
        /\ (forall n, n <> envName -> env_of m1 n = env_of m n)
        /\ GetCurrentEnvironment m1 = GetCurrentEnvironment m
        /\ filePath m1 = filePath m).
Proof.
  intros Hc. unfold env_of. rewrite Hc. split; [|split].
  - intros Henv. rewrite (UpdateEnvironmentAPIKey_absent _ _ _ _ c Hc Henv).
    eexists. split; reflexivity.
  - intros e Henv Hkey. now apply (UpdateEnvironmentAPIKey_refused _ _ _ _ c).
  - intros env Henv Hkey.
    destruct (Environments c) as [g|] eqn:Hg.
    2: { unfold map_index in Henv; simpl in Henv. now rewrite lookup_empty in Henv. }
    eexists. split.
    { apply (UpdateEnvironmentAPIKey_updates envName apiKey m fs c g env Hc Hg Henv Hkey). }
    unfold GetCurrentEnvironment, map_index. simpl. rewrite Hc.
    split; [apply lookup_insert_eq|].
    split; [intros n Hn; now apply lookup_insert_ne|].
    split; reflexivity.
Qed.

(** A mutation either refuses, touching nothing, or installs a new
    configuration and returns what [Save] returns. *)
Lemma SetCurrentEnvironment_shape (name : string) (m : Manager) (fs : FS) :
  (exists e, SetCurrentEnvironment name m fs = (Some e, m, fs))
  \/ (exists c,
        config m = Some c /\ is_Some (map_index (Environments c) name)
        /\ let m1 := set_config m {| CurrentEnvironment := name;
                                     Environments := Environments c |} in
           SetCurrentEnvironment name m fs = (fst (Save m1 fs), m1, snd (Save m1 fs))).
Proof.
  unfold SetCurrentEnvironment. destruct (config m) as [c|] eqn:Hc; [|eauto].
  destruct (map_index (Environments c) name) as [env|] eqn:Henv; [|eauto].
  right. exists c. rewrite Henv. split; [reflexivity|]. split; [eauto|].
  apply ConfigFacts.Save_keeps_result.
Qed.

Lemma UpdateEnvironmentAPIKey_shape (envName apiKey : string) (m : Manager) (fs : FS) :
  (exists e, UpdateEnvironmentAPIKey envName apiKey m fs = (Some e, m, fs))
  \/ (exists c g env,
        config m = Some c /\ Environments c = Some g /\ g !! envName = Some env
        /\ validateAPIKey apiKey = None
        /\ let env1 := {| StripeAPIKey := apiKey; DefaultCurrency := DefaultCurrency env;
                          OutputFormat := OutputFormat env |} in
           let m1 := set_config m {| CurrentEnvironment := CurrentEnvironment c;
                                     Environments := Some (<[envName := env1]> g) |} in
           UpdateEnvironmentAPIKey envName apiKey m fs
           = (fst (Save m1 fs), m1, snd (Save m1 fs))).
Proof.
  destruct (config m) as [c|] eqn:Hc.
  2: { left. unfold UpdateEnvironmentAPIKey. rewrite Hc. eauto. }
  destruct (map_index (Environments c) envName) as [env|] eqn:Henv.
  2: { left. rewrite (UpdateEnvironmentAPIKey_absent _ _ _ _ c Hc Henv). eauto. }
  destruct (validateAPIKey apiKey) as [e|] eqn:Hkey.
  { left. rewrite (UpdateEnvironmentAPIKey_refused _ _ _ _ c e Hc) by eauto. eauto. }
  destruct (Environments c) as [g|] eqn:Hg.
  2: { unfold map_index in Henv; simpl in Henv. now rewrite lookup_empty in Henv. }
  right. exists c, g, env. repeat split; try assumption.
  now apply UpdateEnvironmentAPIKey_updates.
Qed.

Lemma RemoveEnvironment_shape (pick : nat) (name : string) (m : Manager) (fs : FS) :
  (exists e, RemoveEnvironment pick name m fs = (Some e, m, fs))
  \/ (exists c c1,
        config m = Some c
        /\ is_Some (map_index (Environments c) name)
        /\ map_len (Environments c) <> 1%nat
        /\ RemoveEnvironment pick name m fs
           = (fst (Save (set_config m c1) fs), set_config m c1,
              snd (Save (set_config m c1) fs))
        /\ entries (Environments c1) = delete name (entries (Environments c))
        /\ (is_Some (Environments c) -> is_Some (Environments c1))
        /\ (current_exists c -> current_exists c1)).
Proof.
  destruct (config m) as [c|] eqn:Hc.
  2: { left. unfold RemoveEnvironment. rewrite Hc. eauto. }
  destruct (map_index (Environments c) name) as [env|] eqn:Henv.
  2: { left. destruct (ConfigFacts.RemoveEnvironment_absent pick name m fs c Hc Henv)
         as (e & -> & _). eauto. }
  destruct (Nat.eq_dec (map_len (Environments c)) 1%nat) as [Hone|Hmore].
  { left. rewrite (ConfigFacts.RemoveEnvironment_sole pick name m fs c Hc) by eauto. eauto. }
  right.
  destruct (ConfigFacts.RemoveEnvironment_removes pick name m fs c Hc ltac:(eauto) Hmore)
    as (c1 & Hcall & Hdel & _ & _ & Hcur).
  exists c, c1. repeat split; eauto.
  intros [g Hg]. revert Hcall. unfold RemoveEnvironment.
  rewrite Hc, Henv, Hg. destruct (Nat.eqb_spec (map_len (Some g)) 1%nat) as [Heq|_].
  { rewrite Hg in Hmore. contradiction. }
  rewrite ConfigFacts.Save_keeps_result. intros Heq.
  assert (Hm : set_config m c1
               = set_config m
                   {| CurrentEnvironment :=
                        if String.eqb (CurrentEnvironment c) name then
                          match range_first pick (entries (Some (delete name g))) with
                          | Some envName => envName
                          | None => CurrentEnvironment c
                          end
                        else CurrentEnvironment c;
                      Environments := Some (delete name g) |}) by congruence.
  unfold set_config in Hm. injection Hm as ->. simpl. eauto.
Qed.

Lemma AddEnvironment_shape (name : string) (env : Environment) (m : Manager) (fs : FS) :
  allocated m ->
  (exists e, AddEnvironment name env m fs = Returns (Some e, m, fs))
  \/ (exists c g,
        config m = Some c /\ Environments c = Some g /\ name <> ""
        /\ let m1 := set_config m {| CurrentEnvironment := CurrentEnvironment c;
                                     Environments :=
                                       Some (<[name := with_defaults env]> g) |} in
           AddEnvironment name env m fs = Returns (fst (Save m1 fs), m1, snd (Save m1 fs))).
Proof.
  unfold allocated. intros Halloc.
  destruct (config m) as [c|] eqn:Hc.
  2: { left. unfold AddEnvironment. rewrite Hc. eauto. }
  destruct Halloc as [g Hg].
  destruct (String.eqb_spec name "") as [->|Hname].
  { left. unfold AddEnvironment. rewrite Hc. simpl. eauto. }
  destruct (String.eqb_spec (StripeAPIKey env) "") as [Hkey|Hkey].
  { right. exists c, g. repeat split; try assumption.
    apply ConfigFacts.AddEnvironment_stores; auto. }
  destruct (validateAPIKey (StripeAPIKey env)) as [e|] eqn:Hvalid.
  { left. unfold AddEnvironment. rewrite Hc, (eqb_empty_false _ Hname),
      (eqb_empty_false _ Hkey), Hvalid. eauto. }
  right. exists c, g. repeat split; try assumption.
  apply ConfigFacts.AddEnvironment_stores; auto.
Qed.

(** X3: a manager that holds no nil map (as after [NewManager], [Load]
    and [Reset]) keeps that through every operation, and on such a
    manager [AddEnvironment] returns: the assignment into the map never
    panics. *)
Theorem allocated_invariant (m : Manager) (fs : FS) :
  allocated (NewManager fs)
  /\ allocated (snd (fst (Reset m fs)))
  /\ (allocated m ->
      allocated (snd (fst (Load m fs)))
      /\ (forall name env, exists r,
            AddEnvironment name env m fs = Returns r /\ allocated (snd (fst r)))
      /\ (forall pick name, allocated (snd (fst (RemoveEnvironment pick name m fs))))
      /\ (forall name, allocated (snd (fst (SetCurrentEnvironment name m fs))))
      /\ (forall envName apiKey,
            allocated (snd (fst (UpdateEnvironmentAPIKey envName apiKey m fs))))).
Proof.
  split; [exact I|]. split.
  - unfold Reset. rewrite ConfigFacts.Save_keeps_result. unfold allocated; simpl. eauto.
  - intros Halloc. split; [|split; [|split; [|split]]].
    + unfold Load. destruct (os_ReadFile (filePath m) fs) as [data|err].
      * destruct (json_Unmarshal data) as [cfg|err]; simpl; [|exact Halloc].
        unfold allocated; simpl. destruct (Environments cfg); eauto.
      * destruct (os_IsNotExist err); [|exact Halloc].
        rewrite ConfigFacts.Save_keeps_result. unfold allocated; simpl. eauto.
    + intros name env.
      destruct (AddEnvironment_shape name env m fs Halloc)
        as [[e ->]|(c & g & _ & _ & _ & ->)]; eexists; (split; [reflexivity|]).
      * exact Halloc.
      * unfold allocated; simpl. eauto.
    + intros pick name.
      destruct (RemoveEnvironment_shape pick name m fs)
        as [[e ->]|(c & c1 & Hc & _ & _ & -> & _ & Hkeep & _)]; simpl; [exact Halloc|].
      unfold allocated in *. rewrite Hc in Halloc. simpl. auto.
    + intros name.
      destruct (SetCurrentEnvironment_shape name m fs)
        as [[e ->]|(c & Hc & _ & ->)]; simpl; [exact Halloc|].
      unfold allocated in *. now rewrite Hc in Halloc.
    + intros envName apiKey.
      destruct (UpdateEnvironmentAPIKey_shape envName apiKey m fs)
        as [[e ->]|(c & g & env & _ & _ & _ & _ & ->)]; simpl; [exact Halloc|].
      unfold allocated; simpl. eauto.
Qed.

(** X4: once the current environment is one of the environments, it
    stays one through every mutation; [Reset], the creation of the default
    by [Load], and a [SetCurrentEnvironment] that returns no error
    establish it whatever was there before. *)
Theorem current_ok_invariant (m : Manager) (fs : FS) :
  current_ok (snd (fst (Reset m fs)))
  /\ (forall err, os_ReadFile (filePath m) fs = inr err -> os_IsNotExist err = true ->
      current_ok (snd (fst (Load m fs))))
  /\ (forall name, fst (fst (SetCurrentEnvironment name m fs)) = None ->
      current_ok (snd (fst (SetCurrentEnvironment name m fs))))
  /\ (current_ok m ->
      (forall name env r,
         AddEnvironment name env m fs = Returns r -> current_ok (snd (fst r)))
      /\ (forall pick name, current_ok (snd (fst (RemoveEnvironment pick name m fs))))
      /\ (forall name, current_ok (snd (fst (SetCurrentEnvironment name m fs))))
      /\ (forall envName apiKey,
            current_ok (snd (fst (UpdateEnvironmentAPIKey envName apiKey m fs))))).
Proof.
  assert (Hdefault : forall m0, current_ok (set_config m0 DefaultConfig)).
  { intros m0. eexists. split; [reflexivity|]. unfold current_exists. now eexists. }
  assert (Hset : forall name c, config m = Some c ->
            is_Some (map_index (Environments c) name) ->
            current_ok (set_config m {| CurrentEnvironment := name;
                                        Environments := Environments c |})).
  { intros name c Hc Hname. eexists. split; [reflexivity|]. exact Hname. }
  split; [|split; [|split]].
  - unfold Reset. rewrite ConfigFacts.Save_keeps_result. apply Hdefault.
  - intros err Hread Hne. unfold Load.
    rewrite Hread, Hne, ConfigFacts.Save_keeps_result. apply Hdefault.
  - intros name.
    destruct (SetCurrentEnvironment_shape name m fs) as [[e ->]|(c & Hc & Hname & ->)];
      simpl; [discriminate|]. intros _. now apply Hset.
  - intros (c & Hc & Hcur). split; [|split; [|split]].
    + intros name env r Hadd.
      unfold AddEnvironment in Hadd. rewrite Hc in Hadd.
      destruct (String.eqb name ""); [injection Hadd as <-; exists c; auto|].
      destruct (if String.eqb (StripeAPIKey env) "" then None
                else validateAPIKey (StripeAPIKey env));
        [injection Hadd as <-; exists c; auto|].
      unfold store_env in Hadd. destruct (Environments c) as [g|] eqn:Hg; [|discriminate].
      destruct (Save _ fs) as [r0 fs1]. injection Hadd as <-. simpl.
      eexists. split; [reflexivity|].
      unfold current_exists, map_index in *. rewrite Hg in Hcur. simpl in *.
      apply lookup_insert_is_Some'. now right.
    + intros pick name.
      destruct (RemoveEnvironment_shape pick name m fs)
        as [[e ->]|(c0 & c1 & Hc0 & _ & _ & -> & _ & _ & Hkeep)]; simpl; [exists c; auto|].
      eexists. split; [reflexivity|]. apply Hkeep. congruence.
    + intros name.
      destruct (SetCurrentEnvironment_shape name m fs) as [[e ->]|(c0 & Hc0 & Hname & ->)];
        simpl; [exists c; auto | now apply Hset].
    + intros envName apiKey.
      destruct (UpdateEnvironmentAPIKey_shape envName apiKey m fs)
        as [[e ->]|(c0 & g & env & Hc0 & Hg & Henv & _ & ->)]; simpl; [exists c; auto|].
      eexists. split; [reflexivity|].
      assert (c0 = c) by congruence. subst c0.
      unfold current_exists, map_index in *. simpl. rewrite Hg in Hcur. simpl in Hcur.
      apply lookup_insert_is_Some'. now right.
Qed.

Lemma Save_on_disk (m1 : Manager) (fs fs1 : FS) :
  reads_back_writes -> Save m1 fs = (None, fs1) -> on_disk m1 fs1.
Proof.
  intros Hfs Hsave. unfold Save in Hsave.
  destruct (json_MarshalIndent (config m1)) as [data|e] eqn:Hdata; [|discriminate].
  destruct (os_MkdirAll _ _ fs) as [[e|] fs0]; [discriminate|].
  destruct (os_WriteFile _ data _ fs0) as [[e|] fs2] eqn:Hwrite; [discriminate|].
  injection Hsave as <-. exists data. split; [exact Hdata|].
  exact (Hfs _ _ _ _ _ Hwrite).
Qed.

Lemma applied_on_disk (m1 m' : Manager) (fs fs' : FS) :
  reads_back_writes ->
  (fst (Save m1 fs), m1, snd (Save m1 fs)) = (None, m', fs') -> on_disk m' fs'.
Proof.
  intros Hfs Heq. injection Heq as Hnone <- <-.
  apply (Save_on_disk m1 fs); [exact Hfs|].
  destruct (Save m1 fs) as [r fs1]. simpl in Hnone. now subst r.
Qed.

(** X5: on a file system that reads back what was written, a mutation
    that returns no error leaves on disk exactly the configuration the
    manager holds in memory; so does a [Load] that creates the default. *)
Theorem mutations_persist (m : Manager) (fs : FS) :
  reads_back_writes ->
  (forall name env m' fs',
     AddEnvironment name env m fs = Returns (None, m', fs') -> on_disk m' fs')
  /\ (forall pick name m' fs',
        RemoveEnvironment pick name m fs = (None, m', fs') -> on_disk m' fs')
  /\ (forall name m' fs',
        SetCurrentEnvironment name m fs = (None, m', fs') -> on_disk m' fs')
  /\ (forall envName apiKey m' fs',
        UpdateEnvironmentAPIKey envName apiKey m fs = (None, m', fs') -> on_disk m' fs')
  /\ (forall m' fs', Reset m fs = (None, m', fs') -> on_disk m' fs')
  /\ (forall err m' fs',
        os_ReadFile (filePath m) fs = inr err -> os_IsNotExist err = true ->
        Load m fs = (None, m', fs') -> on_disk m' fs').
Proof.
  intros Hfs. split; [|split; [|split; [|split; [|split]]]].
  - intros name env m' fs' Hadd. unfold AddEnvironment in Hadd.
    destruct (config m) as [c|]; [|discriminate].
    destruct (String.eqb name ""); [discriminate|].
    destruct (if String.eqb (StripeAPIKey env) "" then None
              else validateAPIKey (StripeAPIKey env)); [discriminate|].
    destruct (store_env c name _) as [c1|]; [|discriminate].
    destruct (Save (set_config m c1) fs) as [r0 fs1] eqn:Hsave.
    injection Hadd as -> <- <-. now apply (Save_on_disk _ fs).
  - intros pick name m' fs'.
    destruct (RemoveEnvironment_shape pick name m fs)
      as [[e ->]|(c & c1 & _ & _ & _ & -> & _)]; [discriminate|].
    now apply applied_on_disk.
  - intros name m' fs'.
    destruct (SetCurrentEnvironment_shape name m fs) as [[e ->]|(c & _ & _ & ->)];
      [discriminate|]. now apply applied_on_disk.
  - intros envName apiKey m' fs'.
    destruct (UpdateEnvironmentAPIKey_shape envName apiKey m fs)
      as [[e ->]|(c & g & env & _ & _ & _ & _ & ->)]; [discriminate|].
    now apply applied_on_disk.
  - intros m' fs'. unfold Reset. rewrite ConfigFacts.Save_keeps_result.
    now apply applied_on_disk.
  - intros err m' fs' Hread Hne. unfold Load.
    rewrite Hread, Hne, ConfigFacts.Save_keeps_result. now apply applied_on_disk.
Qed.

Lemma GetEnvironment_inl (m : Manager) (name : string) (env : Environment) :
  GetEnvironment m name = inl env <-> env_of m name = Some env.
Proof.
  unfold GetEnvironment, env_of. destruct (config m) as [c|]; [|split; discriminate].
  destruct (map_index (Environments c) name); split; congruence.
Qed.

Lemma Load_ok_loaded (m m1 : Manager) (fs fs1 : FS) :
  Load m fs = (None, m1, fs1) ->
  exists c g, config m1 = Some c /\ Environments c = Some g.
Proof.
  unfold Load. destruct (os_ReadFile (filePath m) fs) as [data|err].
  - destruct (json_Unmarshal data) as [cfg|err]; [|discriminate].
    intros [= <- _]. simpl. destruct (Environments cfg); eauto.
  - destruct (os_IsNotExist err); [|discriminate].
    rewrite ConfigFacts.Save_keeps_result. intros [= _ <- _]. simpl. eauto.
Qed.

Lemma Load_ok_named (m m1 : Manager) (fs fs1 : FS) :
  Load m fs = (None, m1, fs1) -> GetCurrentEnvironment m1 <> "".
Proof.
  unfold Load. destruct (os_ReadFile (filePath m) fs) as [data|err].
  - destruct (json_Unmarshal data) as [cfg|err]; [|discriminate].
    intros [= <- _]. unfold GetCurrentEnvironment. simpl.
    destruct (String.eqb_spec (CurrentEnvironment cfg) ""); [discriminate | assumption].
  - destruct (os_IsNotExist err); [|discriminate].
    rewrite ConfigFacts.Save_keeps_result. intros [= _ <- _]. discriminate.
Qed.

(** X6: [Load] fails, leaving the manager and the disk as they were,
    when the file cannot be read for another reason than its absence and
    when its content does not parse; it never writes when the file can be
    read; and after a [Load] that returns no error the manager is loaded,
    its map is allocated and its current environment has a name. *)
Theorem Load_outcomes (m : Manager) (fs : FS) :
  (forall err, os_ReadFile (filePath m) fs = inr err -> os_IsNotExist err = false ->
     Load m fs = (Some (Errorf_w "failed to read config file: " err ""), m, fs))
  /\ (forall data err, os_ReadFile (filePath m) fs = inl data ->
        json_Unmarshal data = inr err ->
        Load m fs = (Some (Errorf_w "failed to parse config file: " err ""), m, fs))
  /\ (forall data, os_ReadFile (filePath m) fs = inl data -> snd (Load m fs) = fs)
  /\ (fst (fst (Load m fs)) = None ->
      exists c g,
        config (snd (fst (Load m fs))) = Some c
        /\ Environments c = Some g
        /\ CurrentEnvironment c <> ""
        /\ filePath (snd (fst (Load m fs))) = filePath m).
Proof.
  unfold Load. split; [|split; [|split]].
  - intros err -> ->. reflexivity.
  - intros data err -> ->. reflexivity.
  - intros data ->. now destruct (json_Unmarshal data).
  - destruct (os_ReadFile (filePath m) fs) as [data|err].
    + destruct (json_Unmarshal data) as [cfg|err]; simpl; [|discriminate].
      intros _. destruct (Environments cfg) as [g|];
        (eexists _, _; split; [reflexivity|]; simpl; split; [reflexivity|];
         split; [|reflexivity];
         destruct (String.eqb_spec (CurrentEnvironment cfg) "");
         [discriminate | assumption]).
    + destruct (os_IsNotExist err); [|simpl; discriminate].
      rewrite ConfigFacts.Save_keeps_result. simpl. intros _.
      eexists _, _. split; [reflexivity|]. repeat split. discriminate.
Qed.

(** X7: [AddEnvironment] does not refuse a name that is taken: the entry
    is replaced and the number of environments stays; a fresh name adds
    one.  On a manager that had an environment, adding a fresh name and
    removing it again gives back the environments there were, and the
    current environment when it was another one.  On a manager that had
    none (a file without environments was loaded), the name that was
    added is the last environment: its removal is refused and it
    stays. *)
Theorem AddEnvironment_then_Remove (name : string) (env : Environment) (m : Manager)
    (fs : FS) (c : Config) (g : gmap string Environment) :
  config m = Some c -> Environments c = Some g -> name <> "" ->
  StripeAPIKey env = "" \/ validateAPIKey (StripeAPIKey env) = None ->
  exists r m1 fs1,
    AddEnvironment name env m fs = Returns (r, m1, fs1)
    /\ env_of m1 name = Some (with_defaults env)
    /\ (is_Some (g !! name) -> env_count m1 = env_count m)
    /\ (g !! name = None ->
        env_count m1 = S (env_count m)
        /\ (g <> ∅ ->
            forall pick fs2, exists c2,
              config (snd (fst (RemoveEnvironment pick name m1 fs2))) = Some c2
              /\ entries (Environments c2) = g
              /\ (CurrentEnvironment c <> name ->
                  CurrentEnvironment c2 = CurrentEnvironment c))
        /\ (g = ∅ ->
            forall pick fs2,
              RemoveEnvironment pick name m1 fs2
              = (Some (ErrText "cannot remove the last environment"), m1, fs2))).
Proof.
  intros Hc Hg Hname Hkey.
  pose proof (ConfigFacts.AddEnvironment_stores name env m fs c g Hc Hg Hname Hkey) as Hadd.
  cbv zeta in Hadd. eexists _, _, _. split; [exact Hadd|].
  unfold env_of, env_count, map_index, map_len. simpl. rewrite Hc, Hg. simpl.
  split; [apply lookup_insert_eq|].
  split; [intros Hin; now apply map_size_insert_Some|].
  intros Hfresh. split; [now apply map_size_insert_None|].
  set (c1 := {| CurrentEnvironment := CurrentEnvironment c;
                Environments := Some (<[name := with_defaults env]> g) |}).
  assert (Hin : is_Some (map_index (Environments c1) name)).
  { unfold map_index; simpl. rewrite lookup_insert_eq. eauto. }
  split.
  - intros Hne pick fs2.
    destruct (ConfigFacts.RemoveEnvironment_removes pick name (set_config m c1) fs2 c1
                eq_refl Hin) as (c2 & -> & Hdel & _ & Hcur & _).
    + unfold map_len; simpl. rewrite map_size_insert_None by exact Hfresh.
      apply map_size_non_empty_iff in Hne. lia.
    + exists c2. split; [reflexivity|]. split.
      * rewrite Hdel. simpl. rewrite delete_insert_eq. now apply delete_id.
      * exact Hcur.
  - intros Hempty pick fs2.
    apply (ConfigFacts.RemoveEnvironment_sole pick name (set_config m c1) fs2 c1 eq_refl Hin).
    unfold map_len; simpl. rewrite map_size_insert_None by exact Hfresh.
    rewrite Hempty. reflexivity.
Qed.

Lemma validateAPIKey_accepts (apiKey : string) :
  validateAPIKey apiKey = None -> well_formed apiKey = true.
Proof.
  unfold validateAPIKey, well_formed. destruct (String.eqb apiKey ""); [discriminate|].
  rewrite Nat.ltb_antisym.
  destruct (String.prefix "sk_" apiKey), (String.prefix "rk_" apiKey),
    (20 <=? String.length apiKey)%nat; simpl; congruence.
Qed.

(** X8: every key a manager holds stays empty or of the accepted format
    through every mutation; [Reset] and the creation of the default by
    [Load] start from the empty key. *)
Theorem keys_ok_invariant (m : Manager) (fs : FS) :
  keys_ok (snd (fst (Reset m fs)))
  /\ (forall err, os_ReadFile (filePath m) fs = inr err -> os_IsNotExist err = true ->
      keys_ok (snd (fst (Load m fs))))
  /\ (keys_ok m ->
      (forall name env r,
         AddEnvironment name env m fs = Returns r -> keys_ok (snd (fst r)))
      /\ (forall pick name, keys_ok (snd (fst (RemoveEnvironment pick name m fs))))
      /\ (forall name, keys_ok (snd (fst (SetCurrentEnvironment name m fs))))
      /\ (forall envName apiKey,
            keys_ok (snd (fst (UpdateEnvironmentAPIKey envName apiKey m fs))))).
Proof.
  assert (Hdefault : forall m0, keys_ok (set_config m0 DefaultConfig)).
  { intros m0 name env. unfold env_of, map_index. simpl.
    intros Hlook. apply lookup_singleton_Some in Hlook as [_ <-]. now left. }
  split; [|split].
  - unfold Reset. rewrite ConfigFacts.Save_keeps_result. apply Hdefault.
  - intros err Hread Hne. unfold Load.
    rewrite Hread, Hne, ConfigFacts.Save_keeps_result. apply Hdefault.
  - intros Hkeys. split; [|split; [|split]].
    + intros name env r Hadd n e.
      unfold AddEnvironment in Hadd.
      destruct (config m) as [c|] eqn:Hc; [|injection Hadd as <-; apply Hkeys].
      destruct (String.eqb name ""); [injection Hadd as <-; apply Hkeys|].
      destruct (String.eqb_spec (StripeAPIKey env) "") as [Hempty|Hfull].
      * unfold store_env in Hadd. destruct (Environments c) as [g|] eqn:Hg; [|discriminate].
        destruct (Save _ fs) as [r0 fs1]. injection Hadd as <-.
        unfold env_of, map_index. simpl. intros Hlook.
        apply lookup_insert_Some in Hlook as [[_ <-]|[Hne Hlook]]; [now left|].
        apply (Hkeys n). unfold env_of, map_index. now rewrite Hc, Hg.
      * destruct (validateAPIKey (StripeAPIKey env)) as [bad|] eqn:Hvalid;
          [injection Hadd as <-; apply Hkeys|].
        unfold store_env in Hadd. destruct (Environments c) as [g|] eqn:Hg; [|discriminate].
        destruct (Save _ fs) as [r0 fs1]. injection Hadd as <-.
        unfold env_of, map_index. simpl. intros Hlook.
        apply lookup_insert_Some in Hlook as [[_ <-]|[Hne Hlook]].
        -- right. simpl. now apply validateAPIKey_accepts.
        -- apply (Hkeys n). unfold env_of, map_index. now rewrite Hc, Hg.
    + intros pick name.
      destruct (RemoveEnvironment_shape pick name m fs)
        as [[e ->]|(c & c1 & Hc & _ & _ & -> & Hdel & _)]; simpl; [exact Hkeys|].
      intros n e. unfold env_of, map_index. simpl. rewrite Hdel. intros Hlook.
      apply lookup_delete_Some in Hlook as [_ Hlook].
      apply (Hkeys n). unfold env_of, map_index. now rewrite Hc.
    + intros name.
      destruct (SetCurrentEnvironment_shape name m fs) as [[e ->]|(c & Hc & _ & ->)];
        simpl; [exact Hkeys|].
      intros n e Hlook. apply (Hkeys n). unfold env_of in *. now rewrite Hc.
    + intros envName apiKey.
      destruct (UpdateEnvironmentAPIKey_shape envName apiKey m fs)
        as [[e ->]|(c & g & env & Hc & Hg & Henv & Hvalid & ->)]; simpl; [exact Hkeys|].
      intros n e. unfold env_of, map_index. simpl. intros Hlook.
      apply lookup_insert_Some in Hlook as [[_ <-]|[Hne Hlook]].
      * right. simpl. now apply validateAPIKey_accepts.
      * apply (Hkeys n). unfold env_of, map_index. now rewrite Hc, Hg.
Qed.

End WithHost.

End ManagerFacts.

(** ** Binding the client *)

Module ClientFacts.

Import StringFacts.

Lemma Initialize_resolves (mgr : Manager) (envName : string) :
  (if String.eqb envName "" then GetCurrentEnvironmentConfig mgr
   else GetEnvironment mgr envName)
  = GetEnvironment mgr (if String.eqb envName "" then GetCurrentEnvironment mgr
                        else envName).
Proof. unfold GetCurrentEnvironmentConfig. now destruct (String.eqb envName ""). Qed.

Lemma Initialize_ok (mgr : Manager) (envName : string) (c : Client) (key : string) :
  fst (fst (Initialize mgr envName c key)) = None ->
  exists env,
    GetEnvironment mgr (if String.eqb envName "" then GetCurrentEnvironment mgr
                        else envName) = inl env
    /\ StripeAPIKey env <> ""
    /\ IsInitialized (snd (fst (Initialize mgr envName c key))) = true
    /\ sc (snd (fst (Initialize mgr envName c key))) = Some (StripeAPIKey env)
    /\ snd (Initialize mgr envName c key) = StripeAPIKey env.
Proof.
  unfold Initialize. rewrite Initialize_resolves.
  destruct (GetEnvironment mgr _) as [env|err]; [|discriminate].
  destruct (String.eqb_spec (StripeAPIKey env) "") as [|Hkey]; [discriminate|].
  intros _. exists env. repeat split; auto.
Qed.

(** X9: [Initialize] resolves the named environment, or the current one
    when the name is empty.  It succeeds exactly when that environment
    exists and has a key; the client is then initialized and bound, like
    [stripe.Key], to that key.  When it fails, the client and
    [stripe.Key] are left as they were. *)
Theorem Initialize_spec (mgr : Manager) (envName : string) (c : Client) (key : string) :
  let target := if String.eqb envName "" then GetCurrentEnvironment mgr else envName in
  (forall env, GetEnvironment mgr target = inl env -> StripeAPIKey env <> "" ->
     Initialize mgr envName c key
     = (None, {| sc := Some (StripeAPIKey env) |}, StripeAPIKey env))
  /\ (fst (fst (Initialize mgr envName c key)) = None ->
      exists env,
        GetEnvironment mgr target = inl env /\ StripeAPIKey env <> ""
        /\ IsInitialized (snd (fst (Initialize mgr envName c key))) = true
        /\ sc (snd (fst (Initialize mgr envName c key))) = Some (StripeAPIKey env)
        /\ snd (Initialize mgr envName c key) = StripeAPIKey env)
  /\ (forall e, fst (fst (Initialize mgr envName c key)) = Some e ->
      Initialize mgr envName c key = (Some e, c, key)).
Proof.
  intros target. split; [|split].
  - unfold Initialize. rewrite Initialize_resolves. fold target.
    intros env -> Hkey. now rewrite (eqb_empty_false _ Hkey).
  - apply Initialize_ok.
  - unfold Initialize. rewrite Initialize_resolves. fold target.
    intros e. destruct (GetEnvironment mgr target) as [env|err].
    + destruct (String.eqb (StripeAPIKey env) ""); simpl; [|discriminate].
      now intros [= <-].
    + simpl. now intros [= <-].
Qed.

End ClientFacts.

(** ** Keys from the terminal, and the start of every command *)

Module SessionFacts.

Import StringFacts.

Section WithHost.
Context `{Host} `{Console}.

Lemma PromptAPIKey_accepts (envName apiKey : string) (tty tty1 : TTY) :
  PromptAPIKey envName tty = (apiKey, None, tty1) -> validateAPIKey apiKey = None.
Proof.
  unfold PromptAPIKey.
  destruct (stdin_ReadString tty) as [[input [e|]] tty0]; [discriminate|].
  destruct (validateAPIKey (strings_TrimSpace input)) as [e|] eqn:Hvalid; [discriminate|].
  now intros [= <- _].
Qed.

(** X10: [PromptAPIKey] reads one line and returns either its trimmed
    content, which then is a key of the accepted format, or the empty
    string with an error: a refused key is never handed on. *)
Theorem PromptAPIKey_spec (envName : string) (tty : TTY) :
  let '(apiKey, err, tty1) := PromptAPIKey envName tty in
  tty1 = snd (stdin_ReadString tty)
  /\ (err = None ->
      apiKey = strings_TrimSpace (fst (fst (stdin_ReadString tty)))
      /\ well_formed apiKey = true)
  /\ (err <> None -> apiKey = "").
Proof.
  unfold PromptAPIKey.
  destruct (stdin_ReadString tty) as [[input [e|]] tty1]; simpl.
  - split; [reflexivity|]. split; [discriminate | reflexivity].
  - destruct (validateAPIKey (strings_TrimSpace input)) as [e|] eqn:Hvalid.
    + split; [reflexivity|]. split; [discriminate | reflexivity].
    + split; [reflexivity|]. split; [|congruence].
      intros _. split; [reflexivity|]. now apply ManagerFacts.validateAPIKey_accepts.
Qed.

(** What [EnsureAPIKey] leaves behind when it returns no error. *)
Lemma EnsureAPIKey_ok (envName : string) (m m' : Manager) (fs fs' : FS) (tty tty' : TTY) :
  EnsureAPIKey envName m fs tty = (None, m', fs', tty') ->
  (exists env, env_of m' envName = Some env /\ StripeAPIKey env <> "")
  /\ GetCurrentEnvironment m' = GetCurrentEnvironment m
  /\ (forall n, n <> envName -> env_of m' n = env_of m n).
Proof.
  unfold EnsureAPIKey, GetEnvironment, env_of.
  destruct (config m) as [c|] eqn:Hc; [|discriminate].
  destruct (map_index (Environments c) envName) as [env|] eqn:Henv; [|discriminate].
  destruct (String.eqb_spec (StripeAPIKey env) "") as [Hempty|Hfull].
  2: { intros [= <- <- <-]. rewrite Hc. split; [eauto|]. split; reflexivity. }
  destruct (PromptAPIKey envName tty) as [[apiKey [e|]] tty1] eqn:Hprompt; [discriminate|].
  apply PromptAPIKey_accepts in Hprompt.
  destruct (ManagerFacts.UpdateEnvironmentAPIKey_shape envName apiKey m fs)
    as [[e ->]|(c0 & g & env0 & Hc0 & Hg & Henv0 & _ & ->)]; [discriminate|].
  cbv zeta. destruct (Save _ fs) as [[e|] fs1]; simpl; [discriminate|].
  intros [= <- <- <-]. simpl. unfold GetCurrentEnvironment, map_index. simpl.
  assert (c0 = c) by congruence. subst c0. rewrite Hc, Hg. simpl.
  split.
  - rewrite lookup_insert_eq. eexists. split; [reflexivity|]. simpl.
    intros ->. vm_compute in Hprompt. discriminate.
  - split; [reflexivity|]. intros n Hn. now apply lookup_insert_ne.
Qed.

(** X11: [EnsureAPIKey] hands back the error of [GetEnvironment] for an
    absent environment and does nothing, without a prompt, for an
    environment that has a key; whenever it returns no error the
    environment has a key afterwards, and the other environments and the
    current one are as before. *)
Theorem EnsureAPIKey_spec (envName : string) (m : Manager) (fs : FS) (tty : TTY) :
  (forall err, GetEnvironment m envName = inr err ->
     EnsureAPIKey envName m fs tty = (Some err, m, fs, tty))
  /\ (forall env, GetEnvironment m envName = inl env -> StripeAPIKey env <> "" ->
      EnsureAPIKey envName m fs tty = (None, m, fs, tty))
  /\ (forall m' fs' tty', EnsureAPIKey envName m fs tty = (None, m', fs', tty') ->
      (exists env, env_of m' envName = Some env /\ StripeAPIKey env <> "")
      /\ GetCurrentEnvironment m' = GetCurrentEnvironment m
      /\ (forall n, n <> envName -> env_of m' n = env_of m n)).
Proof.
  split; [|split].
  - intros err Hget. unfold EnsureAPIKey. now rewrite Hget.
  - intros env Hget Hkey. unfold EnsureAPIKey. now rewrite Hget, (eqb_empty_false _ Hkey).
  - intros m' fs' tty'. apply EnsureAPIKey_ok.
Qed.

(** X12: a command that needs Stripe starts only on an initialized
    client.  [PersistentPreRunE] returns at once, touching nothing, for
    [version] and for [init], [show], [list-env] and [reset] of the config
    group; for every other command, when it returns no error the target
    environment (the flag, or else the current environment) exists with a
    key that is not empty, and the client and [stripe.Key] are bound to
    that key. *)
Theorem PersistentPreRunE_spec (name : string) (parent : option string) (envFlag : string)
    (s : Session) (fs : FS) (tty : TTY) :
  (name = "version" -> PersistentPreRunE name parent envFlag s fs tty = (None, s, fs, tty))
  /\ (parent = Some "config" -> offline_config_command name = true ->
      PersistentPreRunE name parent envFlag s fs tty = (None, s, fs, tty))
  /\ (name <> "version" ->
      (parent = Some "config" -> offline_config_command name = false) ->
      forall s' fs' tty',
        PersistentPreRunE name parent envFlag s fs tty = (None, s', fs', tty') ->
        let target :=
          if String.eqb envFlag "" then GetCurrentEnvironment (configManager s')
          else envFlag in
        exists env,
          env_of (configManager s') target = Some env
          /\ StripeAPIKey env <> ""
          /\ IsInitialized (stripeClient s') = true
          /\ sc (stripeClient s') = Some (StripeAPIKey env)
          /\ stripe_Key s' = StripeAPIKey env).
Proof.
  unfold PersistentPreRunE. split; [|split].
  - intros ->. reflexivity.
  - intros -> Hoff. rewrite Hoff. simpl. now destruct (String.eqb name "version").
  - intros Hname Hparent s' fs' tty'.
    rewrite (proj2 (String.eqb_neq name "version") Hname).
    assert (Hskip : match parent with
                    | Some p => String.eqb p "config" && offline_config_command name
                    | None => false
                    end = false).
    { destruct parent as [p|]; [|reflexivity].
      destruct (String.eqb_spec p "config") as [->|]; [|reflexivity].
      simpl. now apply Hparent. }
    rewrite Hskip.
    destruct (Load (configManager s) fs) as [[[e|] m1] fs1] eqn:Hload; [discriminate|].
    apply ManagerFacts.Load_ok_named in Hload.
    set (target1 := if String.eqb envFlag "" then GetCurrentEnvironment m1 else envFlag).
    assert (Hnamed : target1 <> "").
    { subst target1. destruct (String.eqb_spec envFlag ""); assumption. }
    destruct (GetEnvironment m1 target1) as [env1|err] eqn:Hget.
    2: { destruct (same_error err ErrEnvironmentNotFound); discriminate. }
    destruct (EnsureAPIKey target1 m1 fs1 tty) as [[[[e|] m2] fs2] tty2] eqn:Hensure;
      [discriminate|].
    destruct (EnsureAPIKey_ok _ _ _ _ _ _ _ Hensure) as (_ & Hcur & _).
    pose proof (ClientFacts.Initialize_ok m2 target1 (stripeClient s) (stripe_Key s))
      as Hinit.
    destruct (Initialize m2 target1 (stripeClient s) (stripe_Key s)) as [[[e|] c] key];
      [discriminate|].
    intros [= <- <- <-]. simpl.
    assert (Htarget : (if String.eqb envFlag "" then GetCurrentEnvironment m2 else envFlag)
                      = target1).
    { subst target1. destruct (String.eqb envFlag ""); [exact Hcur | reflexivity]. }
    rewrite Htarget.
    destruct (Hinit eq_refl) as (env2 & Hget2 & Hkey2 & Hbound & Hsc & Hglobal).
    rewrite (eqb_empty_false _ Hnamed) in Hget2.
    apply ManagerFacts.GetEnvironment_inl in Hget2.
    simpl in *. exists env2. repeat split; auto.
Qed.

(** X13: when the target environment is absent, [PersistentPreRunE]
    ends with the error of [GetEnvironment] itself, which wraps
    [ErrEnvironmentNotFound] and names the environment; that error is
    never the package-level value, so the branch that compares with [==]
    is not taken.  Nothing is prompted and the client is not touched. *)
Theorem PersistentPreRunE_missing_environment (name : string) (parent : option string)
    (envFlag : string) (s : Session) (fs fs1 : FS) (tty : TTY) (m1 : Manager) :
  name <> "version" ->
  (parent = Some "config" -> offline_config_command name = false) ->
  Load (configManager s) fs = (None, m1, fs1) ->
  let target := if String.eqb envFlag "" then GetCurrentEnvironment m1 else envFlag in
  env_of m1 target = None ->
  exists e,
    PersistentPreRunE name parent envFlag s fs tty
    = (Some e,
       {| configManager := m1; stripeClient := stripeClient s; stripe_Key := stripe_Key s |},
       fs1, tty)
    /\ Error e = "environment not found: " ++ target
    /\ errors_Is e ErrEnvironmentNotFound = true
    /\ same_error e ErrEnvironmentNotFound = false.
Proof.
  intros Hname Hparent Hload target Habsent. unfold PersistentPreRunE.
  rewrite (proj2 (String.eqb_neq name "version") Hname).
  assert (Hskip : match parent with
                  | Some p => String.eqb p "config" && offline_config_command name
                  | None => false
                  end = false).
  { destruct parent as [p|]; [|reflexivity].
    destruct (String.eqb_spec p "config") as [->|]; [|reflexivity].
    simpl. now apply Hparent. }
  rewrite Hskip, Hload. fold target.
  destruct (ManagerFacts.Load_ok_loaded _ _ _ _ Hload) as (c & g & Hc & _).
  rewrite (ManagerFacts.GetEnvironment_env_of m1 c target Hc), Habsent. simpl.
  eexists. split; [reflexivity|]. repeat split.
Qed.

(** X14: [config add-env] never changes an environment that exists.
    After a [Load] that went through, the command returns (the map
    assignment cannot panic); for a name that is taken it fails before it
    asks for a key; whatever it returns, every environment there was is
    still there unchanged; and when it returns no error the name was free
    and now holds a key of the accepted format with "usd" and "table". *)
Theorem configAddEnvCmd_keeps_existing (envName : string) (m m1 : Manager) (fs fs1 : FS)
    (tty : TTY) :
  Load m fs = (None, m1, fs1) ->
  (is_Some (env_of m1 envName) ->
   configAddEnvCmd envName m fs tty
   = Returns (Some (ErrText ("environment '" ++ envName ++ "' already exists")),
              m1, fs1, tty))
  /\ exists r m2 fs2 tty2,
       configAddEnvCmd envName m fs tty = Returns (r, m2, fs2, tty2)
       /\ (forall n env, env_of m1 n = Some env -> env_of m2 n = Some env)
       /\ (r = None ->
           env_of m1 envName = None
           /\ exists key,
                env_of m2 envName
                = Some {| StripeAPIKey := key; DefaultCurrency := "usd";
                          OutputFormat := "table" |}
                /\ well_formed key = true).
Proof.
  intros Hload. unfold configAddEnvCmd. rewrite Hload.
  destruct (ManagerFacts.Load_ok_loaded _ _ _ _ Hload) as (c & g & Hc & Hg).
  rewrite (ManagerFacts.GetEnvironment_env_of m1 c envName Hc).
  destruct (env_of m1 envName) as [old|] eqn:Hold.
  { split; [reflexivity|]. eexists _, _, _, _. split; [reflexivity|].
    split; [auto | discriminate]. }
  split; [intros [? ?]; discriminate|].
  destruct (PromptAPIKey envName tty) as [[apiKey [e|]] tty1] eqn:Hprompt.
  { eexists _, _, _, _. split; [reflexivity|]. split; [auto | discriminate]. }
  apply PromptAPIKey_accepts in Hprompt.
  destruct (String.eqb_spec envName "") as [->|Hnamed].
  { unfold AddEnvironment. rewrite Hc. simpl.
    eexists _, _, _, _. split; [reflexivity|]. split; [auto | discriminate]. }
  rewrite (ConfigFacts.AddEnvironment_stores envName _ m1 fs1 c g Hc Hg Hnamed)
    by (right; exact Hprompt).
  assert (Hstored : forall n env, env_of m1 n = Some env ->
            env_of (set_config m1
                      {| CurrentEnvironment := CurrentEnvironment c;
                         Environments :=
                           Some (<[envName := with_defaults
                                      {| StripeAPIKey := apiKey; DefaultCurrency := "usd";
                                         OutputFormat := "table" |}]> g) |}) n = Some env).
  { intros n env. unfold env_of, map_index. rewrite Hc, Hg. simpl. intros Hn.
    rewrite lookup_insert_ne; [exact Hn|]. intros ->.
    unfold env_of, map_index in Hold. rewrite Hc, Hg in Hold. simpl in Hold. congruence. }
  destruct (Save _ fs1) as [[e|] fs2]; simpl;
    (eexists _, _, _, _; split; [reflexivity|]; split; [exact Hstored|]).
  - discriminate.
  - intros _. split; [reflexivity|]. exists apiKey. split.
    + unfold env_of, map_index. simpl. now rewrite lookup_insert_eq.
    + now apply ManagerFacts.validateAPIKey_accepts.
Qed.

(** X15: [config remove-env] and [config reset] do nothing unless the
    confirmation is answered: when the selection ends with an error or
    with "No", [remove-env] returns no error and leaves the manager and
    the disk as [Load] left them, and [reset] returns no error and leaves
    them untouched. *)
Theorem confirmation_guards (pick : nat) (envName : string) (m : Manager) (fs : FS)
    (tty : TTY) :
  (forall m1 fs1 idx choice err tty1,
     Load m fs = (None, m1, fs1) ->
     select_Run (confirm ("Are you sure you want to remove environment '" ++ envName ++ "'?"))
       tty = (idx, choice, err, tty1) ->
     err <> None \/ choice = "No" ->
     configRemoveEnvCmd pick envName m fs tty = (None, m1, fs1, tty1))
  /\ (forall idx choice err tty1,
        select_Run (confirm ("Are you sure you want to reset all configuration? "
                             ++ "This will remove all environments and API keys."))
          tty = (idx, choice, err, tty1) ->
        err <> None \/ choice = "No" ->
        configResetCmd m fs tty = (None, m, fs, tty1)).
Proof.
  assert (Hcancel : forall (choice : string) (err : option error),
            err <> None \/ choice = "No" ->
            bool_decide (is_Some err) || String.eqb choice "No" = true).
  { intros choice [e|] [Herr| ->]; try reflexivity; contradiction. }
  split.
  - intros m1 fs1 idx choice err tty1 Hload Hselect Hno.
    unfold configRemoveEnvCmd. rewrite Hload, Hselect. now rewrite (Hcancel _ _ Hno).
  - intros idx choice err tty1 Hselect Hno.
    unfold configResetCmd. rewrite Hselect. now rewrite (Hcancel _ _ Hno).
Qed.

(** X26: [config use] and [config set-key] after a [Load] that went
    through.  For a name that is no environment both fail with an error
    that wraps [ErrEnvironmentNotFound] and leave the manager and the
    disk as [Load] left them; [set-key] has read the key by then, as it
    asks before it looks the environment up.  When [use] returns no
    error the name is an environment and is current, and the
    environments are the same; when [set-key] returns no error the key
    of that environment is one of the accepted format, and its other
    fields, the other environments and the current environment are the
    same. *)
Theorem config_use_and_set_key (envName : string) (m m1 : Manager) (fs fs1 : FS)
    (tty : TTY) :
  Load m fs = (None, m1, fs1) ->
  (env_of m1 envName = None ->
   (exists e, configUseCmd envName m fs = (Some e, m1, fs1)
              /\ errors_Is e ErrEnvironmentNotFound = true)
   /\ (forall apiKey tty1, PromptAPIKey envName tty = (apiKey, None, tty1) ->
       exists e, configSetKeyCmd envName m fs tty = (Some e, m1, fs1, tty1)
                 /\ errors_Is e ErrEnvironmentNotFound = true))
  /\ (forall m2 fs2, configUseCmd envName m fs = (None, m2, fs2) ->
      GetCurrentEnvironment m2 = envName
      /\ is_Some (env_of m2 envName)
      /\ forall n, env_of m2 n = env_of m1 n)
  /\ (forall m2 fs2 tty2, configSetKeyCmd envName m fs tty = (None, m2, fs2, tty2) ->
      exists env key,
        env_of m1 envName = Some env
        /\ env_of m2 envName
           = Some {| StripeAPIKey := key; DefaultCurrency := DefaultCurrency env;
                     OutputFormat := OutputFormat env |}
        /\ well_formed key = true
        /\ (forall n, n <> envName -> env_of m2 n = env_of m1 n)
        /\ GetCurrentEnvironment m2 = GetCurrentEnvironment m1).
Proof.
  intros Hload.
  destruct (ManagerFacts.Load_ok_loaded _ _ _ _ Hload) as (c & g & Hc & Hg).
  unfold configUseCmd, configSetKeyCmd. rewrite Hload.
  split; [|split].
  - intros Habsent.
    assert (Hnone : map_index (Environments c) envName = None).
    { unfold env_of in Habsent. now rewrite Hc in Habsent. }
    split.
    + unfold SetCurrentEnvironment. rewrite Hc, Hnone. eexists. split; reflexivity.
    + intros apiKey tty1 ->.
      rewrite (ManagerFacts.UpdateEnvironmentAPIKey_absent envName apiKey m1 fs1 c Hc Hnone).
      eexists. split; reflexivity.
  - intros m2 fs2.
    destruct (ManagerFacts.SetCurrentEnvironment_shape envName m1 fs1)
      as [[e ->]|(c0 & Hc0 & Hsome & ->)]; [discriminate|].
    cbv zeta. destruct (Save _ fs1) as [[e|] fs3]; simpl; [discriminate|].
    intros [= <- _]. assert (c0 = c) by congruence. subst c0.
    unfold GetCurrentEnvironment, env_of. simpl. rewrite Hc.
    split; [reflexivity|]. split; [exact Hsome | reflexivity].
  - intros m2 fs2 tty2.
    destruct (PromptAPIKey envName tty) as [[apiKey [e|]] tty1]; [discriminate|].
    destruct (ManagerFacts.UpdateEnvironmentAPIKey_shape envName apiKey m1 fs1)
      as [[e ->]|(c0 & g0 & env & Hc0 & Hg0 & Henv & Hvalid & ->)]; [discriminate|].
    cbv zeta. destruct (Save _ fs1) as [[e|] fs3]; simpl; [discriminate|].
    intros [= <- _ _]. assert (c0 = c) by congruence. subst c0.
    assert (g0 = g) by congruence. subst g0.
    exists env, apiKey. unfold GetCurrentEnvironment, env_of, map_index. simpl.
    rewrite Hc, Hg. simpl.
    split; [exact Henv|]. split; [apply lookup_insert_eq|].
    split; [now apply ManagerFacts.validateAPIKey_accepts|].
    split; [|reflexivity]. intros n Hn. now apply lookup_insert_ne.
Qed.

End WithHost.

End SessionFacts.

(** ** The text of the codes *)

Module CodeFacts.

Import StringFacts.

Lemma uint_digits (d : Decimal.uint) :
  all_chars is_digit (NilEmpty.string_of_uint d) = true.
Proof. induction d; simpl; auto. Qed.

Lemma fmt_d_digits (z : Z) : 0 <= z -> all_chars is_digit (fmt_d z) = true.
Proof.
  intros Hz. unfold fmt_d. destruct z as [|p|p]; [reflexivity| |lia].
  simpl. unfold NilZero.string_of_uint.
  destruct (Pos.to_uint p); try reflexivity; apply uint_digits.
Qed.

Lemma to_int_proper (z : Z) :
  Z.to_int z <> Decimal.Pos Decimal.Nil /\ Z.to_int z <> Decimal.Neg Decimal.Nil.
Proof.
  destruct z as [|p|p]; simpl; split; try discriminate;
    intros [= Hnil]; exact (DecimalPos.Unsigned.to_uint_nonnil p Hnil).
Qed.

(** [%d] writes different numbers differently. *)
Lemma fmt_d_inj (a b : Z) : fmt_d a = fmt_d b -> a = b.
Proof.
  unfold fmt_d. intros Heq.
  destruct (to_int_proper a) as [Ha1 Ha2]. destruct (to_int_proper b) as [Hb1 Hb2].
  pose proof (NilZero.isi _ Ha1 Ha2) as Ha. pose proof (NilZero.isi _ Hb1 Hb2) as Hb.
  rewrite Heq, Hb in Ha. injection Ha as Hab.
  rewrite <- (DecimalZ.of_to a), <- (DecimalZ.of_to b). now rewrite Hab.
Qed.

Lemma append_inv_head (u x y : string) : u ++ x = u ++ y -> x = y.
Proof.
  induction u as [|c u IH]; [auto|].
  change (String c (u ++ x) = String c (u ++ y) -> x = y). intros [= Heq]. auto.
Qed.

(** Two runs of digits that are each followed by an underscore and
    agree up to there are the same run. *)
Lemma digits_then_underscore (a b x y : string) :
  all_chars is_digit a = true -> all_chars is_digit b = true ->
  a ++ String "_" x = b ++ String "_" y -> a = b.
Proof.
  revert b. induction a as [|c a IH]; intros [|d b]; simpl.
  - reflexivity.
  - intros _ Hb. apply andb_prop in Hb as [Hd _].
    change (String "_" x = String d (b ++ String "_" y) -> "" = String d b).
    intros [= <- _]. discriminate Hd.
  - intros Ha _. apply andb_prop in Ha as [Hc _].
    change (String c (a ++ String "_" x) = String "_" y -> String c a = "").
    intros [= -> _]. discriminate Hc.
  - intros Ha Hb. apply andb_prop in Ha as [_ Ha]. apply andb_prop in Hb as [_ Hb].
    change (String c (a ++ String "_" x) = String d (b ++ String "_" y)
            -> String c a = String d b).
    intros [= -> Heq]. f_equal. now apply (IH b).
Qed.

(** The index can be read off a code: codes with the same prefix and
    different indexes differ, whatever their suffixes. *)
Lemma code_text_index (upper : string) (i j s s' : Z) :
  0 <= i -> 0 <= j -> code_text upper i s = code_text upper j s' -> i = j.
Proof.
  intros Hi Hj Heq. unfold code_text in Heq. apply append_inv_head in Heq.
  apply fmt_d_inj.
  apply (digits_then_underscore _ _ (fmt_05d s) (fmt_05d s'));
    [now apply fmt_d_digits | now apply fmt_d_digits | exact Heq].
Qed.

Lemma code_text_nonempty (upper : string) (i s : Z) :
  nonempty (code_text upper i s) = Some (code_text upper i s).
Proof.
  unfold nonempty. rewrite eqb_empty_false; [reflexivity|].
  unfold code_text. intros Heq. apply (f_equal String.length) in Heq.
  rewrite !length_app in Heq. simpl in Heq. lia.
Qed.

(** Checking [P] on the numbers below [n] one after the other. *)
Lemma scan_complete (P : Z -> bool) (n : nat) :
  snd (Nat.iter n (scan_step P) (0, true)) = true ->
  forall z, 0 <= z < Z.of_nat n -> P z = true.
Proof.
  assert (Hfst : forall k, fst (Nat.iter k (scan_step P) (0, true)) = Z.of_nat k).
  { induction k as [|k IH]; [reflexivity|].
    rewrite Nat.iter_succ. unfold scan_step at 1. cbn [fst]. rewrite IH. lia. }
  induction n as [|n IH]; [lia|].
  rewrite Nat.iter_succ. unfold scan_step at 1. cbn [snd]. rewrite Hfst.
  intros Hall z Hz. apply andb_prop in Hall as [Hbefore Hn].
  destruct (Z.eq_dec z (Z.of_nat n)) as [->|Hne]; [exact Hn|].
  apply IH; [exact Hbefore | lia].
Qed.

Lemma scan_complete_pos (P : Z -> bool) (p : positive) :
  snd (Pos.iter (scan_step P) (0, true) p) = true ->
  forall z, 0 <= z < Z.pos p -> P z = true.
Proof.
  rewrite Pos2Nat.inj_iter. intros Hall z Hz.
  apply (scan_complete P (Pos.to_nat p)); [exact Hall|].
  rewrite positive_nat_Z. exact Hz.
Qed.

(** [%05d] of a number below 100000 is five digits. *)
Lemma fmt_05d_five (z : Z) : 0 <= z < 100000 -> five_digits (fmt_05d z) = true.
Proof.
  apply (scan_complete_pos (fun z => five_digits (fmt_05d z)) 100000).
  vm_compute. reflexivity.
Qed.

Lemma charset_covers (i : Z) : 0 <= i < 36 -> charset_ok i = true.
Proof.
  apply (scan_complete_pos charset_ok 36). vm_compute. reflexivity.
Qed.

Section WithOutside.
Context `{Outside}.

(** X16: [generatePromotionCode] sends nothing, and when [Intn] is in
    its range the code is the prefix in capitals (PROMO for an empty
    one), the index in decimal, an underscore and exactly five
    digits. *)
Theorem generatePromotionCode_format (prefix : string) (index : Z) (w : World) :
  suffix_in_range -> 0 <= index ->
  exists suffix,
    fst (fst (generatePromotionCode prefix index w))
    = strings_ToUpper (if String.eqb prefix "" then "PROMO" else prefix)
      ++ fmt_d index ++ "_" ++ suffix
    /\ all_chars is_digit (fmt_d index) = true
    /\ five_digits suffix = true
    /\ snd (generatePromotionCode prefix index w) = []
    /\ snd (fst (generatePromotionCode prefix index w)) = snd (time_Now_UnixNano w).
Proof.
  intros Hrange Hindex. unfold generatePromotionCode, bind, lift, ret.
  destruct (time_Now_UnixNano w) as [now w1]. cbn.
  eexists. split; [reflexivity|].
  split; [now apply fmt_d_digits|].
  split; [apply fmt_05d_five, Hrange|]. split; reflexivity.
Qed.

End WithOutside.

Section WithStream.
Context `{Outside} `{RandStream}.

Lemma fill_suffix_runs (seed : Z) (n : nat) :
  draws_in_range ->
  forall k, exists suffix,
    fill_suffix seed n k = Returns suffix
    /\ String.length suffix = n
    /\ all_chars in_charset suffix = true.
Proof.
  intros Hrange. induction n as [|n IH]; intros k.
  - exists "". repeat split.
  - cbn [fill_suffix].
    pose proof (charset_covers (rand_Intn_nth seed k (Z.of_nat (String.length charset))))
      as Hc.
    unfold charset_ok in Hc.
    destruct (charset_at _) as [c|msg].
    2: { discriminate Hc. apply Hrange. reflexivity. }
    destruct (IH (S k)) as (rest & -> & Hlen & Hall).
    exists (String c rest). split; [reflexivity|]. simpl. rewrite Hlen, Hall.
    split; [reflexivity|]. rewrite Hc; [reflexivity|]. apply Hrange. reflexivity.
Qed.

(** X17: when [Intn] is in its range, [GenerateSinglePromotionCode]
    does not panic on its index into the alphabet, and returns the
    prefix in capitals (PROMO for an empty one), an underscore, and
    eight characters that are capital letters or digits. *)
Theorem GenerateSinglePromotionCode_format (prefix : string) (w : World) :
  draws_in_range ->
  exists suffix,
    GenerateSinglePromotionCode prefix w
    = (Returns (strings_ToUpper (if String.eqb prefix "" then "PROMO" else prefix)
                ++ "_" ++ suffix),
       snd (time_Now_UnixNano w))
    /\ String.length suffix = 8%nat
    /\ all_chars in_charset suffix = true.
Proof.
  intros Hrange. unfold GenerateSinglePromotionCode.
  destruct (time_Now_UnixNano w) as [now w1].
  destruct (fill_suffix_runs now 8 Hrange 0) as (suffix & -> & Hlen & Hall).
  exists suffix. repeat split; assumption.
Qed.

End WithStream.

End CodeFacts.

(** ** What is sent to Stripe *)

Module RequestFacts.

Import StringFacts.

Lemma valid_duration_cases (d : string) :
  default false (validDurations !! d) = true ->
  d = "forever" \/ d = "once" \/ d = "repeating".
Proof.
  destruct (String.eqb_spec d "forever") as [|H1]; [auto|].
  destruct (String.eqb_spec d "once") as [|H2]; [auto|].
  destruct (String.eqb_spec d "repeating") as [|H3]; [auto|].
  rewrite (ServiceFacts.invalid_duration d H1 H2 H3). discriminate.
Qed.

Section WithOutside.
Context `{Outside}.

(** The requests of the loop, by position. *)
Lemma batch_loop_codes (client : Client) (opts : BatchCreateOptions)
    (Hinit : IsInitialized client = true) (Hcoupon : b_CouponID opts <> "") (n : nat) :
  forall (i : Z) (codes : list (option PromotionCode)) (errors : list error) (w : World)
         (j : nat) (x : Exchange),
    snd (batch_loop client opts n i codes errors w) !! j = Some x ->
    exists suffix,
      sent x = CallPromotionCodeNew
                 (promotion_params
                    (batch_item_options opts
                       (code_text (batch_prefix opts) (i + Z.of_nat j + 1) suffix))).
Proof.
  induction n as [|n IH]; intros i codes errors w j x.
  - simpl. discriminate.
  - rewrite (BatchFacts.batch_loop_step client opts Hinit Hcoupon).
    destruct (time_Now_UnixNano w) as [now w1]. cbn zeta.
    destruct (promotioncode_New _ w1) as [[pc [e|]] w2].
    + destruct (batch_loop client opts n (i + 1) codes _ w2) as [[r w3] t] eqn:Hrest.
      destruct j as [|j]; simpl.
      * intros [= <-]. simpl. eexists. unfold batch_prefix.
        replace (i + Z.of_nat 0 + 1) with (i + 1) by lia. reflexivity.
      * intros Hj.
        edestruct (IH (i + 1)) as [suffix Hx]; [erewrite Hrest; exact Hj|].
        exists suffix. rewrite Hx. do 4 f_equal. lia.
    + destruct (batch_loop client opts n (i + 1) _ errors w2) as [[r w3] t] eqn:Hrest.
      destruct j as [|j]; simpl.
      * intros [= <-]. simpl. eexists. unfold batch_prefix.
        replace (i + Z.of_nat 0 + 1) with (i + 1) by lia. reflexivity.
      * intros Hj.
        edestruct (IH (i + 1)) as [suffix Hx]; [erewrite Hrest; exact Hj|].
        exists suffix. rewrite Hx. do 4 f_equal. lia.
Qed.

(** What a batch call sends is what its loop sends. *)
Lemma BatchCreate_trace (client : Client) (opts : BatchCreateOptions) (w : World) :
  IsInitialized client = true -> b_CouponID opts <> "" -> 1 <= b_Count opts <= 1000 ->
  snd (BatchCreatePromotionCodes client opts w)
  = snd (batch_loop client opts (Z.to_nat (b_Count opts)) 0 [] [] w).
Proof.
  intros Hinit Hcoupon Hcount. unfold BatchCreatePromotionCodes.
  rewrite Hinit, (eqb_empty_false _ Hcoupon). cbn [negb].
  destruct (Z.leb_spec (b_Count opts) 0) as [|_]; [lia|].
  destruct (Z.ltb_spec 1000 (b_Count opts)) as [|_]; [lia|].
  unfold bind.
  destruct (batch_loop client opts _ 0 [] [] w) as [[[codes errors] w1] t].
  destruct (0 <? length errors)%nat; unfold ret; cbn; now rewrite app_nil_r.
Qed.

Lemma BatchCreate_codes (client : Client) (opts : BatchCreateOptions) (w : World)
    (j : nat) (x : Exchange) :
  IsInitialized client = true -> b_CouponID opts <> "" -> 1 <= b_Count opts <= 1000 ->
  snd (BatchCreatePromotionCodes client opts w) !! j = Some x ->
  exists suffix,
    sent x = CallPromotionCodeNew
               (promotion_params
                  (batch_item_options opts
                     (code_text (batch_prefix opts) (Z.of_nat j + 1) suffix))).
Proof.
  intros Hinit Hcoupon Hcount. rewrite BatchCreate_trace by assumption.
  intros Hj.
  exact (batch_loop_codes client opts Hinit Hcoupon _ 0 [] [] w j x Hj).
Qed.

(** Whatever the options, a batch call sends creation requests built
    from them and nothing else. *)
Lemma BatchCreate_sends_requests (client : Client) (opts : BatchCreateOptions) (w : World) :
  Forall (batch_request opts) (snd (BatchCreatePromotionCodes client opts w)).
Proof.
  destruct (IsInitialized client) eqn:Hinit.
  2: { unfold BatchCreatePromotionCodes. rewrite Hinit. constructor. }
  destruct (String.eqb_spec (b_CouponID opts) "") as [Hid|Hid].
  { unfold BatchCreatePromotionCodes. rewrite Hinit, Hid. constructor. }
  destruct (Z_le_gt_dec (b_Count opts) 0) as [Hlow|Hlow].
  { destruct (BatchFacts.BatchCreate_count_stops client opts Hinit Hid w) as [e ->];
      [now left | constructor]. }
  destruct (Z_lt_le_dec 1000 (b_Count opts)) as [Hhigh|Hhigh].
  { destruct (BatchFacts.BatchCreate_count_stops client opts Hinit Hid w) as [e ->];
      [now right | constructor]. }
  apply Forall_lookup_2. intros j x Hj.
  destruct (BatchCreate_codes client opts w j x Hinit Hid ltac:(lia) Hj) as [suffix Hx].
  eexists. exact Hx.
Qed.

(** X18: the requests of a batch call, by position: request number [j]
    (from 0) asks for a promotion code of the coupon of the options,
    with the customer, the limits and the metadata of the options, no
    [active], and the code made of the prefix, the index [j + 1] and a
    suffix. *)
Theorem BatchCreate_requests (client : Client) (opts : BatchCreateOptions) (w : World) :
  IsInitialized client = true -> b_CouponID opts <> "" -> 1 <= b_Count opts <= 1000 ->
  forall j x,
    snd (BatchCreatePromotionCodes client opts w) !! j = Some x ->
    exists p suffix,
      sent x = CallPromotionCodeNew p
      /\ pp_Code p = Some (code_text (batch_prefix opts) (Z.of_nat j + 1) suffix)
      /\ pp_Coupon p = Some (b_CouponID opts)
      /\ pp_Active p = None
      /\ pp_Customer p = nonempty (b_Customer opts)
      /\ pp_MaxRedemptions p = b_MaxRedemptions opts
      /\ pp_ExpiresAt p = b_ExpiresAt opts
      /\ pp_Metadata p = b_Metadata opts
      /\ (pp_Restrictions p = None
          <-> b_MinimumAmount opts = None /\ b_FirstTimeTransaction opts = None)
      /\ (forall r, pp_Restrictions p = Some r ->
          rp_MinimumAmount r = b_MinimumAmount opts
          /\ rp_FirstTimeTransaction r = b_FirstTimeTransaction opts).
Proof.
  intros Hinit Hcoupon Hcount j x Hj.
  destruct (BatchCreate_codes client opts w j x Hinit Hcoupon Hcount Hj) as [suffix Hx].
  eexists _, suffix. split; [exact Hx|]. cbn.
  split; [apply CodeFacts.code_text_nonempty|].
  do 6 (split; [reflexivity|]).
  unfold restrictions_of. cbn.
  destruct (b_MinimumAmount opts), (b_FirstTimeTransaction opts); cbn;
    (split; [split; [try discriminate; auto | intros [? ?]; try discriminate; auto]|]);
    intros r [= <-]; auto; try discriminate.
Qed.

(** X19: the codes a batch call asks for are pairwise different,
    whatever the clock and the generator give: every request carries a
    code, and no code is sent twice. *)
Theorem BatchCreate_codes_distinct (client : Client) (opts : BatchCreateOptions)
    (w : World) :
  IsInitialized client = true -> b_CouponID opts <> "" -> 1 <= b_Count opts <= 1000 ->
  let t := snd (BatchCreatePromotionCodes client opts w) in
  Forall (fun x => is_Some (sent_code x)) t
  /\ NoDup (map sent_code t).
Proof.
  intros Hinit Hcoupon Hcount t.
  assert (Hcode : forall j x, t !! j = Some x ->
            exists suffix,
              sent_code x = Some (code_text (batch_prefix opts) (Z.of_nat j + 1) suffix)).
  { intros j x Hj.
    destruct (BatchCreate_codes client opts w j x Hinit Hcoupon Hcount Hj) as [suffix Hx].
    exists suffix. unfold sent_code. rewrite Hx. cbn.
    apply CodeFacts.code_text_nonempty. }
  split.
  - apply Forall_lookup_2. intros j x Hj. destruct (Hcode j x Hj) as [suffix ->]. eauto.
  - apply NoDup_alt. intros j1 j2 c H1 H2.
    rewrite list_lookup_fmap in H1, H2.
    destruct (t !! j1) as [x1|] eqn:Hx1; [|discriminate].
    destruct (t !! j2) as [x2|] eqn:Hx2; [|discriminate].
    simpl in H1, H2. injection H1 as H1. injection H2 as H2.
    destruct (Hcode j1 x1 Hx1) as [s1 Hs1]. destruct (Hcode j2 x2 Hx2) as [s2 Hs2].
    rewrite H1 in Hs1. rewrite H2 in Hs2. rewrite Hs1 in Hs2. injection Hs2 as Hs2.
    apply CodeFacts.code_text_index in Hs2; lia.
Qed.

(** X20: a batch call in which no request is refused returns no error
    and as many codes as were asked for. *)
Theorem BatchCreate_all_created (client : Client) (opts : BatchCreateOptions)
    (w w' : World) (codes : list (option PromotionCode)) (err : option error)
    (trace : list Exchange) :
  IsInitialized client = true -> b_CouponID opts <> "" -> 1 <= b_Count opts <= 1000 ->
  BatchCreatePromotionCodes client opts w = ((codes, err), w', trace) ->
  List.filter refused trace = [] ->
  err = None
  /\ length codes = Z.to_nat (b_Count opts)
  /\ Forall is_Some codes
  /\ length trace = Z.to_nat (b_Count opts).
Proof.
  intros Hinit Hcoupon Hcount Hrun Hnone.
  destruct (BatchFacts.BatchCreate_valid_run client opts Hinit Hcoupon w Hcount)
    as (cs & es & w1 & t & Heq & Hlen & Hcreate & Hcs & Hsome & Hrep).
  rewrite Hrun in Heq. injection Heq as -> -> -> ->.
  pose proof (BatchFacts.created_refused_split t Hcreate) as Hsplit.
  rewrite Hnone in Hrep, Hsplit. inversion Hrep; subst. simpl in Hsplit.
  repeat split; [lia | exact Hsome | exact Hlen].
Qed.

(** X21: [CreateCoupon] sends at most one request, and the request it
    sends has what Stripe asks of a coupon: one of percent_off and
    amount_off, a currency (not empty) exactly with an amount, a
    duration among forever, once and repeating, and the months of a
    repeating one.  When it sends nothing it returns an error and
    leaves the world alone. *)
Theorem CreateCoupon_request_sound (client : Client) (opts : CouponCreateOptions)
    (w : World) :
  let '(c, err, w', t) := CreateCoupon client opts w in
  (t = [] /\ c = None /\ err <> None /\ w' = w)
  \/ exists p answer,
       t = [ {| sent := CallCouponNew p; failure := answer |} ]
       /\ IsInitialized client = true
       /\ coupon_request_ok p
       /\ (is_Some err <-> is_Some answer).
Proof.
  unfold CreateCoupon.
  destruct (IsInitialized client); cbn [negb]; [|left; repeat split; discriminate].
  assert (Hsend : forall duration,
            default false (validDurations !! duration) = true ->
            (duration = "repeating" -> is_Some (c_DurationInMonths opts)) ->
            (is_Some (c_PercentOff opts) <-> c_AmountOff opts = None) ->
            (is_Some (c_AmountOff opts) -> c_Currency opts <> "") ->
            let '(c, err, w', t) :=
              (call '(c, err) <- stripe_call (CallCouponNew (coupon_params opts duration))
                                   (coupon_New (coupon_params opts duration));
               match err with
               | Some e => ret (None, Some (Errorf_w "failed to create coupon: " e ""))
               | None => ret (Some c, None)
               end) w in
            (t = [] /\ c = None /\ err <> None /\ w' = w)
            \/ exists p answer,
                 t = [ {| sent := CallCouponNew p; failure := answer |} ]
                 /\ true = true
                 /\ coupon_request_ok p
                 /\ (is_Some err <-> is_Some answer)).
  { intros duration Hvalid Hmonths Hone Hcur.
    assert (Hok : coupon_request_ok (coupon_params opts duration)).
    { unfold coupon_request_ok. cbn.
      split; [exact Hone|].
      split; [destruct (c_AmountOff opts); split; intros [? ?]; eauto; discriminate|].
      split; [destruct (c_AmountOff opts) as [a|]; [|discriminate];
              intros [= Hempty]; apply Hcur; eauto|].
      split.
      - destruct (valid_duration_cases duration Hvalid) as [->|[->| ->]]; auto.
      - intros [= ->]. now apply Hmonths. }
    unfold bind, stripe_call, ret.
    destruct (coupon_New (coupon_params opts duration) w) as [[c [e|]] w1]; cbn;
      right; eexists _, _; (split; [reflexivity|]); (split; [reflexivity|]);
      (split; [exact Hok|]); split; intros [? ?]; eauto; discriminate. }
  destruct (c_PercentOff opts) as [p|] eqn:Hp, (c_AmountOff opts) as [a|] eqn:Ha;
    try (left; repeat split; discriminate).
  - replace (bool_decide (is_Some (@None Z))) with false by reflexivity. cbn [andb].
    set (duration := if String.eqb (c_Duration opts) "" then "once" else c_Duration opts).
    destruct (default false (validDurations !! duration)) eqn:Hvalid; cbn [negb];
      [|left; repeat split; discriminate].
    destruct (String.eqb_spec duration "repeating") as [Hrep|Hrep]; cbn [andb].
    + destruct (c_DurationInMonths opts) as [months|] eqn:Hmonths.
      * replace (bool_decide (is_Some (Some months))) with true by reflexivity. cbn [negb].
        apply (Hsend duration Hvalid); [eauto| |intros [? ?]; discriminate].
        split; [reflexivity | eauto].
      * left; repeat split; discriminate.
    + apply (Hsend duration Hvalid); [contradiction| |intros [? ?]; discriminate].
      split; [reflexivity | eauto].
  - replace (bool_decide (is_Some (Some a))) with true by reflexivity. cbn [andb].
    destruct (String.eqb_spec (c_Currency opts) "") as [Hempty|Hcur];
      [left; repeat split; discriminate|].
    set (duration := if String.eqb (c_Duration opts) "" then "once" else c_Duration opts).
    destruct (default false (validDurations !! duration)) eqn:Hvalid; cbn [negb];
      [|left; repeat split; discriminate].
    destruct (String.eqb_spec duration "repeating") as [Hrep|Hrep]; cbn [andb].
    + destruct (c_DurationInMonths opts) as [months|] eqn:Hmonths.
      * replace (bool_decide (is_Some (Some months))) with true by reflexivity. cbn [negb].
        apply (Hsend duration Hvalid); [eauto| |auto].
        split; [intros [? ?]; discriminate | discriminate].
      * left; repeat split; discriminate.
    + apply (Hsend duration Hvalid); [contradiction| |auto].
      split; [intros [? ?]; discriminate | discriminate].
Qed.

Lemma prompt_keeps_coupon (couponID : string) (w : World) :
  b_CouponID (fst (fst (fst (promptBatchCreateOptions couponID w)))) = couponID.
Proof.
  unfold promptBatchCreateOptions, bind, lift, ret.
  destruct (promptui_Run countPrompt w) as [[countStr [e|]] w1]; [reflexivity|].
  destruct (promptui_Run prefixPrompt w1) as [[prefix e1] w2].
  destruct (promptui_Run maxRedemptionsPrompt w2) as [[maxStr e2] w3]. reflexivity.
Qed.

(** X22: [CreatePromotionCode] sends nothing without a coupon ID or on
    a client that is not initialized, and one request otherwise.  The
    request names the coupon; it has a restrictions block exactly when
    [Restrictions], [MinimumAmount] or [FirstTimeTransaction] is
    given; a currency goes with a minimum amount only; and what
    [Restrictions] holds is never sent: two calls whose options differ
    in the content of [Restrictions] only run the same. *)
Theorem CreatePromotionCode_request (client : Client) (opts : PromotionCodeCreateOptions)
    (w : World) :
  (forall r r',
     CreatePromotionCode client (with_restrictions opts (Some r)) w
     = CreatePromotionCode client (with_restrictions opts (Some r')) w)
  /\ let '(pc, err, w', t) := CreatePromotionCode client opts w in
     (t = [] /\ pc = None /\ err <> None /\ w' = w
      /\ (IsInitialized client = false \/ pc_CouponID opts = ""))
     \/ exists p answer,
          t = [ {| sent := CallPromotionCodeNew p; failure := answer |} ]
          /\ IsInitialized client = true
          /\ pc_CouponID opts <> ""
          /\ pp_Coupon p = Some (pc_CouponID opts)
          /\ (is_Some (pp_Restrictions p)
              <-> is_Some (pc_Restrictions opts) \/ is_Some (pc_MinimumAmount opts)
                  \/ is_Some (pc_FirstTimeTransaction opts))
          /\ (forall r, pp_Restrictions p = Some r ->
              rp_MinimumAmount r = pc_MinimumAmount opts
              /\ rp_FirstTimeTransaction r = pc_FirstTimeTransaction opts
              /\ (is_Some (rp_MinimumAmountCurrency r) ->
                  is_Some (rp_MinimumAmount r) /\ pc_Currency opts <> "")).
Proof.
  split; [reflexivity|].
  unfold CreatePromotionCode.
  destruct (IsInitialized client); cbn [negb];
    [|left; repeat split; [discriminate | now left]].
  destruct (String.eqb_spec (pc_CouponID opts) "") as [Hid|Hid];
    [left; repeat split; [discriminate | now right]|].
  unfold bind, stripe_call, ret.
  assert (Hparams :
            pp_Coupon (promotion_params opts) = Some (pc_CouponID opts)
            /\ (is_Some (pp_Restrictions (promotion_params opts))
                <-> is_Some (pc_Restrictions opts) \/ is_Some (pc_MinimumAmount opts)
                    \/ is_Some (pc_FirstTimeTransaction opts))
            /\ (forall r, pp_Restrictions (promotion_params opts) = Some r ->
                rp_MinimumAmount r = pc_MinimumAmount opts
                /\ rp_FirstTimeTransaction r = pc_FirstTimeTransaction opts
                /\ (is_Some (rp_MinimumAmountCurrency r) ->
                    is_Some (rp_MinimumAmount r) /\ pc_Currency opts <> ""))).
  { split; [reflexivity|]. cbn. unfold restrictions_of. split.
    - destruct (pc_Restrictions opts), (pc_MinimumAmount opts),
        (pc_FirstTimeTransaction opts); cbn; split; intros Hgiven;
        first [ eexists; reflexivity
              | left; eexists; reflexivity
              | right; left; eexists; reflexivity
              | right; right; eexists; reflexivity
              | destruct Hgiven as [? ?]; discriminate
              | destruct Hgiven as [[? ?]|[[? ?]|[? ?]]]; discriminate ].
    - intros r Hr.
      assert (Hfields :
                rp_MinimumAmount r = pc_MinimumAmount opts
                /\ rp_FirstTimeTransaction r = pc_FirstTimeTransaction opts
                /\ rp_MinimumAmountCurrency r
                   = match pc_MinimumAmount opts with
                     | Some _ => nonempty (pc_Currency opts)
                     | None => None
                     end).
      { destruct (pc_Restrictions opts), (pc_MinimumAmount opts),
          (pc_FirstTimeTransaction opts); cbn in Hr; try discriminate;
          injection Hr as <-; repeat split. }
      destruct Hfields as (Hmin & Hfirst & Hcur).
      split; [exact Hmin|]. split; [exact Hfirst|].
      rewrite Hcur, Hmin. unfold nonempty.
      destruct (pc_MinimumAmount opts); [|intros [? ?]; discriminate].
      destruct (String.eqb_spec (pc_Currency opts) ""); [intros [? ?]; discriminate|].
      intros _. split; [eauto | assumption]. }
  destruct (promotioncode_New (promotion_params opts) w) as [[pc [e|]] w1]; cbn;
    right; eexists _, _; (split; [reflexivity|]); (split; [reflexivity|]);
    (split; [exact Hid|]); exact Hparams.
Qed.

(** X23: the batch command asks Stripe for the coupon before anything
    else and stops there when the coupon cannot be fetched; every
    creation request it sends afterwards names that coupon, and, when
    the count comes from the flag, carries the max-redemptions flag. *)
Theorem promoBatchCmd_verifies_coupon (client : Client) (couponID : string) (count : Z)
    (prefix : string) (maxRedemptions : Z) (w : World) :
  let '(result, _, t) := promoBatchCmd client couponID count prefix maxRedemptions w in
  (t = [] /\ IsInitialized client = false /\ result <> None)
  \/ exists x rest,
       t = x :: rest
       /\ sent x = CallCouponGet couponID
       /\ (is_Some (failure x) -> rest = [] /\ result <> None)
       /\ Forall (fun y =>
                    exists p,
                      sent y = CallPromotionCodeNew p
                      /\ pp_Coupon p = Some couponID
                      /\ (count <> 0 -> pp_MaxRedemptions p = Some maxRedemptions)) rest.
Proof.
  unfold promoBatchCmd. unfold bind at 1. unfold GetCoupon.
  destruct (IsInitialized client); cbn [negb].
  2: { unfold ret. cbn. left. repeat split. discriminate. }
  unfold bind at 1. unfold stripe_call at 1.
  destruct (coupon_Get couponID w) as [[coupon [e|]] w1]; cbn [snd ret].
  { unfold ret. cbn. right. eexists _, _. split; [reflexivity|].
    split; [reflexivity|]. split; [|constructor]. intros _. split; [reflexivity|discriminate]. }
  unfold ret at 1. cbn beta iota zeta. unfold bind at 1.
  match goal with
  | |- context [(if count =? 0 then ?a else ?b) w1] =>
      assert (Hopts : snd ((if count =? 0 then a else b) w1) = []
                      /\ b_CouponID (fst (fst (fst ((if count =? 0 then a else b) w1))))
                         = couponID
                      /\ (count <> 0 ->
                          b_MaxRedemptions (fst (fst (fst ((if count =? 0 then a else b) w1))))
                          = Some maxRedemptions));
      [|set (step := (if count =? 0 then a else b) w1) in *; clearbody step]
  end.
  { destruct (Z.eqb_spec count 0) as [Hzero|Hflag].
    - split; [apply ServiceFacts.prompt_sends_nothing|].
      split; [apply prompt_keeps_coupon | contradiction].
    - repeat split. }
  destruct step as [[[opts [e|]] w2] t2]; cbn in Hopts;
    destruct Hopts as (-> & Hid & Hmax).
  { unfold ret. cbn. right. eexists _, _. split; [reflexivity|].
    split; [reflexivity|]. split; [intros [? ?]; discriminate | constructor]. }
  unfold bind.
  pose proof (BatchCreate_sends_requests client opts w2) as Hsent.
  destruct (BatchCreatePromotionCodes client opts w2) as [[[codes err] w3] t3].
  cbn in Hsent.
  assert (Hrest : Forall (fun y =>
                    exists p,
                      sent y = CallPromotionCodeNew p
                      /\ pp_Coupon p = Some couponID
                      /\ (count <> 0 -> pp_MaxRedemptions p = Some maxRedemptions)) t3).
  { eapply Forall_impl; [exact Hsent|]. intros y [code Hy].
    eexists. split; [exact Hy|]. cbn. split; [now rewrite Hid | exact Hmax]. }
  destruct err as [e|]; [destruct (length codes =? 0)%nat|]; unfold ret; cbn;
    rewrite ?app_nil_r;
    right; eexists _, _; (split; [reflexivity|]); (split; [reflexivity|]);
    (split; [intros [? ?]; discriminate | exact Hrest]).
Qed.

(** X24: a client that is not initialized is refused by every
    operation of the two services, which then sends nothing and leaves
    the world alone; the batch command fails on it at the coupon. *)
Theorem uninitialized_client_refused (client : Client) (w : World) :
  IsInitialized client = false ->
  let refusal := Some (ErrText "client not initialized") in
  (forall couponID, ListPromotionCodes client couponID w = (([], refusal), w, []))
  /\ (forall id, GetPromotionCode client id w = ((None, refusal), w, []))
  /\ (forall opts, CreatePromotionCode client opts w = ((None, refusal), w, []))
  /\ (forall id active metadata,
        UpdatePromotionCode client id active metadata w = ((None, refusal), w, []))
  /\ (forall opts, BatchCreatePromotionCodes client opts w = (([], refusal), w, []))
  /\ ListCoupons client w = (([], refusal), w, [])
  /\ (forall id, GetCoupon client id w = ((None, refusal), w, []))
  /\ (forall opts, CreateCoupon client opts w = ((None, refusal), w, []))
  /\ (forall id opts, UpdateCoupon client id opts w = ((None, refusal), w, []))
  /\ (forall id, DeleteCoupon client id w = (refusal, w, []))
  /\ (forall couponID count prefix maxRedemptions,
        promoBatchCmd client couponID count prefix maxRedemptions w
        = (Some (Errorf_w "failed to verify coupon: "
                   (ErrText "client not initialized") ""), w, [])).
Proof.
  intros Hinit refusal.
  unfold ListPromotionCodes, GetPromotionCode, CreatePromotionCode, UpdatePromotionCode,
    BatchCreatePromotionCodes, ListCoupons, GetCoupon, CreateCoupon, UpdateCoupon,
    DeleteCoupon, promoBatchCmd, GetCoupon.
  rewrite Hinit. cbn [negb]. repeat split.
Qed.

End WithOutside.

End RequestFacts.

(** ** The status texts *)

Module StatusFacts.

(** X25: the two status texts of a promotion code agree.  The status is
    "Active" exactly for a code that is active, whose expiry (if it
    has one) is not in the past, and whose redemptions are below the
    limit (if it has one); a code reported as "Max redemptions reached"
    is shown with its limit, which it has reached; and a code without a
    limit is shown as unlimited and never reported as having reached
    it. *)
Theorem status_texts_agree (pc : PromotionCodeFields) (now : Z) :
  (FormatPromotionCodeStatus pc now = "Active"
   <-> f_Active pc = true
       /\ ~ (0 < f_ExpiresAt pc < now)
       /\ ~ (0 < f_MaxRedemptions pc <= f_TimesRedeemed pc))
  /\ (FormatPromotionCodeStatus pc now = "Max redemptions reached" ->
      FormatPromotionCodeRedemptions pc
      = fmt_d (f_TimesRedeemed pc) ++ "/" ++ fmt_d (f_MaxRedemptions pc)
      /\ f_MaxRedemptions pc <= f_TimesRedeemed pc)
  /\ (f_MaxRedemptions pc <= 0 ->
      FormatPromotionCodeRedemptions pc = fmt_d (f_TimesRedeemed pc) ++ "/unlimited"
      /\ FormatPromotionCodeStatus pc now <> "Max redemptions reached").
Proof.
  unfold FormatPromotionCodeStatus, FormatPromotionCodeRedemptions.
  destruct (f_Active pc); cbn [negb];
    destruct (Z.ltb_spec 0 (f_ExpiresAt pc)), (Z.ltb_spec (f_ExpiresAt pc) now),
      (Z.ltb_spec 0 (f_MaxRedemptions pc)),
      (Z.leb_spec (f_MaxRedemptions pc) (f_TimesRedeemed pc)); cbn [andb];
    (split; [split|split]).
  all: try (intros (Hactive & Hexp & Hmax); first [reflexivity | discriminate | exfalso; lia]).
  all: try (intros Hnone; first [exfalso; lia | split; [reflexivity | discriminate]]).
  all: intros Htext; try discriminate Htext.
  all: first [split; [reflexivity | lia] | repeat split; try reflexivity; lia].
Qed.

End StatusFacts.

(** ** The further properties on the reference host, the scripted
    terminal and the scripted world *)

Module FurtherExamples.

Import RefHost Scripted Terminal.

Lemma scripted_suffix_in_range : suffix_in_range (H := scripted).
Proof. intros seed. simpl. apply Z.mod_pos_bound. lia. Qed.

Lemma counting_in_range : draws_in_range (H := counting).
Proof. intros seed k n Hn. simpl. now apply Z.mod_pos_bound. Qed.

(** "staging" is none of the two environments; "prod" becomes
    current. *)
Lemma SetCurrentEnvironment_spec_witness :
  (exists e, SetCurrentEnvironment "staging" two_manager empty_disk
             = (Some e, two_manager, empty_disk)
             /\ errors_Is e ErrEnvironmentNotFound = true)
  /\ (exists m1,
        snd (fst (SetCurrentEnvironment "prod" two_manager empty_disk)) = m1
        /\ GetCurrentEnvironment m1 = "prod"
        /\ current_ok m1).
Proof.
  pose proof (ManagerFacts.SetCurrentEnvironment_spec (H := ref_host)
                "staging" two_manager empty_disk two_envs eq_refl) as [Habsent _].
  pose proof (ManagerFacts.SetCurrentEnvironment_spec (H := ref_host)
                "prod" two_manager empty_disk two_envs eq_refl) as [_ Hpresent].
  split; [apply Habsent; reflexivity|].
  destruct Hpresent as (m1 & Hcall & Hcur & _ & _ & Hok); [vm_compute; eauto|].
  exists m1. rewrite Hcall. repeat split; assumption.
Defined.

(** A publishable key is refused for "test"; a secret key is stored,
    and the currency and the output format of "test" stay. *)
Lemma UpdateEnvironmentAPIKey_spec_witness :
  (exists e, UpdateEnvironmentAPIKey "test" "pk_test_0123456789abcdef" two_manager empty_disk
             = (Some e, two_manager, empty_disk))
  /\ (exists m1,
        snd (fst (UpdateEnvironmentAPIKey "test" test_key two_manager empty_disk)) = m1
        /\ env_of m1 "test" = Some keyed_env
        /\ env_of m1 "prod" = env_of two_manager "prod").
Proof.
  pose proof (ManagerFacts.UpdateEnvironmentAPIKey_spec (H := ref_host)
                "test" "pk_test_0123456789abcdef" two_manager empty_disk two_envs eq_refl)
    as (_ & Hrefused & _).
  pose proof (ManagerFacts.UpdateEnvironmentAPIKey_spec (H := ref_host)
                "test" test_key two_manager empty_disk two_envs eq_refl)
    as (_ & _ & Hstored).
  split.
  - eexists. apply Hrefused; [vm_compute; eauto | reflexivity].
  - destruct (Hstored test_env) as (m1 & Hcall & Hkey & Hothers & _);
      [reflexivity | reflexivity|].
    exists m1. rewrite Hcall. split; [reflexivity|]. split; [exact Hkey|].
    apply Hothers. discriminate.
Defined.

(** On the reference host, the file holds the configuration after
    "prod" was made current. *)
Lemma mutations_persist_witness :
  on_disk (H := ref_host)
    (snd (fst (SetCurrentEnvironment "prod" two_manager empty_disk)))
    (snd (SetCurrentEnvironment "prod" two_manager empty_disk)).
Proof.
  destruct (ManagerFacts.mutations_persist (H := ref_host) two_manager empty_disk
              ConfigExamples.ref_host_reads_back) as (_ & _ & Hset & _).
  apply (Hset "prod"). vm_compute. reflexivity.
Defined.

(** "prod" added to the default configuration: two environments, and
    removing it again leaves the default ones.  "prod" added to a
    manager without environments cannot be removed again. *)
Lemma AddEnvironment_then_Remove_witness :
  (exists m1,
     env_of m1 "prod" = Some (with_defaults prod_env)
     /\ env_count m1 = 2%nat
     /\ exists c2,
          config (snd (fst (RemoveEnvironment 0 "prod" m1 empty_disk))) = Some c2
          /\ CurrentEnvironment c2 = "test")
  /\ (exists r m1 fs1,
        AddEnvironment "prod" prod_env bare_manager empty_disk = Returns (r, m1, fs1)
        /\ env_count m1 = 1%nat
        /\ RemoveEnvironment 0 "prod" m1 empty_disk
           = (Some (ErrText "cannot remove the last environment"), m1, empty_disk)).
Proof.
  split.
  - destruct (ManagerFacts.AddEnvironment_then_Remove (H := ref_host)
                "prod" prod_env fresh_manager empty_disk DefaultConfig _ eq_refl eq_refl)
      as (r & m1 & fs1 & _ & Hstored & _ & Hnew).
    + discriminate.
    + right. reflexivity.
    + exists m1. split; [exact Hstored|].
      destruct Hnew as (Hcount & Hremove & _); [reflexivity|].
      split; [exact Hcount|].
      destruct (Hremove ltac:(discriminate) 0%nat empty_disk) as (c2 & Hc2 & _ & Hcur).
      exists c2. split; [exact Hc2|]. apply Hcur. discriminate.
  - destruct (ManagerFacts.AddEnvironment_then_Remove (H := ref_host)
                "prod" prod_env bare_manager empty_disk
                {| CurrentEnvironment := "test"; Environments := Some ∅ |} ∅
                eq_refl eq_refl)
      as (r & m1 & fs1 & Hadd & _ & _ & Hnew).
    + discriminate.
    + right. reflexivity.
    + exists r, m1, fs1. split; [exact Hadd|].
      destruct Hnew as (Hcount & _ & Hlast); [reflexivity|].
      split; [exact Hcount|]. now apply Hlast.
Defined.

(** [promo list --env staging] on a new configuration. *)
Lemma PersistentPreRunE_missing_environment_witness :
  exists e,
    fst (fst (fst (PersistentPreRunE (H := ref_host) (H0 := terminal)
                     "list" (Some "promo") "staging"
                     (session (NewManager empty_disk)) empty_disk (typing [] []))))
    = Some e
    /\ Error e = "environment not found: staging".
Proof.
  destruct (SessionFacts.PersistentPreRunE_missing_environment
              (H := ref_host) (H0 := terminal)
              "list" (Some "promo") "staging" (session (NewManager empty_disk))
              empty_disk (snd (Load (NewManager empty_disk) empty_disk)) (typing [] [])
              (snd (fst (Load (NewManager empty_disk) empty_disk))))
    as (e & Hrun & Htext & _).
  - discriminate.
  - discriminate.
  - vm_compute. reflexivity.
  - vm_compute. reflexivity.
  - exists e. rewrite Hrun. split; [reflexivity | exact Htext].
Defined.

(** [config add-env test] on a new configuration is refused; [config
    add-env prod] stores the key that is typed. *)
Lemma configAddEnvCmd_keeps_existing_witness :
  (exists m1 fs1,
     configAddEnvCmd (H := ref_host) (H0 := terminal) "test" (NewManager empty_disk)
       empty_disk (typing [test_key] [])
     = Returns (Some (ErrText "environment 'test' already exists"), m1, fs1,
                typing [test_key] []))
  /\ (exists m2 fs2 tty2,
        configAddEnvCmd (H := ref_host) (H0 := terminal) "prod" (NewManager empty_disk)
          empty_disk (typing [test_key] [])
        = Returns (None, m2, fs2, tty2)
        /\ env_of m2 "test" = Some test_env
        /\ env_of m2 "prod" = Some keyed_env).
Proof.
  pose proof (SessionFacts.configAddEnvCmd_keeps_existing (H := ref_host) (H0 := terminal)
                "test" (NewManager empty_disk)
                (snd (fst (Load (NewManager empty_disk) empty_disk)))
                empty_disk (snd (Load (NewManager empty_disk) empty_disk))
                (typing [test_key] []) ltac:(vm_compute; reflexivity)) as [Htaken _].
  pose proof (SessionFacts.configAddEnvCmd_keeps_existing (H := ref_host) (H0 := terminal)
                "prod" (NewManager empty_disk)
                (snd (fst (Load (NewManager empty_disk) empty_disk)))
                empty_disk (snd (Load (NewManager empty_disk) empty_disk))
                (typing [test_key] []) ltac:(vm_compute; reflexivity))
    as [_ (r & m2 & fs2 & tty2 & Hrun & Hkept & Hnew)].
  split.
  - eexists _, _. apply Htaken. vm_compute. eauto.
  - assert (Hr : r = None).
    { assert (Hfst : match configAddEnvCmd (H := ref_host) (H0 := terminal) "prod"
                             (NewManager empty_disk) empty_disk (typing [test_key] []) with
                     | Returns (r0, _, _, _) => r0 = None
                     | Panics _ => False
                     end) by (vm_compute; reflexivity).
      rewrite Hrun in Hfst. exact Hfst. }
    subst r. exists m2, fs2, tty2. split; [exact Hrun|].
    split; [apply Hkept; vm_compute; reflexivity|].
    assert (Hprod : env_of m2 "prod" = Some keyed_env).
    { assert (Hsnd : match configAddEnvCmd (H := ref_host) (H0 := terminal) "prod"
                             (NewManager empty_disk) empty_disk (typing [test_key] []) with
                     | Returns (_, m, _, _) => env_of m "prod" = Some keyed_env
                     | Panics _ => False
                     end) by (vm_compute; reflexivity).
      rewrite Hrun in Hsnd. exact Hsnd. }
    exact Hprod.
Defined.

(** The third code of a batch with the prefix "sale". *)
Lemma generatePromotionCode_format_witness :
  exists suffix,
    fst (fst (generatePromotionCode (H := scripted) "sale" 3 (world [])))
    = "SALE3_" ++ suffix
    /\ five_digits suffix = true.
Proof.
  destruct (CodeFacts.generatePromotionCode_format (H := scripted) "sale" 3 (world [])
              scripted_suffix_in_range ltac:(lia))
    as (suffix & Hcode & _ & Hfive & _).
  exists suffix. split; [exact Hcode | exact Hfive].
Defined.

(** A single code with the prefix "bear". *)
Lemma GenerateSinglePromotionCode_format_witness :
  exists suffix,
    fst (GenerateSinglePromotionCode (H := scripted) (H0 := counting) "bear" (world []))
    = Returns ("BEAR_" ++ suffix)
    /\ String.length suffix = 8%nat
    /\ all_chars in_charset suffix = true.
Proof.
  destruct (CodeFacts.GenerateSinglePromotionCode_format (H := scripted) (H0 := counting)
              "bear" (world []) counting_in_range)
    as (suffix & Hcode & Hlen & Hall).
  exists suffix. rewrite Hcode. repeat split; assumption.
Defined.

(** The fifth request of ten for the coupon "co_1". *)
Lemma BatchCreate_requests_witness :
  exists x p suffix,
    snd (BatchCreatePromotionCodes ready (batch_of "co_1" 10 "sale") (world three_of_ten))
      !! 4%nat = Some x
    /\ sent x = CallPromotionCodeNew p
    /\ pp_Code p = Some (code_text "SALE" 5 suffix)
    /\ pp_Coupon p = Some "co_1"
    /\ pp_Restrictions p = None.
Proof.
  assert (Hx : exists x,
            snd (BatchCreatePromotionCodes ready (batch_of "co_1" 10 "sale")
                   (world three_of_ten)) !! 4%nat = Some x) by (vm_compute; eauto).
  destruct Hx as [x Hx].
  destruct (RequestFacts.BatchCreate_requests (H := scripted)
              ready (batch_of "co_1" 10 "sale") (world three_of_ten)
              eq_refl ltac:(discriminate) ltac:(simpl; lia) 4%nat x Hx)
    as (p & suffix & Hsent & Hcode & Hcoupon & _ & _ & _ & _ & _ & Hnone & _).
  exists x, p, suffix. split; [exact Hx|]. split; [exact Hsent|].
  split; [exact Hcode|]. split; [exact Hcoupon|]. apply Hnone. split; reflexivity.
Defined.

(** The ten codes of that batch are all different. *)
Lemma BatchCreate_codes_distinct_witness :
  NoDup (map sent_code
           (snd (BatchCreatePromotionCodes ready (batch_of "co_1" 10 "sale")
                   (world three_of_ten)))).
Proof.
  apply (RequestFacts.BatchCreate_codes_distinct (H := scripted)
           ready (batch_of "co_1" 10 "sale") (world three_of_ten)
           eq_refl ltac:(discriminate) ltac:(simpl; lia)).
Defined.

(** Ten requests, none refused: ten codes and no error. *)
Lemma BatchCreate_all_created_witness :
  let run := BatchCreatePromotionCodes ready (batch_of "co_1" 10 "sale") (world []) in
  snd (fst (fst run)) = None /\ length (fst (fst (fst run))) = 10%nat.
Proof.
  intros run.
  destruct (RequestFacts.BatchCreate_all_created (H := scripted)
              ready (batch_of "co_1" 10 "sale") (world []) (snd (fst run))
              (fst (fst (fst run))) (snd (fst (fst run))) (snd run))
    as (Herr & Hlen & _).
  - reflexivity.
  - discriminate.
  - simpl. lia.
  - vm_compute. reflexivity.
  - vm_compute. reflexivity.
  - split; [exact Herr | exact Hlen].
Defined.

(** A client fresh from [NewClient]. *)
Lemma uninitialized_client_refused_witness :
  GetCoupon (H := scripted) NewClient "co_1" (world [])
  = ((None, Some (ErrText "client not initialized")), world [], [])
  /\ promoBatchCmd (H := scripted) NewClient "co_1" 10 "sale" 0 (world [])
     = (Some (Errorf_w "failed to verify coupon: " (ErrText "client not initialized") ""),
        world [], []).
Proof.
  destruct (RequestFacts.uninitialized_client_refused (H := scripted) NewClient (world [])
              eq_refl) as (_ & _ & _ & _ & _ & _ & Hget & _ & _ & _ & Hcmd).
  split; [apply Hget | apply Hcmd].
Defined.

(** A manager made by [NewManager] or reset holds a map, and adding to
    it returns. *)
Lemma allocated_invariant_witness :
  exists r,
    AddEnvironment "prod" prod_env (snd (fst (Reset two_manager empty_disk))) empty_disk
    = Returns r
    /\ allocated (snd (fst r)).
Proof.
  destruct (ManagerFacts.allocated_invariant (H := ref_host) two_manager empty_disk)
    as (_ & Hreset & _).
  destruct (ManagerFacts.allocated_invariant (H := ref_host)
              (snd (fst (Reset two_manager empty_disk))) empty_disk)
    as (_ & _ & Hkeep).
  destruct (Hkeep Hreset) as (_ & Hadd & _).
  exact (Hadd "prod" prod_env).
Defined.

(** After a reset the current environment exists, and it still does
    when "prod" was added and "test" removed. *)
Lemma current_ok_invariant_witness :
  let m0 := snd (fst (Reset two_manager empty_disk)) in
  current_ok m0
  /\ current_ok (snd (fst (RemoveEnvironment 0 "test" m0 empty_disk)))
  /\ current_ok (snd (fst (SetCurrentEnvironment "staging" m0 empty_disk))).
Proof.
  intros m0.
  destruct (ManagerFacts.current_ok_invariant (H := ref_host) two_manager empty_disk)
    as (Hreset & _).
  destruct (ManagerFacts.current_ok_invariant (H := ref_host) m0 empty_disk)
    as (_ & _ & _ & Hkeep).
  destruct (Hkeep Hreset) as (_ & Hremove & Hset & _).
  split; [exact Hreset|]. split; [apply Hremove | apply Hset].
Defined.

(** A file that is no JSON document, and a missing file. *)
Lemma Load_outcomes_witness :
  (exists err,
     Load (NewManager (disk_with "oops")) (disk_with "oops")
     = (Some (Errorf_w "failed to parse config file: " err ""),
        NewManager (disk_with "oops"), disk_with "oops"))
  /\ (exists c g,
        config (snd (fst (Load (NewManager empty_disk) empty_disk))) = Some c
        /\ Environments c = Some g
        /\ CurrentEnvironment c <> "").
Proof.
  destruct (ManagerFacts.Load_outcomes (H := ref_host)
              (NewManager (disk_with "oops")) (disk_with "oops")) as (_ & Hparse & _).
  destruct (ManagerFacts.Load_outcomes (H := ref_host)
              (NewManager empty_disk) empty_disk) as (_ & _ & _ & Hloaded).
  split.
  - destruct (json_Unmarshal (Host := ref_host) "oops") as [cfg|err] eqn:Hjson;
      [vm_compute in Hjson; discriminate|].
    exists err. apply (Hparse "oops"); [reflexivity | exact Hjson].
  - destruct Hloaded as (c & g & Hc & Hg & Hcur & _); [vm_compute; reflexivity|].
    exists c, g. repeat split; assumption.
Defined.

(** After a reset every key is empty or well formed, and this stays so
    when a key is set. *)
Lemma keys_ok_invariant_witness :
  let m0 := snd (fst (Reset two_manager empty_disk)) in
  keys_ok m0
  /\ keys_ok (snd (fst (UpdateEnvironmentAPIKey "test" test_key m0 empty_disk))).
Proof.
  intros m0.
  destruct (ManagerFacts.keys_ok_invariant (H := ref_host) two_manager empty_disk)
    as (Hreset & _).
  destruct (ManagerFacts.keys_ok_invariant (H := ref_host) m0 empty_disk)
    as (_ & _ & Hkeep).
  destruct (Hkeep Hreset) as (_ & _ & _ & Hupdate).
  split; [exact Hreset | apply Hupdate].
Defined.

(** A new client is bound to the key of the current environment. *)
Lemma Initialize_spec_witness :
  Initialize keyed_manager "" NewClient "" = (None, {| sc := Some test_key |}, test_key)
  /\ Initialize fresh_manager "" NewClient ""
     = (fst (fst (Initialize fresh_manager "" NewClient "")), NewClient, "").
Proof.
  destruct (ClientFacts.Initialize_spec keyed_manager "" NewClient "") as (Hbind & _).
  destruct (ClientFacts.Initialize_spec fresh_manager "" NewClient "") as (_ & _ & Hfail).
  split.
  - apply (Hbind keyed_env); [reflexivity | discriminate].
  - destruct (fst (fst (Initialize fresh_manager "" NewClient ""))) as [e|] eqn:Hr;
      [|vm_compute in Hr; discriminate].
    now apply Hfail.
Defined.

(** A key typed with blanks around it. *)
Lemma PromptAPIKey_spec_witness :
  fst (fst (PromptAPIKey (H0 := terminal) "test"
              (typing ["  sk_test_0123456789abcdef "] [])))
  = test_key
  /\ well_formed test_key = true.
Proof.
  pose proof (SessionFacts.PromptAPIKey_spec (H0 := terminal) "test"
                (typing ["  sk_test_0123456789abcdef "] [])) as Hspec.
  assert (Hrun : PromptAPIKey (H0 := terminal) "test"
                   (typing ["  sk_test_0123456789abcdef "] [])
                 = (test_key, None, typing [] [])) by (vm_compute; reflexivity).
  rewrite Hrun in Hspec. destruct Hspec as (_ & Hkey & _).
  destruct (Hkey eq_refl) as [_ Hwf].
  split; [now rewrite Hrun | exact Hwf].
Defined.

(** "test" of the default configuration has no key: the key that is
    typed is stored. *)
Lemma EnsureAPIKey_spec_witness :
  let run := EnsureAPIKey (H := ref_host) (H0 := terminal) "test" fresh_manager empty_disk
               (typing [test_key] []) in
  fst (fst (fst run)) = None
  /\ exists env, env_of (snd (fst (fst run))) "test" = Some env /\ StripeAPIKey env <> "".
Proof.
  intros run.
  destruct (SessionFacts.EnsureAPIKey_spec (H := ref_host) (H0 := terminal)
              "test" fresh_manager empty_disk (typing [test_key] [])) as (_ & _ & Hdone).
  destruct (Hdone (snd (fst (fst run))) (snd (fst run)) (snd run)) as (Hkey & _);
    [vm_compute; reflexivity|].
  split; [vm_compute; reflexivity | exact Hkey].
Defined.

(** [promo list] on a new configuration, the key being typed when it is
    asked for. *)
Lemma PersistentPreRunE_spec_witness :
  let run := PersistentPreRunE (H := ref_host) (H0 := terminal) "list" (Some "promo") ""
               (session (NewManager empty_disk)) empty_disk (typing [test_key] []) in
  fst (fst (fst run)) = None
  /\ IsInitialized (stripeClient (snd (fst (fst run)))) = true
  /\ stripe_Key (snd (fst (fst run))) = test_key.
Proof.
  intros run.
  destruct (SessionFacts.PersistentPreRunE_spec (H := ref_host) (H0 := terminal)
              "list" (Some "promo") "" (session (NewManager empty_disk)) empty_disk
              (typing [test_key] [])) as (_ & _ & Hbound).
  destruct (Hbound ltac:(discriminate) ltac:(discriminate)
              (snd (fst (fst run))) (snd (fst run)) (snd run))
    as (env & Henv & _ & Hinit & _ & Hkey); [vm_compute; reflexivity|].
  split; [vm_compute; reflexivity|]. split; [exact Hinit|].
  rewrite Hkey.
  assert (Hstored : env_of (configManager (snd (fst (fst run)))) "test" = Some keyed_env)
    by (vm_compute; reflexivity).
  assert (Htarget : (if String.eqb "" ""
                     then GetCurrentEnvironment (configManager (snd (fst (fst run))))
                     else "") = "test") by (vm_compute; reflexivity).
  rewrite Htarget, Hstored in Henv. now injection Henv as <-.
Defined.

(** [config reset] answered with "No". *)
Lemma confirmation_guards_witness :
  configResetCmd (H := ref_host) (H0 := terminal) two_manager empty_disk (typing [] ["No"])
  = (None, two_manager, empty_disk, typing [] [])
  /\ fst (fst (fst (configRemoveEnvCmd (H := ref_host) (H0 := terminal) 0 "test"
                      two_manager (disk_with "{}") (typing [] ["No"])))) = None.
Proof.
  destruct (SessionFacts.confirmation_guards (H := ref_host) (H0 := terminal)
              0 "test" two_manager empty_disk (typing [] ["No"])) as (_ & Hreset).
  destruct (SessionFacts.confirmation_guards (H := ref_host) (H0 := terminal)
              0 "test" two_manager (disk_with "{}") (typing [] ["No"])) as (Hremove & _).
  split.
  - apply (Hreset 1 "No" None); [reflexivity | now right].
  - erewrite (Hremove _ _ 1 "No" None (typing [] []));
      [reflexivity | vm_compute; reflexivity | reflexivity | now right].
Defined.

(** [config use staging] and [config set-key test] on a new
    configuration. *)
Lemma config_use_and_set_key_witness :
  let loaded := Load (NewManager empty_disk) empty_disk in
  let set := configSetKeyCmd (H := ref_host) (H0 := terminal) "test"
               (NewManager empty_disk) empty_disk (typing [test_key] []) in
  (exists e,
     configUseCmd (H := ref_host) "staging" (NewManager empty_disk) empty_disk
     = (Some e, snd (fst loaded), snd loaded)
     /\ errors_Is e ErrEnvironmentNotFound = true)
  /\ (exists env key,
        env_of (snd (fst (fst set))) "test"
        = Some {| StripeAPIKey := key; DefaultCurrency := DefaultCurrency env;
                  OutputFormat := OutputFormat env |}
        /\ well_formed key = true).
Proof.
  intros loaded set.
  destruct (SessionFacts.config_use_and_set_key (H := ref_host) (H0 := terminal)
              "staging" (NewManager empty_disk) (snd (fst loaded)) empty_disk (snd loaded)
              (typing [] [])) as (Habsent & _); [vm_compute; reflexivity|].
  destruct (SessionFacts.config_use_and_set_key (H := ref_host) (H0 := terminal)
              "test" (NewManager empty_disk) (snd (fst loaded)) empty_disk (snd loaded)
              (typing [test_key] [])) as (_ & _ & Hset); [vm_compute; reflexivity|].
  split.
  - destruct Habsent as [Huse _]; [vm_compute; reflexivity | exact Huse].
  - destruct (Hset (snd (fst (fst set))) (snd (fst set)) (snd set))
      as (env & key & _ & Hnew & Hwf & _); [vm_compute; reflexivity|].
    exists env, key. split; [exact Hnew | exact Hwf].
Defined.

End FurtherExamples.
